(** * Textbook generator: retry loops, validators and batch orchestration

    A shallow embedding of the generation / validation core of the
    textbook generator (agents/content_generator and
    backend/src/services/generation_service.py), with the properties of
    its specification stated and settled against the embedded code.

    Python values are modelled as follows.
    - [str] is a list of Unicode code points ([N]); [len] is [length].
    - [int] is [Z]; lengths and loop counters that are never negative
      are [nat].
    - Exceptions are an inductive type; a call that may raise returns a
      sum, and [try]/[except] is a match on the exception class.
    - External services (the model provider, the markdown parser, the
      JSON decoder, the database commit) are Section variables. *)

From Stdlib Require Import ZArith NArith Bool Lia Ascii DecimalString.
From Stdlib Require Import QArith Lqa.
From Stdlib Require String.
From Stdlib Require Import List.
Import ListNotations.
Import String.StringSyntax.
Close Scope Q_scope.
Delimit Scope string_scope with string.


(* ================================================================== *)
(** ** Python strings *)

Module PyStr.

Definition char := N.
Definition str := list char.

(** A Rocq string literal read as a Python [str] (one code point per
    character; only ASCII literals are used). *)
Definition lit (s : String.string) : str :=
  map N_of_ascii (String.list_ascii_of_string s).
Arguments lit _%_string.

Definition NL : char := 10%N.
Definition DQ : char := 34%N.
Definition nl : str := [NL].
Definition dq : str := [DQ].

(** [str.isspace] on one code point: the Unicode whitespace set used by
    [str.split()], [str.strip()] and the regex class [\s]. *)
Definition isspace (c : char) : bool :=
  ((9 <=? c) && (c <=? 13) || (28 <=? c) && (c <=? 32)
   || (c =? 133) || (c =? 160) || (c =? 5760)
   || (8192 <=? c) && (c <=? 8202)
   || (c =? 8232) || (c =? 8233) || (c =? 8239) || (c =? 8287)
   || (c =? 12288))%N.

Fixpoint eqb (a b : str) : bool :=
  match a, b with
  | [], [] => true
  | x :: a', y :: b' => (x =? y)%N && eqb a' b'
  | _, _ => false
  end.

Fixpoint startswith (p s : str) : bool :=
  match p, s with
  | [], _ => true
  | x :: p', y :: s' => (x =? y)%N && startswith p' s'
  | _ :: _, [] => false
  end.

Definition endswith (p s : str) : bool := startswith (rev p) (rev s).

(** [needle in s] *)
Fixpoint contains (needle s : str) : bool :=
  startswith needle s ||
  match s with
  | [] => false
  | _ :: t => contains needle t
  end.

Fixpoint lstrip (s : str) : str :=
  match s with
  | c :: t => if isspace c then lstrip t else s
  | [] => []
  end.

Definition rstrip (s : str) : str := rev (lstrip (rev s)).

Definition strip (s : str) : str := rstrip (lstrip s).

(** [s.split()]: maximal runs of non-whitespace; [w] is the word being
    read, most recent character first. *)
Fixpoint split_acc (w : str) (s : str) : list str :=
  match s with
  | [] => match w with [] => [] | _ => [rev w] end
  | c :: t =>
      if isspace c
      then match w with
           | [] => split_acc [] t
           | _ => rev w :: split_acc [] t
           end
      else split_acc (c :: w) t
  end.

Definition split (s : str) : list str := split_acc [] s.

(** [sep.join(parts)] *)
Fixpoint join (sep : str) (parts : list str) : str :=
  match parts with
  | [] => []
  | [p] => p
  | p :: rest => p ++ sep ++ join sep rest
  end.

(** [str(n)] for an int *)
Definition of_Z (z : Z) : str := lit (NilEmpty.string_of_int (Z.to_int z)).
Definition of_nat (n : nat) : str := of_Z (Z.of_nat n).

End PyStr.

Import PyStr.

(** [enumerate(l, start)] *)
Definition enumerate {A} (start : nat) (l : list A) : list (nat * A) :=
  combine (seq start (length l)) l.

(** [not s] for a string *)
Definition is_empty (s : str) : bool :=
  match s with [] => true | _ :: _ => false end.

(* ================================================================== *)
(** ** The regular expressions of validator.py

    Each pattern is embedded as the function the regex engine computes
    for it: leftmost match at each position, greedy or lazy repetition
    with backtracking, and the non-overlapping left-to-right scan of
    [re.sub] and [re.findall]. *)

Module Regex.

Definition BACKTICK : char := 96%N.
Definition HASH : char := 35%N.
Definition fence : str := [BACKTICK; BACKTICK; BACKTICK].

Definition is_newline (c : char) : bool := (c =? NL)%N.

(** First position at or after the start of [s] where a fence begins,
    as the number of characters before it. *)
Fixpoint find_fence (s : str) : option nat :=
  if startswith fence s then Some 0%nat
  else match s with
       | [] => None
       | _ :: t => option_map S (find_fence t)
       end.

(** Length of the match of [```[\s\S]*?```] at the start of [s], if any:
    an opening fence, the shortest text up to a closing fence. *)
Definition fence_match_len (s : str) : option nat :=
  if startswith fence s
  then option_map (fun n => (3 + n + 3)%nat) (find_fence (skipn 3 s))
  else None.

(** Length of the maximal prefix of [s] whose characters satisfy [p]. *)
Fixpoint span_len (p : char -> bool) (s : str) : nat :=
  match s with
  | c :: t => if p c then S (span_len p t) else 0%nat
  | [] => 0%nat
  end.

Definition is_backtick (c : char) : bool := (c =? BACKTICK)%N.

(** Length of the match of [`[^`]+`] at the start of [s], if any. *)
Definition inline_match_len (s : str) : option nat :=
  match s with
  | c :: t =>
      if is_backtick c then
        let run := span_len (fun x => negb (is_backtick x)) t in
        if (0 <? run)%nat && startswith [BACKTICK] (skipn run t)
        then Some (1 + run + 1)%nat
        else None
      else None
  | [] => None
  end.

(** [re.sub] of a pattern by the empty string, for a pattern that never matches the empty
    string: scan left to right; at a position where the pattern matches,
    drop the match and resume after it ([skip] counts the characters of
    the current match still to drop). *)
Fixpoint sub_empty (match_len : str -> option nat) (skip : nat) (s : str) : str :=
  match s with
  | [] => []
  | c :: t =>
      match skip with
      | S k => sub_empty match_len k t
      | O =>
          match match_len s with
          | Some len => sub_empty match_len (Nat.pred len) t
          | None => c :: sub_empty match_len 0 t
          end
      end
  end.

(** The character class [[#*_\[\]()!]]. *)
Definition is_markdown_syntax (c : char) : bool :=
  ((c =? 35) || (c =? 42) || (c =? 95) || (c =? 91) || (c =? 93)
   || (c =? 40) || (c =? 41) || (c =? 33))%N.

(** [\s+.+$] at the start of [rest]: [.+$] is tried after [\s+] has
    taken [k] characters, then [k-1], ..., 1 (backtracking); [.+] takes
    the rest of the line, which must be non-empty.  The result gives the
    characters taken by [\s+] and by [.+]. *)
Fixpoint line_backtrack (k : nat) (rest : str) : option (nat * nat) :=
  match k with
  | O => None
  | S k' =>
      let line := span_len (fun x => negb (is_newline x)) (skipn k rest) in
      if (0 <? line)%nat then Some (k, line)
      else line_backtrack k' rest
  end.

(** Length of the match of [^#{hashes}\s+.+$] (MULTILINE) at [s], a
    position at the start of a line. *)
Definition heading_match_len (hashes : nat) (s : str) : option nat :=
  if startswith (repeat HASH hashes) s then
    let rest := skipn hashes s in
    option_map (fun m => (hashes + fst m + snd m)%nat)
      (line_backtrack (span_len isspace rest) rest)
  else None.

(** [len(pattern.findall(s))] for a heading pattern: [bol] tells whether
    the current position is at the start of a line, [skip] counts the
    characters of the current match still to pass. *)
Fixpoint count_headings (hashes : nat) (skip : nat) (bol : bool) (s : str) : nat :=
  match s with
  | [] => 0%nat
  | c :: t =>
      match skip with
      | S k => count_headings hashes k (is_newline c) t
      | O =>
          match (if bol then heading_match_len hashes s else None) with
          | Some len => S (count_headings hashes (Nat.pred len) (is_newline c) t)
          | None => count_headings hashes 0 (is_newline c) t
          end
      end
  end.

Definition findall_count_heading (hashes : nat) (s : str) : nat :=
  count_headings hashes 0 true s.

(** *** The learning-objectives patterns *)

(** Case-insensitive match of one character of the literal
    [learning objective] (given in lower case) against a character of
    the text: the letter itself, its capital, and for [i] and [s] the
    further characters the engine folds to them (U+0130, U+0131 and
    U+017F). *)
Definition ci_match (p c : char) : bool :=
  ((c =? p) || ((97 <=? p) && (p <=? 122) && (c =? p - 32))
   || ((p =? 105) && ((c =? 304) || (c =? 305)))
   || ((p =? 115) && (c =? 383)))%N.

(** The text after the literal [p], matched case-insensitively at the
    start of [s]. *)
Fixpoint ci_literal (p s : str) : option str :=
  match p, s with
  | [], _ => Some s
  | x :: p', y :: s' => if ci_match x y then ci_literal p' s' else None
  | _ :: _, [] => None
  end.

(** Index of the last newline among the first [n] characters of [s]. *)
Fixpoint last_newline (n : nat) (s : str) : option nat :=
  match n, s with
  | S n', c :: t =>
      match last_newline n' t with
      | Some i => Some (S i)
      | None => if is_newline c then Some 0%nat else None
      end
  | _, _ => None
  end.

(** [\s*\n] at the start of [s]: the longest run of whitespace that
    still leaves a newline to match; the text after that newline. *)
Definition ws_then_newline (s : str) : option str :=
  match last_newline (span_len isspace s) s with
  | Some i => Some (skipn (S i) s)
  | None => None
  end.

(** [(.*?)(?=\n##|\Z)] with DOTALL at the start of [s]: the shortest
    text followed by a newline and two hash marks, or else all of [s]. *)
Fixpoint until_next_section (s : str) : str :=
  if startswith [NL; HASH; HASH] s then []
  else match s with
       | [] => []
       | c :: t => c :: until_next_section t
       end.

(** Group 1 of the match of
    [##\s*Learning Objectives?\s*\n(.*?)(?=\n##|\Z)]
    (IGNORECASE, DOTALL) at the start of [s], if it matches there. *)
Definition objectives_match (s : str) : option str :=
  if startswith [HASH; HASH] s then
    let rest := skipn 2 s in
    let rest := skipn (span_len isspace rest) rest in
    match ci_literal (lit "learning objective") rest with
    | None => None
    | Some rest =>
        let without_s := ws_then_newline rest in
        let with_s :=
          match rest with
          | c :: t => if ci_match 115%N c then ws_then_newline t else None
          | [] => None
          end in
        match with_s with
        | Some body => Some (until_next_section body)
        | None => option_map until_next_section without_s
        end
    end
  else None.

(** [pattern.search(s)]: the match at the leftmost position. *)
Fixpoint objectives_search (s : str) : option str :=
  match objectives_match s with
  | Some section => Some section
  | None =>
      match s with
      | [] => None
      | _ :: t => objectives_search t
      end
  end.

Definition is_list_marker (c : char) : bool := ((c =? 45) || (c =? 42))%N.

(** Match of [^[-*]\s+(.+)$] (MULTILINE) at [s], a position at the start
    of a line: the length of the match and its group 1. *)
Definition list_item_match (s : str) : option (nat * str) :=
  match s with
  | c :: rest =>
      if is_list_marker c then
        option_map
          (fun m => ((1 + fst m + snd m)%nat, firstn (snd m) (skipn (fst m) rest)))
          (line_backtrack (span_len isspace rest) rest)
      else None
  | [] => None
  end.

(** [re.findall] of the list-item pattern: the groups of the
    non-overlapping matches, left to right. *)
Fixpoint findall_list_items (skip : nat) (bol : bool) (s : str) : list str :=
  match s with
  | [] => []
  | c :: t =>
      match skip with
      | S k => findall_list_items k (is_newline c) t
      | O =>
          match (if bol then list_item_match s else None) with
          | Some (len, item) => item :: findall_list_items (Nat.pred len) (is_newline c) t
          | None => findall_list_items 0 (is_newline c) t
          end
      end
  end.

End Regex.

(* ================================================================== *)
(** ** validator.py: ContentValidator *)

Module Validator.

Open Scope Z_scope.

Record ValidationResult := mkValidationResult {
  valid : bool;
  errors : list str;
  warnings : list str;
  metrics : list (String.string * Z)
}.

(** Constitution constraints *)
Definition MIN_WORD_COUNT : Z := 800.
Definition MAX_WORD_COUNT : Z := 1200.
Definition MIN_READING_TIME : Z := 5.
Definition MAX_READING_TIME : Z := 7.
Definition AVERAGE_READING_SPEED : Z := 200.

(** [len(errors) == 0] *)
Definition no_errors (errors : list str) : bool :=
  (length errors =? 0)%nat.

(** *** Private helpers *)

Definition _validate_structure (content : str) : list str :=
  let errors := [] in
  let h1_matches := Regex.findall_count_heading 1 content in
  let errors :=
    if (h1_matches =? 0)%nat then
      errors ++ [lit "Missing H1 heading (chapter title)"]
    else if (1 <? h1_matches)%nat then
      errors ++ [lit "Multiple H1 headings found (" ++ of_nat h1_matches
                 ++ lit "), expected 1"]
    else errors in
  let h2_matches := Regex.findall_count_heading 2 content in
  let errors :=
    if (h2_matches =? 0)%nat then
      errors ++ [lit "No H2 sections found (chapter should have sections)"]
    else errors in
  errors.

Definition _count_words (content : str) : nat :=
  let content_no_code := Regex.sub_empty Regex.fence_match_len 0 content in
  let content_no_code := Regex.sub_empty Regex.inline_match_len 0 content_no_code in
  let content_no_markdown :=
    filter (fun c => negb (Regex.is_markdown_syntax c)) content_no_code in
  let words := split content_no_markdown in
  length words.

Definition _validate_word_count (word_count : Z) : list str :=
  let errors := [] in
  if word_count <? MIN_WORD_COUNT then
    errors ++ [lit "Word count too low: " ++ of_Z word_count
               ++ lit " (minimum " ++ of_Z MIN_WORD_COUNT ++ lit ")"]
  else if MAX_WORD_COUNT <? word_count then
    errors ++ [lit "Word count too high: " ++ of_Z word_count
               ++ lit " (maximum " ++ of_Z MAX_WORD_COUNT ++ lit ")"]
  else errors.

(** [round(n / d)] for ints [n] and [d > 0]: true division followed by
    Python's [round], which rounds an exact half to the even neighbour.
    (The quotient of a word count by 200 is never within a rounding
    error of a half without being one, so the float result is the
    rounding of the exact quotient.) *)
Definition round_div (n d : Z) : Z :=
  let q := n / d in
  let r := n mod d in
  if 2 * r <? d then q
  else if d <? 2 * r then q + 1
  else if Z.even q then q else q + 1.

Definition _calculate_reading_time (word_count : Z) : Z :=
  round_div word_count AVERAGE_READING_SPEED.

Definition _validate_reading_time (reading_time : Z) : list str :=
  let errors := [] in
  if reading_time <? MIN_READING_TIME then
    errors ++ [lit "Reading time too short: " ++ of_Z reading_time
               ++ lit " min (minimum " ++ of_Z MIN_READING_TIME ++ lit ")"]
  else if MAX_READING_TIME <? reading_time then
    errors ++ [lit "Reading time too long: " ++ of_Z reading_time
               ++ lit " min (maximum " ++ of_Z MAX_READING_TIME ++ lit ")"]
  else errors.

Definition _extract_learning_objectives (content : str) : list str :=
  (* Look for learning objectives section *)
  match Regex.objectives_search content with
  | None => []
  | Some objectives_section =>
      (* Extract list items *)
      Regex.findall_list_items 0 true objectives_section
  end.

(** Outcome of [MarkdownIt().parse(content)]: the number of tokens, or an
    exception with its message. *)
Inductive MdOutcome :=
| MdTokens (count : nat)
| MdRaise (e : str).

Section Chapter.

(** The markdown-it parser (external library). *)
Variable md_parse : str -> MdOutcome.

Definition _validate_markdown_syntax (content : str) : list str :=
  let errors := [] in
  match md_parse content with
  | MdTokens tokens =>
      if (tokens =? 0)%nat
      then errors ++ [lit "Failed to parse markdown (empty token list)"]
      else errors
  | MdRaise e => errors ++ [lit "Markdown syntax error: " ++ e]
  end.

Definition validate_chapter (content : str) : ValidationResult :=
  let errors := [] in
  let warnings := [] in
  let metrics := [] in
  (* Layer 1: Markdown syntax validation *)
  let syntax_errors := _validate_markdown_syntax content in
  let errors := errors ++ syntax_errors in
  (* Layer 2: Content structure validation *)
  let structure_errors := _validate_structure content in
  let errors := errors ++ structure_errors in
  (* Layer 3: Word count validation *)
  let word_count := Z.of_nat (_count_words content) in
  let metrics := metrics ++ [("word_count"%string, word_count)] in
  let word_count_errors := _validate_word_count word_count in
  let errors := errors ++ word_count_errors in
  (* Calculate reading time *)
  let reading_time := _calculate_reading_time word_count in
  let metrics := metrics ++ [("reading_time_minutes"%string, reading_time)] in
  let reading_time_errors := _validate_reading_time reading_time in
  let errors := errors ++ reading_time_errors in
  (* Layer 4: Learning objectives validation *)
  let objectives := _extract_learning_objectives content in
  let metrics :=
    metrics ++ [("learning_objectives_count"%string, Z.of_nat (length objectives))] in
  let warnings :=
    if (length objectives =? 0)%nat
    then warnings ++ [lit "No learning objectives section found"]
    else warnings in
  mkValidationResult (no_errors errors) errors warnings metrics.

End Chapter.

(** *** validate_summary *)

(** Body of the loop over [enumerate(takeaways, start=1)]; the state is
    the pair of the error and warning lists. *)
Definition summary_body (st : list str * list str) (it : nat * str)
  : list str * list str :=
  let '(errors, warnings) := st in
  let '(i, takeaway) := it in
  let len := length takeaway in
  let '(errors, warnings) :=
    if (len <? 50)%nat then
      (errors ++ [lit "Takeaway " ++ of_nat i ++ lit " too short: "
                  ++ of_nat len ++ lit " chars (minimum 50)"], warnings)
    else if (150 <? len)%nat then
      (errors, warnings ++ [lit "Takeaway " ++ of_nat i ++ lit " too long: "
                            ++ of_nat len ++ lit " chars (recommended max 150)"])
    else (errors, warnings) in
  let errors :=
    if is_empty (strip takeaway)
    then errors ++ [lit "Takeaway " ++ of_nat i ++ lit " is empty"]
    else errors in
  (errors, warnings).

Definition validate_summary (takeaways : list str) (min_count max_count : Z)
  : ValidationResult :=
  let errors := [] in
  let warnings := [] in
  let count := Z.of_nat (length takeaways) in
  let metrics := [("takeaway_count"%string, count)] in
  (* Check takeaway count *)
  let errors :=
    if count <? min_count then
      errors ++ [lit "Too few takeaways: " ++ of_Z count
                 ++ lit " (minimum " ++ of_Z min_count ++ lit ")"]
    else if max_count <? count then
      errors ++ [lit "Too many takeaways: " ++ of_Z count
                 ++ lit " (maximum " ++ of_Z max_count ++ lit ")"]
    else errors in
  (* Check each takeaway length *)
  let '(errors, warnings) :=
    fold_left summary_body (enumerate 1 takeaways) (errors, warnings) in
  mkValidationResult (no_errors errors) errors warnings metrics.

(** The defaults [min_count=3, max_count=5]. *)
Definition validate_summary_default (takeaways : list str) : ValidationResult :=
  validate_summary takeaways 3 5.

(** *** validate_quiz *)

(** A question dictionary with the documented keys; a key that is absent
    from the dictionary is [None]. *)
Record Question := mkQuestion {
  question_text : option str;
  options : option (list str);
  correct_index : option Z;
  difficulty : option str
}.

Definition valid_difficulties : list str := [lit "easy"; lit "medium"; lit "hard"].

Definition missing_field (i : nat) (field : String.string) : str :=
  lit "Question " ++ of_nat i ++ lit ": missing '" ++ lit field ++ lit "' field".
Arguments missing_field i field%_string.

(** Body of the inner loop over [enumerate(options)]. *)
Definition option_body (i : nat) (errors : list str) (it : nat * str) : list str :=
  let '(j, option) := it in
  if is_empty (strip option)
  then errors ++ [lit "Question " ++ of_nat i ++ lit ", option " ++ of_nat j
                  ++ lit ": option is empty"]
  else errors.

(** Body of the loop over [enumerate(questions, start=1)]; each early
    exit is a [continue]. *)
Definition quiz_body (st : list str * list str) (it : nat * Question)
  : list str * list str :=
  let '(errors, warnings) := st in
  let '(i, question) := it in
  (* Check required fields *)
  match question_text question with
  | None => (errors ++ [missing_field i "question_text"], warnings)
  | Some text =>
  match options question with
  | None => (errors ++ [missing_field i "options"], warnings)
  | Some opts =>
  match correct_index question with
  | None => (errors ++ [missing_field i "correct_index"], warnings)
  | Some index =>
      (* Check options count (must be exactly 4) *)
      let errors :=
        if negb (length opts =? 4)%nat
        then errors ++ [lit "Question " ++ of_nat i
                        ++ lit ": must have exactly 4 options (got "
                        ++ of_nat (length opts) ++ lit ")"]
        else errors in
      (* Check correct_index range *)
      let errors :=
        if negb ((0 <=? index) && (index <=? 3))
        then errors ++ [lit "Question " ++ of_nat i
                        ++ lit ": correct_index must be 0-3 (got "
                        ++ of_Z index ++ lit ")"]
        else errors in
      (* Check for empty question text *)
      let errors :=
        if is_empty (strip text)
        then errors ++ [lit "Question " ++ of_nat i ++ lit ": question_text is empty"]
        else errors in
      (* Check for empty options *)
      let errors := fold_left (option_body i) (enumerate 0 opts) errors in
      (* Check difficulty if present *)
      let warnings :=
        match difficulty question with
        | Some d =>
            if negb (existsb (PyStr.eqb d) valid_difficulties)
            then warnings ++ [lit "Question " ++ of_nat i
                              ++ lit ": invalid difficulty '" ++ d
                              ++ lit "' (valid: ['easy', 'medium', 'hard'])"]
            else warnings
        | None => warnings
        end in
      (errors, warnings)
  end end end.

Definition str_eq_dec : forall a b : str, {a = b} + {a <> b} :=
  list_eq_dec N.eq_dec.

Definition validate_quiz (questions : list Question) (min_questions max_questions : Z)
  : ValidationResult :=
  let errors := [] in
  let warnings := [] in
  let count := Z.of_nat (length questions) in
  let metrics := [("question_count"%string, count)] in
  (* Check question count *)
  let errors :=
    if count <? min_questions then
      errors ++ [lit "Too few questions: " ++ of_Z count
                 ++ lit " (minimum " ++ of_Z min_questions ++ lit ")"]
    else if max_questions <? count then
      errors ++ [lit "Too many questions: " ++ of_Z count
                 ++ lit " (maximum " ++ of_Z max_questions ++ lit ")"]
    else errors in
  (* Validate each question *)
  let '(errors, warnings) :=
    fold_left quiz_body (enumerate 1 questions) (errors, warnings) in
  (* Check for duplicate questions *)
  let question_texts :=
    map (fun q => match question_text q with Some t => t | None => [] end) questions in
  let warnings :=
    if negb (length question_texts =? length (nodup str_eq_dec question_texts))%nat
    then warnings ++ [lit "Duplicate questions detected"]
    else warnings in
  mkValidationResult (no_errors errors) errors warnings metrics.

(** *** validate_learning_booster *)

Definition valid_types : list str := [lit "analogy"; lit "example"; lit "explanation"].

Definition validate_learning_booster
  (content booster_type : str) (min_length max_length : Z) : ValidationResult :=
  let errors := [] in
  let warnings := [] in
  let len := Z.of_nat (length content) in
  let metrics := [("content_length"%string, len)] in
  (* Check content length *)
  let errors :=
    if len <? min_length then
      errors ++ [lit "Booster too short: " ++ of_Z len
                 ++ lit " chars (minimum " ++ of_Z min_length ++ lit ")"]
    else if max_length <? len then
      errors ++ [lit "Booster too long: " ++ of_Z len
                 ++ lit " chars (maximum " ++ of_Z max_length ++ lit ")"]
    else errors in
  (* Check booster type *)
  let errors :=
    if negb (existsb (PyStr.eqb booster_type) valid_types)
    then errors ++ [lit "Invalid booster type: '" ++ booster_type
                    ++ lit "' (valid: ['analogy', 'example', 'explanation'])"]
    else errors in
  (* Check for empty content *)
  let errors :=
    if is_empty (strip content)
    then errors ++ [lit "Booster content is empty"]
    else errors in
  mkValidationResult (no_errors errors) errors warnings metrics.

End Validator.

(* ================================================================== *)
(** ** Exceptions *)

Module Exn.

(** The exception classes the core raises or catches.  [Exception] also
    stands for any class not listed. *)
Inductive exn_class :=
| Exception
| ValueError
| JSONDecodeError
| KeyError
| TypeError
| AttributeError
| FileNotFoundError
| GenerationError
| APIError
| APIConnectionError
| RateLimitError
| SQLAlchemyError.

Record exn := mkExn { cls : exn_class; message : str }.

Definition class_eqb (a b : exn_class) : bool :=
  match a, b with
  | Exception, Exception | ValueError, ValueError
  | JSONDecodeError, JSONDecodeError | KeyError, KeyError
  | TypeError, TypeError | AttributeError, AttributeError
  | FileNotFoundError, FileNotFoundError
  | GenerationError, GenerationError | APIError, APIError
  | APIConnectionError, APIConnectionError
  | RateLimitError, RateLimitError
  | SQLAlchemyError, SQLAlchemyError => true
  | _, _ => false
  end.

(** The base class: [json.JSONDecodeError] derives from [ValueError];
    the provider's [RateLimitError] and [APIConnectionError] derive from
    its [APIError]; every class derives from [Exception]. *)
Definition base (c : exn_class) : option exn_class :=
  match c with
  | Exception => None
  | JSONDecodeError => Some ValueError
  | APIConnectionError | RateLimitError => Some APIError
  | _ => Some Exception
  end.

Fixpoint issubclass_upto (depth : nat) (c d : exn_class) : bool :=
  class_eqb c d ||
  match depth, base c with
  | S k, Some b => issubclass_upto k b d
  | _, _ => false
  end.

Definition issubclass (c d : exn_class) : bool := issubclass_upto 3 c d.

(** [except (c1, c2, ...)] catches [e] *)
Definition caught_by (e : exn) (classes : list exn_class) : bool :=
  existsb (issubclass (cls e)) classes.

(** A call that may raise. *)
Definition result (A : Type) : Type := (exn + A)%type.
Definition raise {A} (c : exn_class) (msg : str) : result A := inl (mkExn c msg).
Definition ret {A} (a : A) : result A := inr a.

End Exn.

Import Exn.

(** [range(lo, hi)] *)
Definition range (lo hi : Z) : list Z :=
  map (fun i => (lo + Z.of_nat i)%Z) (seq 0 (Z.to_nat (hi - lo))).

(* ================================================================== *)
(** ** llm_client.py: LLMClient *)

Module LLMClient.

Open Scope Z_scope.

(** What is sent to [client.messages.create]; the sampling temperature is
    the constant 1.0 at every call site and is left out. *)
Record Request := mkRequest {
  prompt : str;
  system_prompt : option str;
  model : str;
  max_tokens : Z
}.

(** The provider's message object, as far as [generate] reads it. *)
Record Response := mkResponse {
  text : str;
  response_model : str;
  input_tokens : Z;
  output_tokens : Z;
  stop_reason : str;
  response_id : str
}.

Inductive ProviderOutcome :=
| Responds (r : Response)
| Raises (e : exn).

Record Metadata := mkMetadata {
  meta_input_tokens : Z;
  meta_output_tokens : Z;
  meta_response_id : str
}.

Record GenerationResult := mkGenerationResult {
  content : str;
  model_used : str;
  tokens_used : Z;
  finish_reason : str;
  metadata : Metadata
}.

Definition MODEL_SONNET : str := lit "claude-3-haiku-20240307".
Definition MODEL_HAIKU : str := lit "claude-3-haiku-20240307".
Definition DEFAULT_MAX_RETRIES : Z := 3.
Definition DEFAULT_RETRY_DELAY : Z := 5.
Definition RATE_LIMIT_BUFFER : Z := 5.

(** Configuration of one client instance. *)
Record Client := mkClient {
  max_retries : Z;
  retry_delay : Z
}.

Definition default_client : Client := mkClient DEFAULT_MAX_RETRIES DEFAULT_RETRY_DELAY.

(** Mutable state of one client instance together with a log of its
    effects: the requests sent to the provider, the number of random
    numbers drawn and the durations slept, in order. *)
Record State := mkState {
  total_tokens_used : Z;
  sent : list Request;
  draws : nat;
  slept : list Q
}.

Definition initial_state : State := mkState 0 [] 0 [].

(** Number of provider calls made so far. *)
Definition calls (st : State) : nat := length (sent st).

(** [time.sleep(d)]: a negative duration is a [ValueError]. *)
Definition sleep (d : Q) (st : State) : result unit * State :=
  if Qle_bool 0 d
  then (ret tt, mkState (total_tokens_used st) (sent st) (draws st) (slept st ++ [d]))
  else (raise ValueError (lit "sleep length must be non-negative"), st).

(** [random.uniform(a, b)] given the value [u] of [random.random()]. *)
Definition uniform (a b u : Q) : Q := (a + (b - a) * u)%Q.

Section Client.

(** The external model provider: outcome of the [n]-th call made
    through this client. *)
Variable provider : nat -> Request -> ProviderOutcome.

(** The random source: value of the [n]-th call of [random.random()],
    a number in [0, 1). *)
Variable random : nat -> Q.

Variable self : Client.

Definition _calculate_backoff (attempt : Z) (st : State) : Q * State :=
  let max_delay := retry_delay self * 2 ^ attempt in
  let jittered_delay := uniform 0 (inject_Z max_delay) (random (draws st)) in
  (jittered_delay,
   mkState (total_tokens_used st) (sent st) (S (draws st)) (slept st)).

(** [self.client.messages.create(...)] *)
Definition create (req : Request) (st : State) : ProviderOutcome * State :=
  (provider (calls st) req,
   mkState (total_tokens_used st) (sent st ++ [req]) (draws st) (slept st)).

(** The handler shared by the [RateLimitError] and [APIConnectionError]
    clauses; [k] is the rest of the loop. *)
Definition backoff_or_raise (what : str) (attempt : Z) (st : State)
  (k : State -> result GenerationResult * State)
  : result GenerationResult * State :=
  let '(wait_time, st) := _calculate_backoff attempt st in
  if attempt <? max_retries self - 1 then
    match sleep wait_time st with
    | (inl e, st) => (inl e, st)
    | (inr _, st) => k st
    end
  else
    (raise GenerationError
       (what ++ lit " after " ++ of_Z (max_retries self) ++ lit " attempts"), st).

(** The loop of [generate] over the remaining values of [attempt]. *)
Fixpoint generate_from (attempts : list Z) (req : Request) (st : State)
  : result GenerationResult * State :=
  match attempts with
  | [] =>
      (raise GenerationError
         (lit "Generation failed after " ++ of_Z (max_retries self) ++ lit " attempts"),
       st)
  | attempt :: rest =>
      match create req st with
      | (Responds response, st) =>
          let tokens := input_tokens response + output_tokens response in
          let st := mkState (total_tokens_used st + tokens) (sent st) (draws st) (slept st) in
          (ret (mkGenerationResult (text response) (response_model response) tokens
                  (stop_reason response)
                  (mkMetadata (input_tokens response) (output_tokens response)
                     (response_id response))),
           st)
      | (Raises e, st) =>
          if caught_by e [RateLimitError] then
            backoff_or_raise (lit "Rate limit exceeded") attempt st (generate_from rest req)
          else if caught_by e [APIConnectionError] then
            backoff_or_raise (lit "Connection failed") attempt st (generate_from rest req)
          else if caught_by e [APIError] then
            (raise GenerationError (lit "API error: " ++ message e), st)
          else
            (raise GenerationError (lit "Unexpected error: " ++ message e), st)
      end
  end.

Definition generate (req : Request) (st : State) : result GenerationResult * State :=
  generate_from (range 0 (max_retries self)) req st.

Definition generate_with_rate_limit_buffer (req : Request) (st : State)
  : result GenerationResult * State :=
  match generate req st with
  | (inl e, st) => (inl e, st)
  | (inr result, st) =>
      match sleep (inject_Z RATE_LIMIT_BUFFER) st with
      | (inl e, st) => (inl e, st)
      | (inr _, st) => (ret result, st)
      end
  end.

End Client.

Definition task_models : list (str * str) :=
  [(lit "chapter", MODEL_SONNET); (lit "booster", MODEL_SONNET);
   (lit "summary", MODEL_HAIKU); (lit "quiz", MODEL_HAIKU)].

(** Dictionary lookup by string key. *)
Fixpoint lookup {A} (key : str) (d : list (str * A)) : option A :=
  match d with
  | [] => None
  | (k, v) :: rest => if PyStr.eqb k key then Some v else lookup key rest
  end.

Definition get_model_for_task (task : str) : result str :=
  match lookup task task_models with
  | None =>
      raise ValueError
        (lit "Unknown task: " ++ task
         ++ lit ". Valid tasks: ['chapter', 'booster', 'summary', 'quiz']")
  | Some m => ret m
  end.

End LLMClient.

(* ================================================================== *)
(** ** JSON values, as [json.loads] returns them *)

Module Json.

(** Decoded values: [None], [bool], [int], [str], [list], [dict].  JSON
    numbers with a fraction or an exponent (Python floats) are not
    represented. *)
#[local] Set Warnings "-register-all".
Inductive json :=
| JNull
| JBool (b : bool)
| JInt (z : Z)
| JStr (s : str)
| JArr (items : list json)
| JObj (members : list (str * json)).

Definition is_str (v : json) : bool :=
  match v with JStr _ => true | _ => false end.

(** The code-fence stripping that opens each of the three
    [_parse_*_json] functions: it yields the text given to [json.loads]. *)
Definition strip_code_fence (content : str) : str :=
  let content := strip content in
  let content :=
    if startswith (lit "```json") content then skipn 7 content else content in
  let content :=
    if startswith (lit "```") content then skipn 3 content else content in
  let content :=
    if endswith (lit "```") content
    then firstn (length content - 3) content else content in
  strip content.

End Json.

Import Json.

(* ================================================================== *)
(** ** curriculum.py: ChapterDefinition *)

Module Curriculum.

Record ChapterDefinition := mkChapterDefinition {
  number : Z;
  title : str;
  slug : str;
  learning_objectives : list str;
  topics : list str;
  word_count_target : Z;
  priority : str
}.

End Curriculum.

(* ================================================================== *)
(** ** chapter_generator.py: ChapterGenerator *)

Module ChapterGenerator.

Import Curriculum.
Open Scope Z_scope.

Record ChapterGenerationResult := mkChapterGenerationResult {
  content : str;
  chapter_number : Z;
  chapter_title : str;
  word_count : Z;
  tokens_used : Z;
  model_used : str;
  generation_attempts : Z;
  validation_passed : bool
}.

Record ChapterGenerator := mkChapterGenerator {
  llm_client : LLMClient.Client;
  max_generation_attempts : Z;
  enforce_word_count : bool
}.

(** [ChapterGenerator(llm_client)] over a client with its default
    configuration: the constructor's defaults. *)
Definition with_defaults : ChapterGenerator :=
  mkChapterGenerator LLMClient.default_client 3 true.

(** Simple word count (split by whitespace). *)
Definition _count_words (content : str) : Z :=
  let words := split content in
  Z.of_nat (length words).

Definition _is_word_count_valid (word_count : Z) : bool :=
  (800 <=? word_count) && (word_count <=? 1200).

Definition _add_word_count_emphasis
  (original_prompt : str) (actual_count target_count : Z) : str :=
  let emphasis :=
    if actual_count <? 800 then
      nl ++ nl ++ lit "**CRITICAL**: The previous attempt was too short ("
      ++ of_Z actual_count
      ++ lit " words). You MUST generate at least 800 words. Target is "
      ++ of_Z target_count
      ++ lit " words. Add more depth, examples, and explanations to reach the required length."
    else
      nl ++ nl ++ lit "**CRITICAL**: The previous attempt was too long ("
      ++ of_Z actual_count
      ++ lit " words). You MUST stay under 1200 words. Target is "
      ++ of_Z target_count
      ++ lit " words. Be more concise and focused on core concepts." in
  original_prompt ++ emphasis.

Section Generate.

Variable provider : nat -> LLMClient.Request -> LLMClient.ProviderOutcome.
Variable random : nat -> Q.

(** prompts.py: the chapter prompt template and the system prompt are
    fixed texts; the loop only appends to the former. *)
Variable get_chapter_generation_prompt : ChapterDefinition -> str.
Variable CHAPTER_GENERATION_SYSTEM_PROMPT : str.

Variable self : ChapterGenerator.

(** The loop of [generate_chapter] over the remaining values of
    [attempt], with the current [user_prompt]. *)
Fixpoint generate_chapter_from (attempts : list Z) (chapter : ChapterDefinition)
  (model : str) (user_prompt : str) (st : LLMClient.State)
  : result ChapterGenerationResult * LLMClient.State :=
  match attempts with
  | [] =>
      (* Should not reach here, but fail gracefully *)
      (raise GenerationError
         (lit "Failed to generate Chapter " ++ of_Z (number chapter) ++ lit " after "
          ++ of_Z (max_generation_attempts self) ++ lit " attempts"), st)
  | attempt :: rest =>
      match LLMClient.generate_with_rate_limit_buffer provider random (llm_client self)
              (LLMClient.mkRequest user_prompt (Some CHAPTER_GENERATION_SYSTEM_PROMPT)
                 model 4096) st with
      | (inr result, st) =>
          let content := LLMClient.content result in
          (* Count words *)
          let word_count := _count_words content in
          (* Success - return result *)
          let accept :=
            (ret (mkChapterGenerationResult content (number chapter) (title chapter)
                    word_count (LLMClient.tokens_used result)
                    (LLMClient.model_used result) attempt
                    (_is_word_count_valid word_count)), st) in
          (* Check word count compliance *)
          if enforce_word_count self then
            if negb (_is_word_count_valid word_count) then
              if attempt <? max_generation_attempts self then
                (* Modify prompt to emphasize word count *)
                let user_prompt :=
                  _add_word_count_emphasis user_prompt word_count
                    (word_count_target chapter) in
                generate_chapter_from rest chapter model user_prompt st
              else
                (* Accept the content anyway (will fail validation later) *)
                accept
            else accept
          else accept
      | (inl e, st) =>
          if caught_by e [GenerationError] then
            if max_generation_attempts self <=? attempt then (inl e, st)
            else (* Retry on next iteration *)
              generate_chapter_from rest chapter model user_prompt st
          else (inl e, st)
      end
  end.

Definition generate_chapter (chapter : ChapterDefinition) (st : LLMClient.State)
  : result ChapterGenerationResult * LLMClient.State :=
  (* Generate user prompt *)
  let user_prompt := get_chapter_generation_prompt chapter in
  (* Select model for chapter generation *)
  match LLMClient.get_model_for_task (lit "chapter") with
  | inl e => (inl e, st)
  | inr model =>
      generate_chapter_from (range 1 (max_generation_attempts self + 1))
        chapter model user_prompt st
  end.

End Generate.

End ChapterGenerator.

(* ================================================================== *)
(** ** summary_generator.py: SummaryGenerator *)

Module SummaryGenerator.

Open Scope Z_scope.

Record SummaryGenerationResult := mkSummaryGenerationResult {
  takeaways : list str;
  chapter_number : Z;
  chapter_title : str;
  tokens_used : Z;
  model_used : str;
  generation_attempts : Z;
  validation_passed : bool
}.

Record SummaryGenerator := mkSummaryGenerator {
  llm_client : LLMClient.Client;
  max_generation_attempts : Z;
  enforce_validation : bool
}.

Definition _add_json_format_emphasis (original_prompt : str) : str :=
  let emphasis :=
    nl ++ nl
    ++ lit "**CRITICAL**: Your response MUST be a valid JSON array of strings. "
    ++ lit "Example format:" ++ nl
    ++ lit "[" ++ dq ++ lit "Takeaway 1" ++ dq ++ lit ", " ++ dq ++ lit "Takeaway 2"
    ++ dq ++ lit ", " ++ dq ++ lit "Takeaway 3" ++ dq ++ lit "]" ++ nl
    ++ lit "Do NOT include any markdown formatting, code blocks, or explanations. "
    ++ lit "Return ONLY the JSON array." in
  original_prompt ++ emphasis.

Definition _add_validation_emphasis
  (original_prompt : str) (validation_result : Validator.ValidationResult) : str :=
  let errors_text := join (lit "; ") (Validator.errors validation_result) in
  let emphasis :=
    nl ++ nl
    ++ lit "**CRITICAL**: The previous attempt failed validation with these errors: "
    ++ errors_text ++ nl ++ nl
    ++ lit "Requirements:" ++ nl
    ++ lit "- Generate exactly 3-5 takeaways" ++ nl
    ++ lit "- Each takeaway must be 50-150 characters" ++ nl
    ++ lit "- Return as JSON array: [" ++ dq ++ lit "Takeaway 1" ++ dq ++ lit ", "
    ++ dq ++ lit "Takeaway 2" ++ dq ++ lit ", ...]" ++ nl
    ++ lit "Please fix these issues and try again." in
  original_prompt ++ emphasis.

(** The strings of a list of decoded values, if all of them are. *)
Fixpoint all_strings (items : list json) : option (list str) :=
  match items with
  | [] => Some []
  | JStr s :: rest => option_map (cons s) (all_strings rest)
  | _ :: _ => None
  end.

Section Generate.

Variable provider : nat -> LLMClient.Request -> LLMClient.ProviderOutcome.
Variable random : nat -> Q.

(** [json.loads]; [None] stands for a raised [json.JSONDecodeError]. *)
Variable json_loads : str -> option json.

Variable get_summary_generation_prompt : str -> str -> str.
Variable SUMMARY_GENERATION_SYSTEM_PROMPT : str.

Variable self : SummaryGenerator.

Definition _parse_takeaways_json (content : str) : result (list str) :=
  (* Try to extract JSON from markdown code blocks if present *)
  let content := strip_code_fence content in
  (* Parse JSON *)
  match json_loads content with
  | None => raise JSONDecodeError (lit "Expecting value")
  | Some parsed =>
      (* Validate it's a list *)
      match parsed with
      | JArr items =>
          (* Validate all items are strings *)
          match all_strings items with
          | None => raise ValueError (lit "All takeaways must be strings")
          | Some takeaways => ret takeaways
          end
      | _ => raise ValueError (lit "Expected JSON array")
      end
  end.

Fixpoint generate_summary_from (attempts : list Z)
  (chapter_title : str) (chapter_number : Z)
  (model : str) (user_prompt : str) (st : LLMClient.State)
  : result SummaryGenerationResult * LLMClient.State :=
  match attempts with
  | [] =>
      (* Should not reach here, but fail gracefully *)
      (raise GenerationError
         (lit "Failed to generate summary for Chapter " ++ of_Z chapter_number
          ++ lit " after " ++ of_Z (max_generation_attempts self) ++ lit " attempts"), st)
  | attempt :: rest =>
      (* the handler of [except GenerationError as e] *)
      let on_generation_error (e : exn) (st : LLMClient.State) :=
        if max_generation_attempts self <=? attempt then (inl e, st)
        else generate_summary_from rest chapter_title chapter_number model user_prompt st in
      match LLMClient.generate_with_rate_limit_buffer provider random (llm_client self)
              (LLMClient.mkRequest user_prompt (Some SUMMARY_GENERATION_SYSTEM_PROMPT)
                 model 1024) st with
      | (inr result, st) =>
          let content := strip (LLMClient.content result) in
          (* Parse JSON response *)
          match _parse_takeaways_json content with
          | inl e =>
              if caught_by e [JSONDecodeError; ValueError] then
                if attempt <? max_generation_attempts self then
                  (* Modify prompt to emphasize JSON format *)
                  let user_prompt := _add_json_format_emphasis user_prompt in
                  generate_summary_from rest chapter_title chapter_number model
                    user_prompt st
                else
                  (* raised inside the outer [try]: seen by its handler *)
                  on_generation_error
                    (mkExn GenerationError
                       (lit "Failed to parse summary JSON after "
                        ++ of_Z (max_generation_attempts self) ++ lit " attempts")) st
              else if caught_by e [GenerationError] then on_generation_error e st
              else (inl e, st)
          | inr takeaways =>
              (* Validate summary *)
              let validation_result := Validator.validate_summary_default takeaways in
              let accept :=
                (ret (mkSummaryGenerationResult takeaways chapter_number chapter_title
                        (LLMClient.tokens_used result) (LLMClient.model_used result)
                        attempt (Validator.valid validation_result)), st) in
              if enforce_validation self && negb (Validator.valid validation_result) then
                if attempt <? max_generation_attempts self then
                  (* Modify prompt to emphasize validation requirements *)
                  let user_prompt :=
                    _add_validation_emphasis user_prompt validation_result in
                  generate_summary_from rest chapter_title chapter_number model
                    user_prompt st
                else
                  (* Accept the content anyway (will fail validation in logs) *)
                  accept
              else accept
          end
      | (inl e, st) =>
          if caught_by e [GenerationError] then on_generation_error e st
          else (inl e, st)
      end
  end.

Definition generate_summary (chapter_content chapter_title : str) (chapter_number : Z)
  (st : LLMClient.State) : result SummaryGenerationResult * LLMClient.State :=
  (* Generate user prompt *)
  let user_prompt := get_summary_generation_prompt chapter_content chapter_title in
  (* Select model for summary generation *)
  match LLMClient.get_model_for_task (lit "summary") with
  | inl e => (inl e, st)
  | inr model =>
      generate_summary_from (range 1 (max_generation_attempts self + 1))
        chapter_title chapter_number model user_prompt st
  end.

End Generate.

End SummaryGenerator.

(* ================================================================== *)
(** ** quiz_generator.py: QuizGenerator *)

Module QuizGenerator.

Open Scope Z_scope.

Record QuizGenerationResult := mkQuizGenerationResult {
  questions : list json;
  chapter_number : Z;
  chapter_title : str;
  tokens_used : Z;
  model_used : str;
  generation_attempts : Z;
  validation_passed : bool
}.

Record QuizGenerator := mkQuizGenerator {
  llm_client : LLMClient.Client;
  max_generation_attempts : Z;
  enforce_validation : bool;
  num_questions : Z
}.

(** [__init__]: the number of questions is clamped to 5-7. *)
Definition init (client : LLMClient.Client) (max_generation_attempts : Z)
  (enforce_validation : bool) (num_questions : Z) : QuizGenerator :=
  mkQuizGenerator client max_generation_attempts enforce_validation
    (Z.max 5 (Z.min 7 num_questions)).

(** A word between double quotes. *)
Definition quoted (s : String.string) : str := dq ++ lit s ++ dq.
Arguments quoted s%_string.

Definition _add_json_format_emphasis (original_prompt : str) : str :=
  let emphasis :=
    nl ++ nl
    ++ lit "**CRITICAL**: Your response MUST be a valid JSON array of question objects. "
    ++ lit "Example format:" ++ nl
    ++ lit "[{" ++ quoted "question_text" ++ lit ": " ++ quoted "..." ++ lit ", "
    ++ quoted "options" ++ lit ": [" ++ quoted "A" ++ lit ", " ++ quoted "B" ++ lit ", "
    ++ quoted "C" ++ lit ", " ++ quoted "D" ++ lit "], "
    ++ quoted "correct_index" ++ lit ": 0, "
    ++ quoted "difficulty" ++ lit ": " ++ quoted "easy" ++ lit ", "
    ++ quoted "topic" ++ lit ": " ++ quoted "..." ++ lit "}]" ++ nl
    ++ lit "Do NOT include any markdown formatting, code blocks, or explanations. "
    ++ lit "Return ONLY the JSON array." in
  original_prompt ++ emphasis.

Definition _add_validation_emphasis (self : QuizGenerator)
  (original_prompt : str) (validation_result : Validator.ValidationResult) : str :=
  let errors_text := join (lit "; ") (Validator.errors validation_result) in
  let emphasis :=
    nl ++ nl
    ++ lit "**CRITICAL**: The previous attempt failed validation with these errors: "
    ++ errors_text ++ nl ++ nl
    ++ lit "Requirements:" ++ nl
    ++ lit "- Generate exactly " ++ of_Z (num_questions self) ++ lit " questions" ++ nl
    ++ lit "- Each question must have exactly 4 options" ++ nl
    ++ lit "- Each question must have exactly 1 correct answer (correct_index: 0-3)" ++ nl
    ++ lit "- All question_text fields must be non-empty" ++ nl
    ++ lit "- All options must be non-empty strings" ++ nl
    ++ lit "- Return as JSON array with required fields" ++ nl
    ++ lit "Please fix these issues and try again." in
  original_prompt ++ emphasis.

Definition required_fields : list str :=
  [lit "question_text"; lit "options"; lit "correct_index"].

(** [required_fields - set(item.keys())] *)
Definition missing_fields (members : list (str * json)) : list str :=
  filter (fun f => match LLMClient.lookup f members with None => true | Some _ => false end)
    required_fields.

(** The loop of [_parse_quiz_json] over [enumerate(parsed)]. *)
Fixpoint check_items (i : nat) (items : list json) : result unit :=
  match items with
  | [] => ret tt
  | item :: rest =>
      match item with
      | JObj members =>
          match missing_fields members with
          | [] => check_items (S i) rest
          | missing =>
              raise ValueError
                (lit "Question " ++ of_nat (i + 1) ++ lit " missing required fields: "
                 ++ join (lit ", ") missing)
          end
      | _ => raise ValueError (lit "Question " ++ of_nat (i + 1) ++ lit " is not a dictionary")
      end
  end.

(** The values [validate_quiz] reads from a parsed question, in the
    order it reads them: [len(options)], the comparison of
    [correct_index], [question_text.strip()], then [option.strip()] for
    each option.  A value of another type than these operations accept
    raises [TypeError] or [AttributeError].  A [difficulty] that is not a
    string only changes the text of a warning, which the generator never
    reads, and is dropped. *)
Definition as_question (item : json) : result Validator.Question :=
  match item with
  | JObj members =>
      match LLMClient.lookup (lit "question_text") members,
            LLMClient.lookup (lit "options") members,
            LLMClient.lookup (lit "correct_index") members with
      | Some text, Some opts, Some index =>
          let difficulty :=
            match LLMClient.lookup (lit "difficulty") members with
            | Some (JStr d) => Some d
            | _ => None
            end in
          let with_len :=
            match opts with JArr _ | JStr _ | JObj _ => true | _ => false end in
          if with_len then
            match (match index with
                   | JInt z => Some z
                   | JBool b => Some (Z.b2z b)
                   | _ => None
                   end) with
            | None => raise TypeError (lit "'<=' not supported")
            | Some index =>
                match text with
                | JStr text =>
                    match (match opts with
                           | JArr items => SummaryGenerator.all_strings items
                           | JStr s => Some (map (fun c => [c]) s)
                           | JObj kv => Some (map fst kv)
                           | _ => None
                           end) with
                    | None => raise AttributeError (lit "object has no attribute 'strip'")
                    | Some options =>
                        ret (Validator.mkQuestion (Some text) (Some options) (Some index)
                               difficulty)
                    end
                | _ => raise AttributeError (lit "object has no attribute 'strip'")
                end
            end
          else raise TypeError (lit "object has no len()")
      | _, _, _ => raise KeyError (lit "required field")
      end
  | _ => raise TypeError (lit "argument is not iterable")
  end.

Fixpoint as_questions (items : list json) : result (list Validator.Question) :=
  match items with
  | [] => ret []
  | item :: rest =>
      match as_question item with
      | inl e => inl e
      | inr q =>
          match as_questions rest with
          | inl e => inl e
          | inr qs => ret (q :: qs)
          end
      end
  end.

Section Generate.

Variable provider : nat -> LLMClient.Request -> LLMClient.ProviderOutcome.
Variable random : nat -> Q.
Variable json_loads : str -> option json.

Variable get_quiz_generation_prompt : str -> str -> Z -> str.
Variable QUIZ_GENERATION_SYSTEM_PROMPT : str.

Variable self : QuizGenerator.

Definition _parse_quiz_json (content : str) : result (list json) :=
  (* Try to extract JSON from markdown code blocks if present *)
  let content := strip_code_fence content in
  (* Parse JSON *)
  match json_loads content with
  | None => raise JSONDecodeError (lit "Expecting value")
  | Some parsed =>
      (* Validate it's a list *)
      match parsed with
      | JArr items =>
          (* Validate all items are dictionaries with required fields *)
          match check_items 0 items with
          | inl e => inl e
          | inr _ => ret items
          end
      | _ => raise ValueError (lit "Expected JSON array")
      end
  end.

Fixpoint generate_quiz_from (attempts : list Z)
  (chapter_title : str) (chapter_number : Z)
  (model : str) (user_prompt : str) (st : LLMClient.State)
  : result QuizGenerationResult * LLMClient.State :=
  match attempts with
  | [] =>
      (* Should not reach here, but fail gracefully *)
      (raise GenerationError
         (lit "Failed to generate quiz for Chapter " ++ of_Z chapter_number
          ++ lit " after " ++ of_Z (max_generation_attempts self) ++ lit " attempts"), st)
  | attempt :: rest =>
      (* the handler of [except GenerationError as e] *)
      let on_generation_error (e : exn) (st : LLMClient.State) :=
        if max_generation_attempts self <=? attempt then (inl e, st)
        else generate_quiz_from rest chapter_title chapter_number model user_prompt st in
      match LLMClient.generate_with_rate_limit_buffer provider random (llm_client self)
              (LLMClient.mkRequest user_prompt (Some QUIZ_GENERATION_SYSTEM_PROMPT)
                 model 2048) st with
      | (inr result, st) =>
          let content := strip (LLMClient.content result) in
          (* Parse JSON response *)
          match _parse_quiz_json content with
          | inl e =>
              if caught_by e [JSONDecodeError; ValueError] then
                if attempt <? max_generation_attempts self then
                  (* Modify prompt to emphasize JSON format *)
                  let user_prompt := _add_json_format_emphasis user_prompt in
                  generate_quiz_from rest chapter_title chapter_number model
                    user_prompt st
                else
                  on_generation_error
                    (mkExn GenerationError
                       (lit "Failed to parse quiz JSON after "
                        ++ of_Z (max_generation_attempts self) ++ lit " attempts")) st
              else if caught_by e [GenerationError] then on_generation_error e st
              else (inl e, st)
          | inr questions =>
              (* Validate quiz *)
              match as_questions questions with
              | inl e =>
                  if caught_by e [GenerationError] then on_generation_error e st
                  else (inl e, st)
              | inr typed =>
                  let validation_result :=
                    Validator.validate_quiz typed (num_questions self) (num_questions self) in
                  let accept :=
                    (ret (mkQuizGenerationResult questions chapter_number chapter_title
                            (LLMClient.tokens_used result) (LLMClient.model_used result)
                            attempt (Validator.valid validation_result)), st) in
                  if enforce_validation self && negb (Validator.valid validation_result)
                  then
                    if attempt <? max_generation_attempts self then
                      (* Modify prompt to emphasize validation requirements *)
                      let user_prompt :=
                        _add_validation_emphasis self user_prompt validation_result in
                      generate_quiz_from rest chapter_title chapter_number model
                        user_prompt st
                    else
                      (* Accept the content anyway (will fail validation in logs) *)
                      accept
                  else accept
              end
          end
      | (inl e, st) =>
          if caught_by e [GenerationError] then on_generation_error e st
          else (inl e, st)
      end
  end.

Definition generate_quiz (chapter_content chapter_title : str) (chapter_number : Z)
  (st : LLMClient.State) : result QuizGenerationResult * LLMClient.State :=
  (* Generate user prompt *)
  let user_prompt :=
    get_quiz_generation_prompt chapter_content chapter_title (num_questions self) in
  (* Select model for quiz generation *)
  match LLMClient.get_model_for_task (lit "quiz") with
  | inl e => (inl e, st)
  | inr model =>
      generate_quiz_from (range 1 (max_generation_attempts self + 1))
        chapter_title chapter_number model user_prompt st
  end.

End Generate.

End QuizGenerator.

(* ================================================================== *)
(** ** booster_generator.py: BoosterGenerator *)

Module BoosterGenerator.

Open Scope Z_scope.

Record BoosterGenerationResult := mkBoosterGenerationResult {
  boosters : list json;
  chapter_number : Z;
  chapter_title : str;
  tokens_used : Z;
  model_used : str;
  generation_attempts : Z;
  validation_passed : bool
}.

Record BoosterGenerator := mkBoosterGenerator {
  llm_client : LLMClient.Client;
  max_attempts : Z;
  num_boosters : Z
}.

Definition init (client : LLMClient.Client) (max_attempts num_boosters : Z)
  : BoosterGenerator :=
  mkBoosterGenerator client max_attempts (Z.max 2 (Z.min 3 num_boosters)).

(** Length of the match of [\n##\s+] at the start of [s], if any. *)
Definition h2_break_len (s : str) : option nat :=
  if startswith [NL; Regex.HASH; Regex.HASH] s then
    let run := Regex.span_len isspace (skipn 3 s) in
    if (0 <? run)%nat then Some (3 + run)%nat else None
  else None.

(** [re.split(pattern, s)] for a pattern without groups that never
    matches the empty string; [cur] is the piece being read, most recent
    character first. *)
Fixpoint re_split (match_len : str -> option nat) (skip : nat) (cur : str) (s : str)
  : list str :=
  match s with
  | [] => [rev cur]
  | c :: t =>
      match skip with
      | S k => re_split match_len k cur t
      | O =>
          match match_len s with
          | Some len => rev cur :: re_split match_len (Nat.pred len) [] t
          | None => re_split match_len 0 (c :: cur) t
          end
      end
  end.

(** Extract H2 sections from chapter. *)
Definition _extract_sections (content : str) : list str :=
  let sections := re_split h2_break_len 0 [] content in
  map strip (filter (fun s => negb (is_empty (strip s))) sections).

(** [validate_learning_booster(b['content'], b['booster_type']).valid]
    for one decoded element [b]: the two subscripts, then the validator.
    A [content] that is not a string raises in the validator ([len] or
    [strip]); a [booster_type] that is not a string is not one of the
    valid types. *)
Definition booster_valid (b : json) : result bool :=
  match b with
  | JObj members =>
      match LLMClient.lookup (lit "content") members with
      | None => raise KeyError (lit "'content'")
      | Some content =>
          match LLMClient.lookup (lit "booster_type") members with
          | None => raise KeyError (lit "'booster_type'")
          | Some booster_type =>
              match content with
              | JStr c =>
                  match booster_type with
                  | JStr t =>
                      ret (Validator.valid (Validator.validate_learning_booster c t 100 300))
                  | _ => ret false
                  end
              | JArr _ | JObj _ =>
                  raise AttributeError (lit "object has no attribute 'strip'")
              | _ => raise TypeError (lit "object has no len()")
              end
          end
      end
  | _ => raise TypeError (lit "indices must be integers")
  end.

(** [all(... for b in boosters)]: stops at the first element that is
    not valid; the elements after it are not looked at. *)
Fixpoint all_valid (boosters : list json) : result bool :=
  match boosters with
  | [] => ret true
  | b :: rest =>
      match booster_valid b with
      | inl e => inl e
      | inr true => all_valid rest
      | inr false => ret false
      end
  end.

Section Generate.

Variable provider : nat -> LLMClient.Request -> LLMClient.ProviderOutcome.
Variable random : nat -> Q.
Variable json_loads : str -> option json.

Variable get_booster_generation_prompt : str -> str -> str -> str -> Z -> str.
Variable BOOSTER_GENERATION_SYSTEM_PROMPT : str.

Variable self : BoosterGenerator.

Definition _parse_boosters_json (content : str) : result (list json) :=
  match json_loads (strip_code_fence content) with
  | None => raise JSONDecodeError (lit "Expecting value")
  | Some parsed =>
      match parsed with
      | JArr items => ret items
      | _ => raise ValueError (lit "Expected array")
      end
  end.

(** The prompt of every attempt: it is built inside the loop from the
    chapter alone. *)
Definition attempt_prompt (chapter_content chapter_title : str) : str :=
  let sections := _extract_sections chapter_content in
  let section_text :=
    match sections with
    | first :: _ => first
    | [] => firstn 1000 chapter_content
    end in
  get_booster_generation_prompt chapter_content chapter_title section_text
    (lit "analogy") (num_boosters self).

Fixpoint generate_boosters_from (attempts : list Z)
  (chapter_content chapter_title : str) (chapter_number : Z)
  (model : str) (st : LLMClient.State)
  : result BoosterGenerationResult * LLMClient.State :=
  match attempts with
  | [] =>
      (raise GenerationError
         (lit "Failed to generate boosters for Chapter " ++ of_Z chapter_number
          ++ lit " after " ++ of_Z (max_attempts self) ++ lit " attempts"), st)
  | attempt :: rest =>
      (* the two [except] clauses of the loop body *)
      let handle (e : exn) (st : LLMClient.State) :=
        if caught_by e [JSONDecodeError; ValueError] then
          if max_attempts self <=? attempt then
            (raise GenerationError
               (lit "Failed to parse booster JSON after " ++ of_Z (max_attempts self)
                ++ lit " attempts"), st)
          else generate_boosters_from rest chapter_content chapter_title chapter_number
                 model st
        else if caught_by e [GenerationError] then
          if max_attempts self <=? attempt then (inl e, st)
          else generate_boosters_from rest chapter_content chapter_title chapter_number
                 model st
        else (inl e, st) in
      let user_prompt := attempt_prompt chapter_content chapter_title in
      match LLMClient.generate_with_rate_limit_buffer provider random (llm_client self)
              (LLMClient.mkRequest user_prompt (Some BOOSTER_GENERATION_SYSTEM_PROMPT)
                 model 1024) st with
      | (inr result, st) =>
          match _parse_boosters_json (strip (LLMClient.content result)) with
          | inl e => handle e st
          | inr boosters =>
              match all_valid boosters with
              | inl e => handle e st
              | inr valid =>
                  (ret (mkBoosterGenerationResult boosters chapter_number chapter_title
                          (LLMClient.tokens_used result) (LLMClient.model_used result)
                          attempt valid), st)
              end
          end
      | (inl e, st) => handle e st
      end
  end.

Definition generate_boosters (chapter_content chapter_title : str) (chapter_number : Z)
  (st : LLMClient.State) : result BoosterGenerationResult * LLMClient.State :=
  match LLMClient.get_model_for_task (lit "booster") with
  | inl e => (inl e, st)
  | inr model =>
      generate_boosters_from (range 1 (max_attempts self + 1))
        chapter_content chapter_title chapter_number model st
  end.

End Generate.

End BoosterGenerator.

(* ================================================================== *)
(** ** generation_job.py: GenerationJob *)

Module GenerationJob.

Open Scope Z_scope.

Inductive JobStatus := PENDING | IN_PROGRESS | COMPLETED | FAILED.

(** The job row.  An error record keeps its message; timestamps are not
    modelled, and [completed_at] only tells whether it has been set. *)
Record GenerationJob := mkGenerationJob {
  status : JobStatus;
  chapters_completed : Z;
  chapters_total : Z;
  errors : list str;
  token_usage : Z;
  model_used : str;
  completed_at : bool
}.

(** The table's check constraints. *)
Definition check_chapters_completed (job : GenerationJob) : bool :=
  chapters_completed job <=? chapters_total job.

Definition check_token_usage (job : GenerationJob) : bool :=
  0 <=? token_usage job.

Definition is_complete (job : GenerationJob) : bool :=
  match status job with
  | COMPLETED | FAILED => true
  | _ => false
  end.

Definition add_error (job : GenerationJob) (error_message : str) : GenerationJob :=
  mkGenerationJob (status job) (chapters_completed job) (chapters_total job)
    (errors job ++ [error_message]) (token_usage job) (model_used job)
    (completed_at job).

Definition set_status (job : GenerationJob) (s : JobStatus) : GenerationJob :=
  mkGenerationJob s (chapters_completed job) (chapters_total job)
    (errors job) (token_usage job) (model_used job) (completed_at job).

Definition set_completed_at (job : GenerationJob) : GenerationJob :=
  mkGenerationJob (status job) (chapters_completed job) (chapters_total job)
    (errors job) (token_usage job) (model_used job) true.

End GenerationJob.

(* ================================================================== *)
(** ** generation_service.py: GenerationService *)

Module GenerationService.

Import Curriculum GenerationJob.
Open Scope Z_scope.

(** Sequential generation delay (5 seconds between chapters). *)
Definition GENERATION_DELAY_SECONDS : Z := 5.

(** Status of a chapter row (backend/src/models/chapter.py is not part
    of the sources; the names are those the services use). *)
Inductive ChapterStatus := CH_PENDING | CH_VALIDATED | CH_FAILED.

Record Chapter := mkChapter {
  chapter_number : Z;
  chapter_title : str;
  chapter_slug : str;
  word_count : Z;
  reading_time_minutes : Z;
  chapter_status : ChapterStatus;
  validation_errors : list str
}.

(** What the background task works on: the state of the model client it
    creates, the database session (the job object it holds, the chapter
    rows, the number of commits issued so far) and the number of pacing
    delays taken. *)
Record World := mkWorld {
  llm : LLMClient.State;
  job : option GenerationJob;
  chapters : list Chapter;
  commits : nat;
  pauses : nat
}.

Definition with_llm (w : World) (st : LLMClient.State) : World :=
  mkWorld st (job w) (chapters w) (commits w) (pauses w).

Definition with_job (w : World) (j : GenerationJob) : World :=
  mkWorld (llm w) (Some j) (chapters w) (commits w) (pauses w).

Definition with_chapters (w : World) (cs : list Chapter) : World :=
  mkWorld (llm w) (job w) cs (commits w) (pauses w).

(** Where an exception that reaches the outermost handler of the task
    was raised. *)
Inductive Site :=
| AtSetup
| InChapterHandler (unit_number : nat)
| InSummaryHandler
| AtCompletion.

Section Service.

Variable provider : nat -> LLMClient.Request -> LLMClient.ProviderOutcome.
Variable random : nat -> Q.
Variable md_parse : str -> Validator.MdOutcome.
Variable get_chapter_generation_prompt : ChapterDefinition -> str.
Variable CHAPTER_GENERATION_SYSTEM_PROMPT : str.

(** Whether the [n]-th commit of the session raises. *)
Variable commit_fails : nat -> bool.

(** Whether [LLMClient()] finds an API key. *)
Variable api_key : bool.

(** The summary task of a unit up to its progress update (looking up and
    reading the chapter file, [generate_summary] in a worker thread,
    appending the summary): the tokens used, or the exception raised.
    The worker threads share the model client and run side by side, so
    their outcomes are given per unit. *)
Variable summary_task : ChapterDefinition -> result Z.

(** The order in which the concurrent summary tasks reach their progress
    update. *)
Variable schedule : list ChapterDefinition -> list ChapterDefinition.

(** [await self.db_session.commit()] *)
Definition commit (w : World) : result unit * World :=
  let w' := mkWorld (llm w) (job w) (chapters w) (S (commits w)) (pauses w) in
  if commit_fails (commits w)
  then (raise SQLAlchemyError (lit "commit failed"), w')
  else (ret tt, w').

(** *** Private helper methods *)

Definition _get_job (w : World) : option GenerationJob := job w.

Definition _update_job_status (new_status : JobStatus) (w : World)
  : result unit * World :=
  match _get_job w with
  | Some job => commit (with_job w (set_status job new_status))
  | None => (ret tt, w)
  end.

Definition _increment_job_progress (tokens_used : Z) (w : World)
  : result unit * World :=
  match _get_job w with
  | Some job =>
      let job :=
        mkGenerationJob (status job) (chapters_completed job + 1) (chapters_total job)
          (errors job) (token_usage job) (model_used job) (completed_at job) in
      let job :=
        mkGenerationJob (status job) (chapters_completed job) (chapters_total job)
          (errors job) (token_usage job + tokens_used) (model_used job)
          (completed_at job) in
      commit (with_job w job)
  | None => (ret tt, w)
  end.

Definition _add_job_error (error_message : str) (w : World) : result unit * World :=
  match _get_job w with
  | Some job => commit (with_job w (add_error job error_message))
  | None => (ret tt, w)
  end.

Definition _complete_job (w : World) : result unit * World :=
  match _get_job w with
  | Some job => commit (with_job w (set_completed_at (set_status job COMPLETED)))
  | None => (ret tt, w)
  end.

Definition _fail_job (error_message : str) (w : World) : result unit * World :=
  match _get_job w with
  | Some job =>
      commit (with_job w
                (add_error (set_completed_at (set_status job FAILED)) error_message))
  | None => (ret tt, w)
  end.

(** *** chapter_service.py *)

Definition create_chapter (chapter_number : Z) (title slug : str)
  (word_count reading_time_minutes : Z) (status : ChapterStatus) (w : World)
  : result nat * World :=
  (* Validate constitution constraints *)
  if negb ((800 <=? word_count) && (word_count <=? 1200)) then
    (raise ValueError
       (lit "Word count " ++ of_Z word_count ++ lit " outside range (800-1200)"), w)
  else if negb ((5 <=? reading_time_minutes) && (reading_time_minutes <=? 7)) then
    (raise ValueError
       (lit "Reading time " ++ of_Z reading_time_minutes
        ++ lit " outside range (5-7 minutes)"), w)
  else if negb ((1 <=? chapter_number) && (chapter_number <=? 8)) then
    (raise ValueError
       (lit "Chapter number " ++ of_Z chapter_number ++ lit " outside range (1-8)"), w)
  else
    let chapter :=
      mkChapter chapter_number title slug word_count reading_time_minutes status [] in
    match commit (with_chapters w (chapters w ++ [chapter])) with
    | (inl e, w') =>
        (* rollback: the row is not added *)
        (inl e, with_chapters w' (chapters w))
    | (inr _, w') => (ret (length (chapters w)), w')
    end.

(** Replace the element at position [n]. *)
Fixpoint update_nth {A} (n : nat) (f : A -> A) (l : list A) : list A :=
  match l, n with
  | [], _ => []
  | x :: t, O => f x :: t
  | x :: t, S k => x :: update_nth k f t
  end.

Definition update_chapter_status (chapter_id : nat) (new_status : ChapterStatus)
  (errors : list str) (w : World) : result unit * World :=
  match nth_error (chapters w) chapter_id with
  | None => (raise ValueError (lit "Chapter not found"), w)
  | Some _ =>
      let set c :=
        mkChapter (chapter_number c) (chapter_title c) (chapter_slug c) (word_count c)
          (reading_time_minutes c) new_status
          (match errors with [] => validation_errors c | _ => errors end) in
      commit (with_chapters w (update_nth chapter_id set (chapters w)))
  end.

(** [metrics.get(key, default)] *)
Fixpoint metrics_get (key : String.string) (default : Z)
  (metrics : list (String.string * Z)) : Z :=
  match metrics with
  | [] => default
  | (k, v) :: rest => if String.eqb k key then v else metrics_get key default rest
  end.

Arguments metrics_get key%_string default%_Z metrics.

(** *** The body of the per-chapter [try] *)

Definition chapter_body (generator : ChapterGenerator.ChapterGenerator)
  (i total : nat) (chapter_def : ChapterDefinition) (w : World)
  : result unit * World :=
  (* Generate chapter *)
  match ChapterGenerator.generate_chapter provider random
          get_chapter_generation_prompt CHAPTER_GENERATION_SYSTEM_PROMPT
          generator chapter_def (llm w) with
  | (inl e, st) => (inl e, with_llm w st)
  | (inr result, st) =>
      let w := with_llm w st in
      (* Validate chapter *)
      let validation_result :=
        Validator.validate_chapter md_parse (ChapterGenerator.content result) in
      (* Calculate reading time *)
      let reading_time :=
        metrics_get "reading_time_minutes" 6 (Validator.metrics validation_result) in
      (* Create chapter record *)
      match create_chapter (number chapter_def) (title chapter_def) (slug chapter_def)
              (ChapterGenerator.word_count result) reading_time
              (if Validator.valid validation_result then CH_VALIDATED else CH_FAILED)
              w with
      | (inl e, w) => (inl e, w)
      | (inr chapter_id, w) =>
          (* Update chapter with validation errors if any *)
          match (if negb (Validator.valid validation_result)
                 then update_chapter_status chapter_id CH_FAILED
                        (Validator.errors validation_result) w
                 else (ret tt, w)) with
          | (inl e, w) => (inl e, w)
          | (inr _, w) =>
              (* Update job progress *)
              match _increment_job_progress (ChapterGenerator.tokens_used result) w with
              | (inl e, w) => (inl e, w)
              | (inr _, w) =>
                  (* Apply rate limiting delay (except after last chapter) *)
                  if (i <? total)%nat
                  then (ret tt, mkWorld (llm w) (job w) (chapters w) (commits w)
                                  (S (pauses w)))
                  else (ret tt, w)
              end
          end
      end
  end.

(** The sequential loop over [enumerate(curriculum, start=1)], each body
    under its [except Exception] handler.  An exception raised by the
    handler itself leaves the loop. *)
Fixpoint chapter_loop (generator : ChapterGenerator.ChapterGenerator) (total : nat)
  (units : list (nat * ChapterDefinition)) (w : World)
  : (Site * exn + unit) * World :=
  match units with
  | [] => (inr tt, w)
  | (i, chapter_def) :: rest =>
      match chapter_body generator i total chapter_def w with
      | (inr _, w) => chapter_loop generator total rest w
      | (inl e, w) =>
          let error_msg :=
            lit "Failed to generate chapter " ++ of_Z (number chapter_def) ++ lit ": "
            ++ message e in
          match _add_job_error error_msg w with
          | (inl e', w) => (inl (InChapterHandler i, e'), w)
          | (inr _, w) =>
              (* Continue with next chapter (don't fail entire job) *)
              chapter_loop generator total rest w
          end
      end
  end.

(** *** The summary stage *)

(** One task of the fan-out: [_generate_single_summary].  The result
    tells whether the task ended with an exception. *)
Definition _generate_single_summary (chapter_def : ChapterDefinition) (w : World)
  : result unit * World :=
  match summary_task chapter_def with
  | inl e => (inl e, w)
  | inr tokens_used =>
      (* Track token usage *)
      _increment_job_progress tokens_used w
  end.

(** [asyncio.gather] with [return_exceptions=True]: every task
    runs; the number of those that ended with an exception is counted. *)
Fixpoint gather (tasks : list ChapterDefinition) (w : World) : nat * World :=
  match tasks with
  | [] => (0%nat, w)
  | chapter_def :: rest =>
      match _generate_single_summary chapter_def w with
      | (inl _, w) => let '(failed, w) := gather rest w in (S failed, w)
      | (inr _, w) => gather rest w
      end
  end.

Definition _generate_summaries_for_chapters (curriculum : list ChapterDefinition)
  (w : World) : result unit * World :=
  let '(failed, w) := gather (schedule curriculum) w in
  if (0 <? failed)%nat then
    _add_job_error
      (lit "Failed to generate summaries for " ++ of_nat failed ++ lit " chapters") w
  else (ret tt, w).

(** *** The background task *)

(** The body of the outermost [try]. *)
Definition batch_body (curriculum : list ChapterDefinition) (w : World)
  : (Site * exn + unit) * World :=
  (* Update job status to IN_PROGRESS *)
  match _update_job_status IN_PROGRESS w with
  | (inl e, w) => (inl (AtSetup, e), w)
  | (inr _, w) =>
      (* Initialize generator and validator *)
      if negb api_key then
        (inl (AtSetup,
              mkExn ValueError
                (lit "ANTHROPIC_API_KEY not found in environment or constructor")), w)
      else
        let w := with_llm w LLMClient.initial_state in
        let generator := ChapterGenerator.with_defaults in
        (* Sequential generation with delays *)
        match chapter_loop generator (length curriculum) (enumerate 1 curriculum) w with
        | (inl escaped, w) => (inl escaped, w)
        | (inr _, w) =>
            (* Generate summaries for all chapters (parallel generation) *)
            match
              (match _generate_summaries_for_chapters curriculum w with
               | (inr _, w) => (inr tt, w)
               | (inl e, w) =>
                   match _add_job_error (lit "Summary generation failed: " ++ message e) w
                   with
                   | (inl e', w) => (inl (InSummaryHandler, e'), w)
                   | (inr _, w) => (inr tt, w)
                   end
               end) with
            | (inl escaped, w) => (inl escaped, w)
            | (inr _, w) =>
                (* Mark job as completed *)
                match _complete_job w with
                | (inl e, w) => (inl (AtCompletion, e), w)
                | (inr _, w) => (inr tt, w)
                end
            end
        end
  end.

(** [_execute_batch_generation]: the exception that reached the
    outermost handler, if any, and the final state. *)
Definition _execute_batch_generation (curriculum : list ChapterDefinition) (w : World)
  : option (Site * exn) * World :=
  match batch_body curriculum w with
  | (inr _, w) => (None, w)
  | (inl (site, e), w) =>
      let error_msg := lit "Batch generation failed: " ++ message e in
      (Some (site, e), snd (_fail_job error_msg w))
  end.

(** The job row [start_batch_generation] creates;
    [model_override or LLMClient.MODEL_SONNET]. *)
Definition new_job (chapters_total : Z) (model_override : option str) : GenerationJob :=
  mkGenerationJob PENDING 0 chapters_total [] 0
    (match model_override with
     | Some (c :: m) => c :: m
     | _ => LLMClient.MODEL_SONNET
     end) false.

(** [start_batch_generation] followed by the background task it starts:
    the job row is committed first; the task runs on the session that
    holds it. *)
Definition start_batch_generation (curriculum : list ChapterDefinition)
  (model_override : option str) : result (option (Site * exn) * World) :=
  let chapters_total := Z.of_nat (length curriculum) in
  let job := new_job chapters_total model_override in
  match commit (mkWorld LLMClient.initial_state (Some job) [] 0 0) with
  | (inl e, _) => inl e
  | (inr _, w) => ret (_execute_batch_generation curriculum w)
  end.

End Service.

End GenerationService.

(* ================================================================== *)
(** ** curriculum.py: the curriculum and its lookups *)

Module CurriculumData.

Import Curriculum.
Open Scope Z_scope.

Definition valid_priorities : list str := [lit "P1"; lit "P2"; lit "P3"].

(** [ChapterDefinition.__post_init__]: run by the dataclass constructor
    on the new object. *)
Definition __post_init__ (self : ChapterDefinition) : result unit :=
  if negb ((800 <=? word_count_target self) && (word_count_target self <=? 1200)) then
    raise ValueError
      (lit "word_count_target must be 800-1200 (got " ++ of_Z (word_count_target self)
       ++ lit ")")
  else if negb (existsb (PyStr.eqb (priority self)) valid_priorities) then
    raise ValueError
      (lit "priority must be P1, P2, or P3 (got " ++ priority self ++ lit ")")
  else ret tt.

(** [ChapterDefinition(...)] *)
Definition new_ChapterDefinition (number : Z) (title slug : str)
  (learning_objectives topics : list str) (word_count_target : Z) (priority : str)
  : result ChapterDefinition :=
  let self :=
    mkChapterDefinition number title slug learning_objectives topics
      word_count_target priority in
  match __post_init__ self with
  | inl e => inl e
  | inr _ => ret self
  end.

(** The textbook curriculum. *)
Definition CURRICULUM : list ChapterDefinition :=
  [ mkChapterDefinition 1
      (lit "Introduction to Physical AI")
      (lit "physical-ai-intro")
      [ lit "Define Physical AI and distinguish from traditional AI";
        lit "Understand the role of embodiment in intelligence";
        lit "Identify real-world applications of Physical AI" ]
      [ lit "What is Physical AI";
        lit "History and evolution";
        lit "Embodied intelligence";
        lit "Applications (industrial robots, drones, autonomous vehicles)";
        lit "Key challenges and opportunities" ]
      1000 (lit "P1");
    mkChapterDefinition 2
      (lit "Humanoid Robotics Fundamentals")
      (lit "humanoid-robotics-fundamentals")
      [ lit "Explain the motivation for humanoid form factors";
        lit "Describe key components of humanoid robots";
        lit "Understand design challenges and trade-offs" ]
      [ lit "Why humanoid robots";
        lit "Anatomy (torso, limbs, head)";
        lit "Degrees of freedom (DOF)";
        lit "Balance and stability";
        lit "Examples (Atlas, Optimus, Digit)" ]
      1100 (lit "P1");
    mkChapterDefinition 3
      (lit "Sensors and Perception")
      (lit "sensors-perception")
      [ lit "Identify sensor types used in robotics";
        lit "Explain sensor fusion principles";
        lit "Understand perception pipelines" ]
      [ lit "Vision (cameras, lidar)";
        lit "Tactile sensors";
        lit "IMUs (Inertial Measurement Units)";
        lit "Proprioception";
        lit "Sensor fusion";
        lit "Perception for navigation" ]
      1000 (lit "P1");
    mkChapterDefinition 4
      (lit "Actuators and Motion")
      (lit "actuators-motion")
      [ lit "Describe actuator technologies";
        lit "Explain motion control principles";
        lit "Understand gait generation for humanoid robots" ]
      [ lit "Motors (servo, stepper)";
        lit "Hydraulics";
        lit "Pneumatics";
        lit "Motion control (PID, MPC)";
        lit "Bipedal locomotion";
        lit "Gait patterns" ]
      1050 (lit "P1");
    mkChapterDefinition 5
      (lit "AI for Robot Control")
      (lit "ai-robot-control")
      [ lit "Explain reinforcement learning for robotics";
        lit "Understand imitation learning approaches";
        lit "Identify challenges in sim-to-real transfer" ]
      [ lit "RL (Reinforcement Learning) basics";
        lit "Policy learning";
        lit "Sim-to-real gap";
        lit "Imitation learning";
        lit "End-to-end learning";
        lit "Teleoperation" ]
      1100 (lit "P1");
    mkChapterDefinition 6
      (lit "Manipulation and Dexterity")
      (lit "manipulation-dexterity")
      [ lit "Describe grasp planning techniques";
        lit "Explain manipulation primitives";
        lit "Understand dexterous manipulation challenges" ]
      [ lit "Grasping";
        lit "Manipulation planning";
        lit "Force control";
        lit "Dexterous hands";
        lit "Tool use";
        lit "Object manipulation" ]
      1000 (lit "P1");
    mkChapterDefinition 7
      (lit "Safety and Ethics")
      (lit "safety-ethics")
      [ lit "Identify safety considerations in humanoid robotics";
        lit "Understand ethical implications of embodied AI";
        lit "Explain regulatory landscape" ]
      [ lit "Safety standards (ISO)";
        lit "Human-robot interaction safety";
        lit "Ethical concerns";
        lit "Bias in robotics";
        lit "Regulation" ]
      900 (lit "P3");
    mkChapterDefinition 8
      (lit "Future Trends and Applications")
      (lit "future-trends")
      [ lit "Explore emerging applications of humanoid robots";
        lit "Understand current research frontiers";
        lit "Envision future developments" ]
      [ lit "Healthcare robots";
        lit "Service robots";
        lit "Space exploration";
        lit "Research challenges (long-term autonomy, generalization)";
        lit "Future vision" ]
      950 (lit "P3") ].

(** [repr] of a list of ints, as an f-string prints it. *)
Definition repr_ints (l : list Z) : str :=
  lit "[" ++ join (lit ", ") (map of_Z l) ++ lit "]".

(** The functions of the module read the module-level list [CURRICULUM];
    they are given here for any value of that list. *)
Section Functions.

Variable CURRICULUM : list ChapterDefinition.

Definition get_curriculum (include_extended : bool) : list ChapterDefinition :=
  if include_extended then CURRICULUM
  else
    (* MVP: Only P1 chapters (first 6) *)
    filter (fun ch => PyStr.eqb (priority ch) (lit "P1")) CURRICULUM.

(** The loop of [get_chapter_by_number]. *)
Fixpoint find_number (chapters : list ChapterDefinition) (chapter_number : Z)
  : option ChapterDefinition :=
  match chapters with
  | [] => None
  | chapter :: rest =>
      if number chapter =? chapter_number then Some chapter
      else find_number rest chapter_number
  end.

Definition get_chapter_by_number (chapter_number : Z) : result ChapterDefinition :=
  match find_number CURRICULUM chapter_number with
  | Some chapter => ret chapter
  | None =>
      raise ValueError
        (lit "Invalid chapter number: " ++ of_Z chapter_number ++ lit " (valid: 1-8)")
  end.

(** The loop of [get_chapter_by_slug]. *)
Fixpoint find_slug (chapters : list ChapterDefinition) (s : str)
  : option ChapterDefinition :=
  match chapters with
  | [] => None
  | chapter :: rest =>
      if PyStr.eqb (slug chapter) s then Some chapter else find_slug rest s
  end.

Definition get_chapter_by_slug (s : str) : result ChapterDefinition :=
  match find_slug CURRICULUM s with
  | Some chapter => ret chapter
  | None => raise ValueError (lit "Invalid chapter slug: " ++ s)
  end.

Definition word_count_target_errors (chapter : ChapterDefinition) : list str :=
  if negb ((800 <=? word_count_target chapter) && (word_count_target chapter <=? 1200))
  then [lit "Chapter " ++ of_Z (number chapter) ++ lit " word_count_target "
        ++ of_Z (word_count_target chapter) ++ lit " outside range (800-1200)"]
  else [].

Definition objective_count_errors (chapter : ChapterDefinition) : list str :=
  let obj_count := Z.of_nat (length (learning_objectives chapter)) in
  if negb ((3 <=? obj_count) && (obj_count <=? 5))
  then [lit "Chapter " ++ of_Z (number chapter) ++ lit " has " ++ of_Z obj_count
        ++ lit " learning objectives (expected 3-5)"]
  else [].

Definition validate_curriculum : list str :=
  let errors := [] in
  (* Check for duplicate chapter numbers *)
  let numbers := map number CURRICULUM in
  let errors :=
    if negb (length numbers =? length (nodup Z.eq_dec numbers))%nat
    then errors ++ [lit "Duplicate chapter numbers detected"]
    else errors in
  (* Check for duplicate slugs *)
  let slugs := map slug CURRICULUM in
  let errors :=
    if negb (length slugs =? length (nodup Validator.str_eq_dec slugs))%nat
    then errors ++ [lit "Duplicate chapter slugs detected"]
    else errors in
  (* Check sequential numbering *)
  let expected_numbers := range 1 (Z.of_nat (length CURRICULUM) + 1) in
  let errors :=
    if list_eq_dec Z.eq_dec numbers expected_numbers then errors
    else errors ++ [lit "Chapter numbers not sequential: expected "
                    ++ repr_ints expected_numbers ++ lit ", got " ++ repr_ints numbers] in
  (* Check word count targets *)
  let errors := errors ++ flat_map word_count_target_errors CURRICULUM in
  (* Check learning objectives count (3-5 per chapter) *)
  let errors := errors ++ flat_map objective_count_errors CURRICULUM in
  errors.

End Functions.

End CurriculumData.

(* ================================================================== *)
(** ** llm_client.py: construction, counters and the one-off helper *)

Module LLMClientApi.

Import LLMClient.
Open Scope Z_scope.

(** [LLMClient(api_key, max_retries, retry_delay)]: the key given, or
    else the one of the environment; an absent or empty key is an
    error.  A new client has used no tokens. *)
Definition new_LLMClient (api_key env_key : option str) (max_retries retry_delay : Z)
  : result (Client * State) :=
  let key :=
    match api_key with
    | Some (c :: k) => Some (c :: k)
    | _ => env_key
    end in
  match key with
  | Some (_ :: _) => ret (mkClient max_retries retry_delay, initial_state)
  | _ => raise ValueError (lit "ANTHROPIC_API_KEY not found in environment or constructor")
  end.

Definition get_total_tokens_used (st : State) : Z := total_tokens_used st.

Definition reset_token_counter (st : State) : State :=
  mkState 0 (sent st) (draws st) (slept st).

Section Helper.

Variable provider : nat -> Request -> ProviderOutcome.
Variable random : nat -> Q.

(** The environment variable [ANTHROPIC_API_KEY]. *)
Variable env_key : option str.


End Helper.

End LLMClientApi.

(* ================================================================== *)
(** ** chapter_generator.py: generate_chapter_by_number *)

Module ChapterGeneratorApi.

Import Curriculum ChapterGenerator.
Open Scope Z_scope.

Section Helper.

Variable provider : nat -> LLMClient.Request -> LLMClient.ProviderOutcome.
Variable random : nat -> Q.
Variable get_chapter_generation_prompt : ChapterDefinition -> str.
Variable CHAPTER_GENERATION_SYSTEM_PROMPT : str.
Variable env_key : option str.

(** [generate_chapter_by_number(chapter_number, llm_client)]: the chapter
    is looked up first; the generator is built on the client given, or
    on a new client with the default configuration. *)
Definition generate_chapter_by_number (chapter_number : Z)
  (llm_client : option (LLMClient.Client * LLMClient.State))
  : result ChapterGenerationResult * LLMClient.State :=
  let st0 :=
    match llm_client with
    | Some (_, st) => st
    | None => LLMClient.initial_state
    end in
  match CurriculumData.get_chapter_by_number CurriculumData.CURRICULUM chapter_number with
  | inl e => (inl e, st0)
  | inr chapter =>
      match (match llm_client with
             | Some c => ret c
             | None =>
                 LLMClientApi.new_LLMClient None env_key
                   LLMClient.DEFAULT_MAX_RETRIES LLMClient.DEFAULT_RETRY_DELAY
             end) with
      | inl e => (inl e, st0)
      | inr (client, st) =>
          let generator := mkChapterGenerator client 3 true in
          generate_chapter provider random get_chapter_generation_prompt
            CHAPTER_GENERATION_SYSTEM_PROMPT generator chapter st
      end
  end.

End Helper.

End ChapterGeneratorApi.

(* ================================================================== *)
(** ** chapter_service.py: reading the chapter table *)

Module ChapterService.

Import GenerationService.
Open Scope Z_scope.

(** A chapter's identifier is its position in the table. *)
Definition get_chapter_by_id (chapter_id : nat) (w : World) : option Chapter :=
  nth_error (chapters w) chapter_id.

Definition count_chapters (w : World) : nat := length (chapters w).

(** The checks of [validate_constitution_compliance] on one row. *)
Definition compliance_errors (chapter : Chapter) : list str :=
  let errors := [] in
  (* Check word count *)
  let errors :=
    if negb ((800 <=? word_count chapter) && (word_count chapter <=? 1200)) then
      errors ++ [lit "Word count " ++ of_Z (word_count chapter)
                 ++ lit " outside range (800-1200)"]
    else errors in
  (* Check reading time *)
  let errors :=
    if negb ((5 <=? reading_time_minutes chapter) && (reading_time_minutes chapter <=? 7))
    then
      errors ++ [lit "Reading time " ++ of_Z (reading_time_minutes chapter)
                 ++ lit " outside range (5-7 min)"]
    else errors in
  (* Check chapter number *)
  let errors :=
    if negb ((1 <=? chapter_number chapter) && (chapter_number chapter <=? 8)) then
      errors ++ [lit "Chapter number " ++ of_Z (chapter_number chapter)
                 ++ lit " outside range (1-8)"]
    else errors in
  errors.

Definition validate_constitution_compliance (chapter_id : nat) (w : World)
  : result (list str) :=
  match get_chapter_by_id chapter_id w with
  | None => raise ValueError (lit "Chapter " ++ of_nat chapter_id ++ lit " not found")
  | Some chapter => ret (compliance_errors chapter)
  end.

End ChapterService.

(* ================================================================== *)
(** ** generation_service.py: cancel_job *)

Module JobControl.

Import GenerationJob GenerationService.
Open Scope Z_scope.

Section Service.

Variable commit_fails : nat -> bool.

Definition cancel_job (w : World) : result bool * World :=
  match _get_job w with
  | None => (ret false, w)
  | Some job =>
      if is_complete job then (ret false, w)
      else
        let job := set_status job FAILED in
        let job := set_completed_at job in
        let job := add_error job (lit "Job cancelled by user") in
        match commit commit_fails (with_job w job) with
        | (inl e, w) => (inl e, w)
        | (inr _, w) => (ret true, w)
        end
  end.

End Service.

End JobControl.

(* ================================================================== *)
(** ** markdown_writer.py: MarkdownWriter *)

Module MarkdownWriter.

Open Scope Z_scope.

Record MarkdownMetadata := mkMarkdownMetadata {
  sidebar_position : Z;
  sidebar_label : str;
  title : str;
  description : str;
  keywords : list str
}.

(** What [write_chapter] returns. *)
Record WriteResult (Path : Type) := mkWriteResult {
  file_path : Path;
  docusaurus_url : str;
  content_hash : str;
  filename : str
}.

(** What the [append_*] methods return: the path, the hash of the new
    content and the number of items appended. *)
Record AppendResult (Path : Type) := mkAppendResult {
  appended_to : Path;
  appended_hash : str;
  appended_count : nat
}.

(** The format [{n:02d}]: at least two characters, padded with a zero. *)
Definition format_02d (n : Z) : str :=
  let s := of_Z n in
  if (length s <? 2)%nat then lit "0" ++ s else s.

Definition chapter_filename (chapter_number : Z) (slug : str) : str :=
  lit "chapter-" ++ format_02d chapter_number ++ lit "-" ++ slug ++ lit ".md".

Section Writer.

(** Paths ([pathlib.Path]) with their equality, and [directory / name]. *)
Variable Path : Type.
Variable path_eqb : Path -> Path -> bool.
Variable joinpath : str -> str -> Path.

(** The files: the text stored at a path, if the path exists. *)
Definition Files : Type := Path -> option str.

(** Whether writing to a path raises [OSError]. *)
Variable unwritable : Path -> bool.

(** [datetime.now().strftime('%Y-%m-%d')] *)
Variable today : str.

(** [hashlib.sha256(text.encode('utf-8')).hexdigest()] *)
Variable sha256 : str -> str.

(** [str.lower] *)
Variable lower : str -> str.

(** [json.dumps(questions, indent=2)] *)
Variable json_dumps : list json -> str.

(** [str(path)] *)
Variable path_str : Path -> str.

(** [self.docs_directory] *)
Variable docs_directory : str.

Definition write_text (p : Path) (text : str) (fs : Files) : result unit * Files :=
  if unwritable p then (raise Exception (lit "OSError"), fs)
  else (ret tt, fun q => if path_eqb p q then Some text else fs q).

Definition get_chapter_file_path (chapter_number : Z) (slug : str) : Path :=
  let filename := chapter_filename chapter_number slug in
  joinpath docs_directory filename.

Definition chapter_file_exists (chapter_number : Z) (slug : str) (fs : Files) : bool :=
  let file_path := get_chapter_file_path chapter_number slug in
  match fs file_path with Some _ => true | None => false end.

Definition _generate_default_metadata (chapter_number : Z) (title slug : str)
  : MarkdownMetadata :=
  (* Extract keywords from title (simple approach) *)
  let keywords :=
    map lower (filter (fun word => (3 <? length word)%nat) (split title)) in
  let keywords := keywords ++ [lit "physical ai"; lit "robotics"; lit "humanoid robots"] in
  mkMarkdownMetadata
    (chapter_number + 1)
    (lit "Chapter " ++ of_Z chapter_number)
    title
    (lit "Chapter " ++ of_Z chapter_number
     ++ lit " of the AI-Native Textbook on Physical AI and Humanoid Robotics")
    keywords.

Definition _generate_frontmatter (metadata : MarkdownMetadata) : str :=
  (* Format keywords as YAML array *)
  let keywords_yaml :=
    lit "[" ++ join (lit ", ") (map (fun k => dq ++ k ++ dq) (keywords metadata))
    ++ lit "]" in
  lit "---" ++ nl
  ++ lit "sidebar_position: " ++ of_Z (sidebar_position metadata) ++ nl
  ++ lit "sidebar_label: " ++ sidebar_label metadata ++ nl
  ++ lit "title: " ++ title metadata ++ nl
  ++ lit "description: " ++ description metadata ++ nl
  ++ lit "keywords: " ++ keywords_yaml ++ nl
  ++ lit "---".

Definition write_chapter (chapter_number : Z) (title slug content : str)
  (metadata : option MarkdownMetadata) (fs : Files)
  : result (WriteResult Path) * Files :=
  if negb ((1 <=? chapter_number) && (chapter_number <=? 8)) then
    (raise ValueError
       (lit "Chapter number must be 1-8 (got " ++ of_Z chapter_number ++ lit ")"), fs)
  else
    (* Generate metadata if not provided *)
    let metadata :=
      match metadata with
      | None => _generate_default_metadata chapter_number title slug
      | Some m => m
      end in
    (* Generate frontmatter *)
    let frontmatter := _generate_frontmatter metadata in
    (* Combine frontmatter and content *)
    let full_content := frontmatter ++ nl ++ nl ++ content in
    (* Generate file path *)
    let filename := chapter_filename chapter_number slug in
    let file_path := joinpath docs_directory filename in
    (* Write file *)
    match write_text file_path full_content fs with
    | (inl e, fs) => (inl e, fs)
    | (inr _, fs) =>
        (* Generate Docusaurus URL *)
        let docusaurus_url := lit "/docs/" ++ slug in
        (* Calculate content hash *)
        let content_hash := sha256 full_content in
        (ret (mkWriteResult Path file_path docusaurus_url content_hash filename), fs)
    end.

(** The loop of [_generate_summary_section] over
    [enumerate(takeaways, start=1)]. *)
Definition summary_line (summary : str) (it : nat * str) : str :=
  let '(i, takeaway) := it in
  summary ++ of_nat i ++ lit ". " ++ takeaway ++ nl.

Definition _generate_summary_section (takeaways : list str) : str :=
  let summary := lit "## Chapter Summary" ++ nl ++ nl in
  let summary := summary ++ lit "**Key Takeaways:**" ++ nl ++ nl in
  let summary := fold_left summary_line (enumerate 1 takeaways) summary in
  let summary := summary ++ nl ++ lit "---" ++ nl ++ nl in
  let summary := summary ++ lit "*Summary generated on " ++ today ++ lit "*" in
  summary.

Definition append_summary_to_chapter (chapter_number : Z) (slug : str)
  (takeaways : list str) (fs : Files) : result (AppendResult Path) * Files :=
  (* Get chapter file path *)
  let file_path := get_chapter_file_path chapter_number slug in
  match fs file_path with
  | None =>
      (raise FileNotFoundError
         (lit "Chapter file not found: " ++ path_str file_path
          ++ lit ". Generate the chapter first before adding a summary."),
       fs)
  | Some existing_content =>
      (* Generate summary section *)
      let summary_section := _generate_summary_section takeaways in
      (* Append summary to content *)
      let updated_content := existing_content ++ nl ++ nl ++ summary_section in
      (* Write updated content *)
      match write_text file_path updated_content fs with
      | (inl e, fs) => (inl e, fs)
      | (inr _, fs) =>
          (* Calculate updated content hash *)
          let content_hash := sha256 updated_content in
          (ret (mkAppendResult Path file_path content_hash (length takeaways)), fs)
      end
  end.

Definition append_quiz_to_chapter (chapter_number : Z) (slug : str)
  (questions : list json) (fs : Files) : result (AppendResult Path) * Files :=
  let file_path := get_chapter_file_path chapter_number slug in
  match fs file_path with
  | None =>
      (raise FileNotFoundError (lit "Chapter file not found: " ++ path_str file_path), fs)
  | Some existing_content =>
      let quiz_data := json_dumps questions in
      let quiz_section :=
        nl ++ nl ++ lit "## Test Your Knowledge" ++ nl ++ nl
        ++ lit "import ChapterQuiz from '@site/src/components/ChapterQuiz';" ++ nl ++ nl
        ++ lit "<ChapterQuiz questions={" ++ quiz_data ++ lit "} />" ++ nl ++ nl
        ++ lit "---" ++ nl ++ nl
        ++ lit "*Quiz generated on " ++ today ++ lit "*" in
      let updated_content := existing_content ++ quiz_section in
      match write_text file_path updated_content fs with
      | (inl e, fs) => (inl e, fs)
      | (inr _, fs) =>
          (ret (mkAppendResult Path file_path (sha256 updated_content)
                  (length questions)), fs)
      end
  end.

End Writer.

End MarkdownWriter.

(* ================================================================== *)
(** ** generation_service.py: one summary task, with its files *)

Module SummaryTask.

Import Curriculum.
Open Scope Z_scope.

Section Task.

Variable provider : nat -> LLMClient.Request -> LLMClient.ProviderOutcome.
Variable random : nat -> Q.
Variable json_loads : str -> option json.
Variable get_summary_generation_prompt : str -> str -> str.
Variable SUMMARY_GENERATION_SYSTEM_PROMPT : str.
Variable Path : Type.
Variable path_eqb : Path -> Path -> bool.
Variable joinpath : str -> str -> Path.
Variable unwritable : Path -> bool.
Variable today : str.
Variable sha256 : str -> str.
Variable path_str : Path -> str.

(** The client the batch created. *)
Variable llm_client : LLMClient.Client.

(** [SummaryGenerator(llm_client=llm_client)] and [MarkdownWriter()],
    as [_generate_summaries_for_chapters] builds them. *)
Definition summary_generator : SummaryGenerator.SummaryGenerator :=
  SummaryGenerator.mkSummaryGenerator llm_client 3 true.

Definition docs_directory : str := lit "website/docs".

(** [_generate_single_summary] up to its progress update, run on its
    own: the chapter file is looked up and read, the summary is
    generated and appended to the file.  The result is the number of
    tokens the progress update is given. *)
Definition summary_task_of (chapter_def : ChapterDefinition)
  (fs : MarkdownWriter.Files Path) (st : LLMClient.State)
  : result Z * (MarkdownWriter.Files Path * LLMClient.State) :=
  (* Read the generated chapter content from markdown file *)
  let file_path :=
    MarkdownWriter.get_chapter_file_path Path joinpath docs_directory
      (number chapter_def) (slug chapter_def) in
  match fs file_path with
  | None =>
      (raise FileNotFoundError
         (lit "Chapter file not found: " ++ path_str file_path
          ++ lit ". Chapter must be generated before summary."), (fs, st))
  | Some chapter_content =>
      (* Generate summary *)
      match SummaryGenerator.generate_summary provider random json_loads
              get_summary_generation_prompt SUMMARY_GENERATION_SYSTEM_PROMPT
              summary_generator chapter_content (title chapter_def)
              (number chapter_def) st with
      | (inl e, st) => (inl e, (fs, st))
      | (inr result, st) =>
          (* Append summary to chapter markdown file *)
          match MarkdownWriter.append_summary_to_chapter Path path_eqb joinpath
                  unwritable today sha256 path_str docs_directory
                  (number chapter_def) (slug chapter_def)
                  (SummaryGenerator.takeaways result) fs with
          | (inl e, fs) => (inl e, (fs, st))
          | (inr _, fs) => (ret (SummaryGenerator.tokens_used result), (fs, st))
          end
      end
  end.

End Task.

End SummaryTask.

(* ================================================================== *)
(** * Properties *)

(** ** Strings *)

Module PyStrFacts.

Lemma eqb_refl (a : str) : eqb a a = true.
Proof.
  induction a as [|x a IH]; simpl; [reflexivity|].
  now rewrite N.eqb_refl, IH.
Qed.

Lemma eqb_eq (a b : str) : eqb a b = true <-> a = b.
Proof.
  split; [|intros ->; apply eqb_refl].
  revert b; induction a as [|x a IH]; intros [|y b]; simpl; try discriminate; auto.
  rewrite andb_true_iff, N.eqb_eq. intros [-> H]. f_equal. now apply IH.
Qed.

Lemma startswith_app (p s : str) : startswith p (p ++ s) = true.
Proof.
  induction p as [|x p IH]; simpl; [reflexivity|].
  now rewrite N.eqb_refl, IH.
Qed.

Lemma startswith_prefix (p s : str) :
  startswith p s = true -> exists r, s = p ++ r.
Proof.
  revert s; induction p as [|x p IH]; intros s H; simpl in *.
  - now exists s.
  - destruct s as [|y s]; [discriminate|].
    apply andb_true_iff in H as [Hxy H]. apply N.eqb_eq in Hxy as ->.
    destruct (IH _ H) as [r ->]. now exists r.
Qed.

Lemma contains_startswith (needle s : str) :
  startswith needle s = true -> contains needle s = true.
Proof. intros H. destruct s; simpl; rewrite H; reflexivity. Qed.

Lemma contains_app (a needle b : str) : contains needle (a ++ needle ++ b) = true.
Proof.
  induction a as [|x a IH].
  - simpl app. apply contains_startswith, startswith_app.
  - simpl app. simpl contains. rewrite IH. apply orb_true_r.
Qed.

Lemma contains_cons (needle : str) (c : char) (s : str) :
  contains needle s = true -> contains needle (c :: s) = true.
Proof. intros H. simpl. rewrite H. apply orb_true_r. Qed.

Lemma contains_app_r (needle a b : str) :
  contains needle b = true -> contains needle (a ++ b) = true.
Proof.
  intros H. induction a as [|x a IH]; [exact H|].
  simpl app. now apply contains_cons.
Qed.

(** Finds a literal needle in a concatenation of literals and opaque
    pieces. *)
Ltac find_needle :=
  simpl;
  repeat first
    [ apply contains_startswith; reflexivity
    | apply contains_cons
    | apply contains_app_r; simpl ];
  try reflexivity.

End PyStrFacts.

(** ** The chapter validator *)

Module ValidatorFacts.

Import Validator.
Open Scope Z_scope.

(** An error of the word-count layer. *)
Definition is_word_count_error (e : str) : bool :=
  startswith (lit "Word count too ") e.

(** An error of the reading-time layer. *)
Definition is_reading_time_error (e : str) : bool :=
  startswith (lit "Reading time too ") e.

Lemma no_errors_app_cons (a : list str) (e : str) (b : list str) :
  no_errors (a ++ e :: b) = false.
Proof. unfold no_errors. rewrite length_app. simpl. apply Nat.eqb_neq. lia. Qed.

Lemma no_errors_In (l : list str) (e : str) : In e l -> no_errors l = false.
Proof.
  intros H. apply in_split in H as (a & b & ->). apply no_errors_app_cons.
Qed.

Lemma word_count_low (wc : Z) :
  wc < MIN_WORD_COUNT ->
  _validate_word_count wc =
    [lit "Word count too low: " ++ of_Z wc ++ lit " (minimum 800)"].
Proof.
  intros H. unfold _validate_word_count.
  destruct (Z.ltb_spec wc MIN_WORD_COUNT); [reflexivity | lia].
Qed.

Lemma word_count_high (wc : Z) :
  MAX_WORD_COUNT < wc ->
  _validate_word_count wc =
    [lit "Word count too high: " ++ of_Z wc ++ lit " (maximum 1200)"].
Proof.
  intros H. unfold _validate_word_count, MIN_WORD_COUNT, MAX_WORD_COUNT in *.
  destruct (Z.ltb_spec wc 800); [lia|].
  destruct (Z.ltb_spec 1200 wc); [reflexivity | lia].
Qed.

Lemma word_count_in_range (wc : Z) :
  MIN_WORD_COUNT <= wc <= MAX_WORD_COUNT -> _validate_word_count wc = [].
Proof.
  intros H. unfold _validate_word_count, MIN_WORD_COUNT, MAX_WORD_COUNT in *.
  destruct (Z.ltb_spec wc 800); [lia|].
  destruct (Z.ltb_spec 1200 wc); [lia | reflexivity].
Qed.

(** Outside the range the layer reports exactly one error, which names
    the count. *)
Lemma word_count_outside (wc : Z) :
  wc < 800 \/ 1200 < wc ->
  exists e, _validate_word_count wc = [e]
            /\ is_word_count_error e = true /\ contains (of_Z wc) e = true.
Proof.
  intros [H|H].
  - rewrite word_count_low by exact H. eexists. split; [reflexivity|]. split.
    + reflexivity.
    + apply (PyStrFacts.contains_app (lit "Word count too low: ")).
  - rewrite word_count_high by exact H. eexists. split; [reflexivity|]. split.
    + reflexivity.
    + apply (PyStrFacts.contains_app (lit "Word count too high: ")).
Qed.

Lemma reading_time_not_word_count (rt : Z) (e : str) :
  In e (_validate_reading_time rt) -> is_word_count_error e = false.
Proof.
  unfold _validate_reading_time.
  destruct (rt <? MIN_READING_TIME); [|destruct (MAX_READING_TIME <? rt)];
    simpl; intros H; try contradiction; destruct H as [<-|[]]; reflexivity.
Qed.

Lemma structure_not_word_count (content e : str) :
  In e (_validate_structure content) -> is_word_count_error e = false.
Proof.
  unfold _validate_structure.
  destruct (Regex.findall_count_heading 1 content =? 0)%nat;
    [|destruct (1 <? Regex.findall_count_heading 1 content)%nat];
    destruct (Regex.findall_count_heading 2 content =? 0)%nat;
    simpl; intros H;
    repeat (destruct H as [<-|H]; [reflexivity|]); contradiction.
Qed.

Section Chapter.

Variable md_parse : str -> MdOutcome.

Let validate_chapter := validate_chapter md_parse.

Lemma syntax_not_word_count (content e : str) :
  In e (_validate_markdown_syntax md_parse content) -> is_word_count_error e = false.
Proof.
  unfold _validate_markdown_syntax.
  destruct (md_parse content) as [n|msg]; [destruct (n =? 0)%nat|];
    simpl; intros H; try contradiction; destruct H as [<-|[]]; reflexivity.
Qed.

Lemma validate_chapter_errors (content : str) :
  errors (validate_chapter content) =
    _validate_markdown_syntax md_parse content
    ++ _validate_structure content
    ++ _validate_word_count (Z.of_nat (_count_words content))
    ++ _validate_reading_time
         (_calculate_reading_time (Z.of_nat (_count_words content))).
Proof.
  unfold validate_chapter, Validator.validate_chapter. simpl.
  now rewrite <- !app_assoc.
Qed.

Lemma validate_chapter_valid (content : str) :
  valid (validate_chapter content) = no_errors (errors (validate_chapter content)).
Proof. reflexivity. Qed.

(** C7. For every integer word count outside [800,1200] the word-count
    layer, and with it [validate_chapter] on any content with that count,
    reports an error that mentions the count; for a count inside the
    range neither reports a word-count error. *)
Theorem C7_word_count_error_iff_outside_range :
  (forall wc : Z,
      if (wc <? 800) || (1200 <? wc)
      then exists e, In e (_validate_word_count wc)
                     /\ is_word_count_error e = true
                     /\ contains (of_Z wc) e = true
      else _validate_word_count wc = [])
  /\
  (forall content : str,
      let wc := Z.of_nat (_count_words content) in
      if (wc <? 800) || (1200 <? wc)
      then exists e, In e (errors (validate_chapter content))
                     /\ is_word_count_error e = true
                     /\ contains (of_Z wc) e = true
      else forall e, In e (errors (validate_chapter content)) ->
                     is_word_count_error e = false).
Proof.
  assert (Hcase : forall wc, (wc <? 800) || (1200 <? wc) = true <-> wc < 800 \/ 1200 < wc).
  { intros wc. rewrite orb_true_iff, !Z.ltb_lt. reflexivity. }
  split.
  - intros wc. destruct ((wc <? 800) || (1200 <? wc)) eqn:E.
    + apply Hcase in E. destruct (word_count_outside _ E) as (e & He & H1 & H2).
      exists e. rewrite He. split; [now left | now split].
    + apply word_count_in_range. unfold MIN_WORD_COUNT, MAX_WORD_COUNT.
      destruct (Z.ltb_spec wc 800); [discriminate|].
      destruct (Z.ltb_spec 1200 wc); [discriminate|]. lia.
  - intros content wc. rewrite validate_chapter_errors. fold wc.
    destruct ((wc <? 800) || (1200 <? wc)) eqn:E.
    + apply Hcase in E. destruct (word_count_outside _ E) as (e & He & H1 & H2).
      exists e. rewrite He. split; [|now split].
      rewrite !in_app_iff. right. right. left. now left.
    + rewrite word_count_in_range.
      * intros e. rewrite !in_app_iff. intros [H|[H|[H|H]]].
        -- eapply syntax_not_word_count; eassumption.
        -- eapply structure_not_word_count; eassumption.
        -- contradiction.
        -- eapply reading_time_not_word_count; eassumption.
      * unfold MIN_WORD_COUNT, MAX_WORD_COUNT.
        destruct (Z.ltb_spec wc 800); [discriminate|].
        destruct (Z.ltb_spec 1200 wc); [discriminate|]. lia.
Qed.

(** Reading time of a count in [800,900]: the quotient by 200 lies in
    [4, 4.5], and the half is rounded to the even 4. *)
Lemma reading_time_800_900 (wc : Z) :
  800 <= wc <= 900 -> _calculate_reading_time wc = 4.
Proof.
  intros H. unfold _calculate_reading_time, round_div, AVERAGE_READING_SPEED.
  assert (Hq : wc / 200 = 4) by (symmetry; apply Z.div_unique with (wc - 800); lia).
  assert (Hr : wc mod 200 = wc - 800) by (symmetry; apply Z.mod_unique with 4; lia).
  rewrite Hq, Hr.
  destruct (Z.ltb_spec (2 * (wc - 800)) 200); [reflexivity|].
  destruct (Z.ltb_spec 200 (2 * (wc - 800))); [lia | reflexivity].
Qed.

(** C9. A document that passes the structure checks and whose counted
    words lie in [800,900] is rejected: its reading time is 4 minutes,
    below the minimum of 5, although its word count is accepted. *)
Theorem C9_accepted_word_count_rejected_by_reading_time (content : str) :
  _validate_structure content = [] ->
  800 <= Z.of_nat (_count_words content) <= 900 ->
  valid (validate_chapter content) = false
  /\ _calculate_reading_time (Z.of_nat (_count_words content)) <= 4
  /\ _validate_word_count (Z.of_nat (_count_words content)) = []
  /\ In (lit "Reading time too short: 4 min (minimum 5)")
        (errors (validate_chapter content)).
Proof.
  intros Hs Hwc.
  assert (Hin : In (lit "Reading time too short: 4 min (minimum 5)")
                   (errors (validate_chapter content))).
  { rewrite validate_chapter_errors, (reading_time_800_900 _ Hwc).
    rewrite !in_app_iff. right. right. right. now left. }
  split; [|split; [|split]].
  - rewrite validate_chapter_valid. eapply no_errors_In, Hin.
  - rewrite (reading_time_800_900 _ Hwc). lia.
  - apply word_count_in_range. unfold MIN_WORD_COUNT, MAX_WORD_COUNT. lia.
  - exact Hin.
Qed.

End Chapter.

End ValidatorFacts.

(** ** Loops over [enumerate] *)

Module EnumerateFacts.

Lemma enumerate_cons {A} (start : nat) (x : A) (l : list A) :
  enumerate start (x :: l) = (start, x) :: enumerate (S start) l.
Proof. reflexivity. Qed.

Lemma enumerate_nth {A} (l : list A) (start i : nat) (x : A) :
  nth_error l i = Some x -> In ((start + i)%nat, x) (enumerate start l).
Proof.
  revert start i. induction l as [|y l IH]; intros start [|i] H; simpl in H;
    try discriminate.
  - injection H as ->. rewrite Nat.add_0_r. now left.
  - rewrite enumerate_cons. right.
    replace (start + S i)%nat with (S start + i)%nat by lia. now apply IH.
Qed.

Lemma enumerate_In {A} (l : list A) (start : nat) (x : A) :
  In x l -> exists i, In (i, x) (enumerate start l).
Proof.
  intros H. apply In_nth_error in H as [i H].
  eexists. eapply enumerate_nth, H.
Qed.

Lemma enumerate_snd {A} (l : list A) (start i : nat) (x : A) :
  In (i, x) (enumerate start l) -> In x l.
Proof. unfold enumerate. apply in_combine_r. Qed.

(** A loop whose body only appends to its two lists appends, item by
    item, what each item contributes on its own. *)
Lemma fold_left_appends {A B C} (body : list B * list C -> A -> list B * list C)
  (f : A -> list B) (g : A -> list C) :
  (forall e w x, body (e, w) x = (e ++ f x, w ++ g x)) ->
  forall items e w,
    fold_left body items (e, w) = (e ++ flat_map f items, w ++ flat_map g items).
Proof.
  intros Hbody. induction items as [|x items IH]; intros e w; simpl.
  - now rewrite !app_nil_r.
  - rewrite Hbody, IH, <- !app_assoc. reflexivity.
Qed.

Lemma fold_left_appends1 {A B} (body : list B -> A -> list B) (f : A -> list B) :
  (forall e x, body e x = e ++ f x) ->
  forall items e, fold_left body items e = e ++ flat_map f items.
Proof.
  intros Hbody. induction items as [|x items IH]; intros e; simpl.
  - now rewrite app_nil_r.
  - rewrite Hbody, IH, <- app_assoc. reflexivity.
Qed.

End EnumerateFacts.

(** ** The summary validator *)

Module SummaryFacts.

Import Validator EnumerateFacts.
Open Scope Z_scope.

Definition too_short (i len : nat) : str :=
  lit "Takeaway " ++ of_nat i ++ lit " too short: " ++ of_nat len
  ++ lit " chars (minimum 50)".

Definition too_long (i len : nat) : str :=
  lit "Takeaway " ++ of_nat i ++ lit " too long: " ++ of_nat len
  ++ lit " chars (recommended max 150)".

Definition is_blank (i : nat) : str :=
  lit "Takeaway " ++ of_nat i ++ lit " is empty".

(** What one takeaway adds to the error list and to the warning list. *)
Definition takeaway_errors (it : nat * str) : list str :=
  (if (length (snd it) <? 50)%nat then [too_short (fst it) (length (snd it))] else [])
  ++ (if is_empty (strip (snd it)) then [is_blank (fst it)] else []).

Definition takeaway_warnings (it : nat * str) : list str :=
  if (length (snd it) <? 50)%nat then []
  else if (150 <? length (snd it))%nat then [too_long (fst it) (length (snd it))]
  else [].

Definition count_errors (count min_count max_count : Z) : list str :=
  if count <? min_count then
    [lit "Too few takeaways: " ++ of_Z count ++ lit " (minimum " ++ of_Z min_count ++ lit ")"]
  else if max_count <? count then
    [lit "Too many takeaways: " ++ of_Z count ++ lit " (maximum " ++ of_Z max_count ++ lit ")"]
  else [].

Lemma summary_body_appends (e w : list str) (it : nat * str) :
  summary_body (e, w) it = (e ++ takeaway_errors it, w ++ takeaway_warnings it).
Proof.
  destruct it as [i t]. unfold summary_body, takeaway_errors, takeaway_warnings. simpl.
  destruct (length t <? 50)%nat; [|destruct (150 <? length t)%nat];
    destruct (is_empty (strip t)); simpl;
    rewrite ?app_nil_r, <- ?app_assoc; reflexivity.
Qed.

Lemma validate_summary_lists (takeaways : list str) (min_count max_count : Z) :
  let r := validate_summary takeaways min_count max_count in
  errors r = count_errors (Z.of_nat (length takeaways)) min_count max_count
             ++ flat_map takeaway_errors (enumerate 1 takeaways)
  /\ warnings r = flat_map takeaway_warnings (enumerate 1 takeaways)
  /\ valid r = no_errors (errors r).
Proof.
  unfold validate_summary.
  rewrite (fold_left_appends summary_body takeaway_errors takeaway_warnings
             summary_body_appends).
  unfold count_errors. simpl.
  destruct (Z.of_nat (length takeaways) <? min_count);
    [|destruct (max_count <? Z.of_nat (length takeaways))]; simpl; auto.
Qed.

Lemma conforming_no_errors (items : list (nat * str)) :
  (forall it, In it items ->
     (50 <= length (snd it))%nat /\ is_empty (strip (snd it)) = false) ->
  flat_map takeaway_errors items = [].
Proof.
  induction items as [|it items IH]; intros H; simpl; [reflexivity|].
  rewrite IH by (intros; apply H; now right).
  destruct (H it (or_introl eq_refl)) as [Hlen Hne].
  unfold takeaway_errors. rewrite Hne.
  destruct (Nat.ltb_spec (length (snd it)) 50); [lia | reflexivity].
Qed.

Lemma conforming_valid (takeaways : list str) :
  (3 <= length takeaways <= 5)%nat ->
  (forall t, In t takeaways -> (50 <= length t)%nat /\ is_empty (strip t) = false) ->
  errors (validate_summary_default takeaways) = []
  /\ valid (validate_summary_default takeaways) = true.
Proof.
  intros Hn Hall. unfold validate_summary_default.
  destruct (validate_summary_lists takeaways 3 5) as (He & _ & Hv).
  assert (E : errors (validate_summary takeaways 3 5) = []).
  { rewrite He. unfold count_errors.
    destruct (Z.ltb_spec (Z.of_nat (length takeaways)) 3); [lia|].
    destruct (Z.ltb_spec 5 (Z.of_nat (length takeaways))); [lia|].
    simpl. apply conforming_no_errors. intros [i t] Hin. simpl.
    apply Hall. eapply enumerate_snd, Hin. }
  split; [exact E|]. rewrite Hv, E. reflexivity.
Qed.

(** C8. [validate_summary] with its default bounds: 3 to 5 takeaways,
    each non-blank and of at least 50 characters, are valid; two
    takeaways are invalid with a "too few" error; a takeaway of 40
    characters makes the summary invalid with a "too short" error; a
    takeaway of 160 characters among conforming ones leaves it valid,
    with a "too long" warning and no error. *)
Theorem C8_validate_summary_cases :
  (forall takeaways : list str,
      (3 <= length takeaways <= 5)%nat ->
      (forall t, In t takeaways ->
                 (50 <= length t)%nat /\ is_empty (strip t) = false) ->
      valid (validate_summary_default takeaways) = true)
  /\
  (forall a b : str,
      valid (validate_summary_default [a; b]) = false
      /\ In (lit "Too few takeaways: 2 (minimum 3)")
            (errors (validate_summary_default [a; b])))
  /\
  (forall (takeaways : list str) (t : str),
      In t takeaways -> length t = 40%nat ->
      valid (validate_summary_default takeaways) = false
      /\ exists i, In (lit "Takeaway " ++ of_nat i
                       ++ lit " too short: 40 chars (minimum 50)")
                      (errors (validate_summary_default takeaways)))
  /\
  (forall (takeaways : list str) (t : str),
      (3 <= length takeaways <= 5)%nat ->
      (forall t', In t' takeaways ->
                  (50 <= length t')%nat /\ is_empty (strip t') = false) ->
      In t takeaways -> length t = 160%nat ->
      valid (validate_summary_default takeaways) = true
      /\ errors (validate_summary_default takeaways) = []
      /\ exists i, In (lit "Takeaway " ++ of_nat i
                       ++ lit " too long: 160 chars (recommended max 150)")
                      (warnings (validate_summary_default takeaways))).
Proof.
  split; [|split; [|split]].
  - intros takeaways Hn Hall. now apply conforming_valid.
  - intros a b. unfold validate_summary_default.
    destruct (validate_summary_lists [a; b] 3 5) as (He & _ & Hv).
    assert (Hin : In (lit "Too few takeaways: 2 (minimum 3)")
                     (errors (validate_summary [a; b] 3 5))).
    { rewrite He. apply in_or_app. left. now left. }
    split; [|exact Hin]. rewrite Hv. eapply ValidatorFacts.no_errors_In, Hin.
  - intros takeaways t Hin Hlen. unfold validate_summary_default.
    destruct (validate_summary_lists takeaways 3 5) as (He & _ & Hv).
    destruct (enumerate_In takeaways 1 t Hin) as [i Hi].
    assert (Hmsg : In (too_short i 40) (errors (validate_summary takeaways 3 5))).
    { rewrite He. apply in_or_app. right. apply in_flat_map.
      exists (i, t). split; [exact Hi|].
      unfold takeaway_errors. simpl. rewrite Hlen. simpl. now left. }
    split; [|exists i; exact Hmsg]. rewrite Hv. eapply ValidatorFacts.no_errors_In, Hmsg.
  - intros takeaways t Hn Hall Hin Hlen.
    destruct (conforming_valid takeaways Hn Hall) as [He Hv].
    split; [exact Hv|]. split; [exact He|].
    unfold validate_summary_default.
    destruct (validate_summary_lists takeaways 3 5) as (_ & Hw & _).
    destruct (enumerate_In takeaways 1 t Hin) as [i Hi].
    exists i. rewrite Hw. apply in_flat_map.
    exists (i, t). split; [exact Hi|].
    unfold takeaway_warnings. simpl. rewrite Hlen. simpl. now left.
Qed.

End SummaryFacts.

(** ** Independence of the validators' checks *)

Module IndependenceFacts.

Import Validator EnumerateFacts.
Open Scope Z_scope.

(** *** validate_quiz *)

Definition wrong_option_count (i n : nat) : str :=
  lit "Question " ++ of_nat i ++ lit ": must have exactly 4 options (got "
  ++ of_nat n ++ lit ")".

Definition index_out_of_range (i : nat) (index : Z) : str :=
  lit "Question " ++ of_nat i ++ lit ": correct_index must be 0-3 (got "
  ++ of_Z index ++ lit ")".

Definition empty_text (i : nat) : str :=
  lit "Question " ++ of_nat i ++ lit ": question_text is empty".

Definition empty_option (i j : nat) : str :=
  lit "Question " ++ of_nat i ++ lit ", option " ++ of_nat j ++ lit ": option is empty".

Definition invalid_difficulty (i : nat) (d : str) : str :=
  lit "Question " ++ of_nat i ++ lit ": invalid difficulty '" ++ d
  ++ lit "' (valid: ['easy', 'medium', 'hard'])".

Definition option_errors (i : nat) (it : nat * str) : list str :=
  if is_empty (strip (snd it)) then [empty_option i (fst it)] else [].

(** What one question adds to the error list: a question that lacks a
    required field adds the error of the first field it lacks and
    nothing else. *)
Definition question_errors (it : nat * Question) : list str :=
  let i := fst it in
  match question_text (snd it), options (snd it), correct_index (snd it) with
  | None, _, _ => [missing_field i "question_text"]
  | Some _, None, _ => [missing_field i "options"]
  | Some _, Some _, None => [missing_field i "correct_index"]
  | Some text, Some opts, Some index =>
      (if negb (length opts =? 4)%nat then [wrong_option_count i (length opts)] else [])
      ++ (if negb ((0 <=? index) && (index <=? 3)) then [index_out_of_range i index] else [])
      ++ (if is_empty (strip text) then [empty_text i] else [])
      ++ flat_map (option_errors i) (enumerate 0 opts)
  end.

Definition question_warnings (it : nat * Question) : list str :=
  match question_text (snd it), options (snd it), correct_index (snd it),
        difficulty (snd it) with
  | Some _, Some _, Some _, Some d =>
      if negb (existsb (PyStr.eqb d) valid_difficulties)
      then [invalid_difficulty (fst it) d] else []
  | _, _, _, _ => []
  end.

Lemma option_body_appends (i : nat) (e : list str) (it : nat * str) :
  option_body i e it = e ++ option_errors i it.
Proof.
  destruct it as [j o]. unfold option_body, option_errors. simpl.
  destruct (is_empty (strip o)); [reflexivity | now rewrite app_nil_r].
Qed.

Lemma quiz_body_appends (e w : list str) (it : nat * Question) :
  quiz_body (e, w) it = (e ++ question_errors it, w ++ question_warnings it).
Proof.
  destruct it as [i [text opts index diff]].
  unfold quiz_body, question_errors, question_warnings. simpl.
  destruct text as [text|]; [|now rewrite app_nil_r].
  destruct opts as [opts|]; [|now rewrite app_nil_r].
  destruct index as [index|]; [|now rewrite app_nil_r].
  rewrite (fold_left_appends1 (option_body i) (option_errors i) (option_body_appends i)).
  f_equal.
  - repeat match goal with
           | |- context [if ?c then _ else _] => destruct c
           end; simpl; rewrite <- ?app_assoc; reflexivity.
  - destruct diff as [d|]; [|now rewrite app_nil_r].
    match goal with
    | |- context [if ?c then _ else _] => destruct c
    end; [reflexivity | now rewrite app_nil_r].
Qed.

Definition question_count_errors (count min_questions max_questions : Z) : list str :=
  if count <? min_questions then
    [lit "Too few questions: " ++ of_Z count ++ lit " (minimum "
     ++ of_Z min_questions ++ lit ")"]
  else if max_questions <? count then
    [lit "Too many questions: " ++ of_Z count ++ lit " (maximum "
     ++ of_Z max_questions ++ lit ")"]
  else [].

Lemma validate_quiz_errors (questions : list Question) (min_questions max_questions : Z) :
  errors (validate_quiz questions min_questions max_questions) =
    question_count_errors (Z.of_nat (length questions)) min_questions max_questions
    ++ flat_map question_errors (enumerate 1 questions).
Proof.
  unfold validate_quiz.
  rewrite (fold_left_appends quiz_body question_errors question_warnings
             quiz_body_appends).
  unfold question_count_errors. simpl.
  destruct (Z.of_nat (length questions) <? min_questions);
    [|destruct (max_questions <? Z.of_nat (length questions))]; reflexivity.
Qed.



(** *** validate_learning_booster *)


(** *** The four entry points *)




Section Chapter.

Variable md_parse : str -> MdOutcome.



End Chapter.


End IndependenceFacts.

(** ** The two word counts *)

Module WordCountFacts.

Import Regex.
Open Scope nat_scope.

(** The constructs the validator strips before counting. *)
Definition has_fenced_block (s : str) : Prop :=
  exists a b c, s = a ++ fence ++ b ++ fence ++ c.

Definition has_inline_code (s : str) : Prop :=
  exists a b c, b <> [] /\ ~ In BACKTICK b /\ s = a ++ [BACKTICK] ++ b ++ [BACKTICK] ++ c.

Definition has_markdown_syntax (s : str) : Prop :=
  exists c, In c s /\ is_markdown_syntax c = true.

Lemma sub_empty_no_match (match_len : str -> option nat) (s : str) :
  (forall a b, s = a ++ b -> match_len b = None) ->
  sub_empty match_len 0 s = s.
Proof.
  induction s as [|c t IH]; intros H; simpl; [reflexivity|].
  rewrite (H [] (c :: t) eq_refl). f_equal. apply IH.
  intros a b ->. apply (H (c :: a) b). reflexivity.
Qed.

Lemma find_fence_eq (s : str) :
  find_fence s =
    if startswith fence s then Some 0
    else match s with
         | [] => None
         | _ :: t => option_map S (find_fence t)
         end.
Proof. destruct s; reflexivity. Qed.

Lemma find_fence_some (s : str) (n : nat) :
  find_fence s = Some n -> exists b c, s = b ++ fence ++ c.
Proof.
  revert n. induction s as [|x s IH]; intros n; rewrite find_fence_eq.
  - discriminate.
  - destruct (startswith fence (x :: s)) eqn:E.
    + intros _. apply PyStrFacts.startswith_prefix in E as [r ->].
      now exists [], r.
    + destruct (find_fence s) as [m|] eqn:F; [|discriminate].
      intros _. destruct (IH m eq_refl) as (b & c & ->).
      now exists (x :: b), c.
Qed.

Lemma fence_match_some (s : str) (n : nat) :
  fence_match_len s = Some n -> exists b c, s = fence ++ b ++ fence ++ c.
Proof.
  unfold fence_match_len. destruct (startswith fence s) eqn:E; [|discriminate].
  apply PyStrFacts.startswith_prefix in E as [r ->].
  change (skipn 3 (fence ++ r)) with r.
  destruct (find_fence r) as [m|] eqn:F; [|discriminate].
  intros _. destruct (find_fence_some _ _ F) as (b & c & ->). now exists b, c.
Qed.

Lemma span_split (p : char -> bool) (s : str) :
  s = firstn (span_len p s) s ++ skipn (span_len p s) s
  /\ Forall (fun x => p x = true) (firstn (span_len p s) s)
  /\ length (firstn (span_len p s) s) = span_len p s.
Proof.
  induction s as [|x s (IH1 & IH2 & IH3)]; simpl.
  - repeat split; constructor.
  - destruct (p x) eqn:E; simpl.
    + repeat split; [now f_equal | now constructor | now f_equal].
    + repeat split; constructor.
Qed.

Lemma inline_match_some (s : str) (n : nat) :
  inline_match_len s = Some n ->
  exists b c, b <> [] /\ ~ In BACKTICK b /\ s = [BACKTICK] ++ b ++ [BACKTICK] ++ c.
Proof.
  destruct s as [|x t]; [discriminate|]. unfold inline_match_len.
  destruct (is_backtick x) eqn:Ex; [|discriminate].
  apply N.eqb_eq in Ex as ->.
  set (run := span_len (fun x => negb (is_backtick x)) t).
  destruct (Nat.ltb_spec 0 run) as [Hrun|]; [|discriminate]. cbn [andb].
  destruct (startswith [BACKTICK] (skipn run t)) eqn:Es; [|discriminate].
  apply PyStrFacts.startswith_prefix in Es as [rest Es].
  intros _.
  destruct (span_split (fun x => negb (is_backtick x)) t) as (Ht & Hall & Hlen).
  fold run in Ht, Hall, Hlen. rewrite Es in Ht.
  exists (firstn run t), rest. split; [|split].
  - intros E. rewrite E in Hlen. simpl in Hlen. lia.
  - intros Hin. rewrite Forall_forall in Hall. specialize (Hall _ Hin).
    unfold is_backtick in Hall. rewrite N.eqb_refl in Hall. discriminate.
  - simpl. f_equal. exact Ht.
Qed.

Lemma filter_all {A} (p : A -> bool) (l : list A) :
  (forall x, In x l -> p x = true) -> filter p l = l.
Proof.
  induction l as [|x l IH]; intros H; simpl; [reflexivity|].
  rewrite (H x (or_introl eq_refl)). f_equal. apply IH. intros; apply H; now right.
Qed.

(** On a text without fenced blocks, inline code and markdown
    punctuation the validator counts the words of the text itself. *)
Lemma validator_counts_raw_words (s : str) :
  ~ has_fenced_block s -> ~ has_inline_code s -> ~ has_markdown_syntax s ->
  Validator._count_words s = length (split s).
Proof.
  intros Hf Hi Hm. unfold Validator._count_words.
  rewrite (sub_empty_no_match fence_match_len s).
  - rewrite (sub_empty_no_match inline_match_len s).
    + rewrite filter_all; [reflexivity|].
      intros x Hx. destruct (is_markdown_syntax x) eqn:E; [|reflexivity].
      exfalso. apply Hm. now exists x.
    + intros a b ->. destruct (inline_match_len b) as [n|] eqn:E; [|reflexivity].
      exfalso. apply Hi. destruct (inline_match_some _ _ E) as (x & y & H1 & H2 & ->).
      now exists a, x, y.
  - intros a b ->. destruct (fence_match_len b) as [n|] eqn:E; [|reflexivity].
    exfalso. apply Hf. destruct (fence_match_some _ _ E) as (x & y & ->).
    now exists a, x, y.
Qed.

(** A chapter text of 800 whitespace-separated items, the first of which
    is the heading mark. *)
Definition heading_and_799_words : str :=
  lit "# " ++ concat (repeat (lit "w ") 799).

(** A provider that answers every request with that text. *)
Definition fixed_provider (text : str) (n : nat) (req : LLMClient.Request)
  : LLMClient.ProviderOutcome :=
  LLMClient.Responds
    (LLMClient.mkResponse text (LLMClient.model req) 10 20 (lit "end_turn") (lit "msg")).

Definition sample_chapter : Curriculum.ChapterDefinition :=
  Curriculum.mkChapterDefinition 1 (lit "Introduction to Physical AI")
    (lit "physical-ai-intro") [] [] 1000 (lit "P1").

(** C10. The generator's word count and the validator's agree on every
    text without fenced code, inline code and markdown punctuation; they
    differ on a text of 800 items that starts with a heading mark, which
    the generator returns with [validation_passed = true] and for which
    [validate_chapter] reports a word-count error. *)
Theorem C10_word_counts_agree_on_plain_text_only :
  (forall s : str,
      ~ has_fenced_block s -> ~ has_inline_code s -> ~ has_markdown_syntax s ->
      ChapterGenerator._count_words s = Z.of_nat (Validator._count_words s))
  /\
  (exists content : str,
      ChapterGenerator._count_words content <> Z.of_nat (Validator._count_words content)
      /\ (forall (random : nat -> Q) (prompt : Curriculum.ChapterDefinition -> str)
                 (system : str),
             exists r st,
               ChapterGenerator.generate_chapter (fixed_provider content) random
                 prompt system ChapterGenerator.with_defaults sample_chapter
                 LLMClient.initial_state = (inr r, st)
               /\ ChapterGenerator.content r = content
               /\ ChapterGenerator.validation_passed r = true)
      /\ (forall md_parse,
             exists e,
               In e (Validator.errors (Validator.validate_chapter md_parse content))
               /\ ValidatorFacts.is_word_count_error e = true)).
Proof.
  split.
  - intros s Hf Hi Hm. unfold ChapterGenerator._count_words.
    now rewrite validator_counts_raw_words.
  - exists heading_and_799_words. split; [|split].
    + vm_compute. discriminate.
    + intros random prompt system. eexists. eexists. split; [|split].
      * vm_compute. reflexivity.
      * reflexivity.
      * reflexivity.
    + intros md_parse.
      exists (lit "Word count too low: 799 (minimum 800)"). split; [|reflexivity].
      rewrite ValidatorFacts.validate_chapter_errors.
      apply in_or_app. right. apply in_or_app. right. apply in_or_app. left.
      replace (Z.of_nat (Validator._count_words heading_and_799_words)) with 799%Z
        by (vm_compute; reflexivity).
      now left.
Qed.

End WordCountFacts.

(** ** The model client *)

Module RangeFacts.

Open Scope Z_scope.

Lemma range_nil (lo hi : Z) : hi <= lo -> range lo hi = [].
Proof.
  intros H. unfold range. replace (Z.to_nat (hi - lo)) with 0%nat by lia. reflexivity.
Qed.

Lemma range_cons (lo hi : Z) : lo < hi -> range lo hi = lo :: range (lo + 1) hi.
Proof.
  intros H. unfold range.
  replace (Z.to_nat (hi - lo)) with (S (Z.to_nat (hi - (lo + 1)))) by lia.
  simpl. f_equal; [lia|].
  rewrite <- seq_shift, map_map. apply map_ext. intros i. lia.
Qed.

Lemma range_length (lo hi : Z) : length (range lo hi) = Z.to_nat (hi - lo).
Proof. unfold range. now rewrite length_map, length_seq. Qed.

End RangeFacts.

Module ClientFacts.

Import LLMClient RangeFacts.
Open Scope Z_scope.

Section Client.

Variable provider : nat -> Request -> ProviderOutcome.
Variable random : nat -> Q.
Variable self : Client.

Hypothesis retry_delay_nonneg : 0 <= retry_delay self.
Hypothesis random_unit : forall n, (0 <= random n)%Q /\ (random n < 1)%Q.

Lemma backoff_bounds (attempt : Z) (st : State) :
  0 <= attempt ->
  (0 <= fst (_calculate_backoff random self attempt st))%Q
  /\ (fst (_calculate_backoff random self attempt st)
      <= inject_Z (retry_delay self * 2 ^ attempt))%Q.
Proof.
  intros Ha. unfold _calculate_backoff, uniform. cbn [fst].
  destruct (random_unit (draws st)) as [H0 H1].
  assert (Hm : (0 <= inject_Z (retry_delay self * 2 ^ attempt))%Q).
  { change 0%Q with (inject_Z 0). rewrite <- Zle_Qle.
    apply Z.mul_nonneg_nonneg; [exact retry_delay_nonneg|].
    apply Z.pow_nonneg. lia. }
  split; nra.
Qed.

Lemma backoff_state (attempt : Z) (st : State) :
  snd (_calculate_backoff random self attempt st)
  = mkState (total_tokens_used st) (sent st) (S (draws st)) (slept st).
Proof. reflexivity. Qed.

Lemma sleep_nonneg (d : Q) (st : State) :
  (0 <= d)%Q ->
  sleep d st = (ret tt, mkState (total_tokens_used st) (sent st) (draws st) (slept st ++ [d])).
Proof.
  intros H. unfold sleep. apply Qle_bool_iff in H. now rewrite H.
Qed.

(** One iteration of [generate] that ends in the [RateLimitError]
    clause. *)
Lemma generate_from_rate_limited (attempt : Z) (rest : list Z) (req : Request)
  (st : State) (e : exn) :
  provider (calls st) req = Raises e ->
  caught_by e [RateLimitError] = true ->
  generate_from provider random self (attempt :: rest) req st =
    backoff_or_raise random self (lit "Rate limit exceeded") attempt
      (mkState (total_tokens_used st) (sent st ++ [req]) (draws st) (slept st))
      (generate_from provider random self rest req).
Proof.
  intros Hp Hc. cbn [generate_from]. unfold create. rewrite Hp, Hc. reflexivity.
Qed.

(** The loop from attempt [lo] on, when each of the remaining [n] calls
    hits the rate limit. *)
Lemma rate_limited_from (n : nat) :
  forall (lo : Z) (req : Request) (st : State),
    0 <= lo -> lo + Z.of_nat (S n) = max_retries self ->
    (forall k, (k <= n)%nat ->
               exists e, provider (calls st + k) req = Raises e
                         /\ caught_by e [RateLimitError] = true) ->
    exists e st',
      generate_from provider random self (range lo (max_retries self)) req st = (inl e, st')
      /\ cls e = GenerationError
      /\ sent st' = sent st ++ repeat req (S n)
      /\ length (slept st') = (length (slept st) + n)%nat
      /\ total_tokens_used st' = total_tokens_used st.
Proof.
  induction n as [|n IH]; intros lo req st Hlo Hmax Hrl.
  - rewrite range_cons by lia. rewrite range_nil by lia.
    destruct (Hrl 0%nat (le_n 0)) as (e & Hp & Hc). rewrite Nat.add_0_r in Hp.
    rewrite (generate_from_rate_limited _ _ _ _ _ Hp Hc).
    unfold backoff_or_raise. cbn [_calculate_backoff].
    destruct (Z.ltb_spec lo (max_retries self - 1)); [lia|].
    eexists. eexists. split; [reflexivity|]. cbn.
    repeat split; auto; lia.
  - rewrite range_cons by lia.
    destruct (Hrl 0%nat (Nat.le_0_l _)) as (e & Hp & Hc). rewrite Nat.add_0_r in Hp.
    rewrite (generate_from_rate_limited _ _ _ _ _ Hp Hc).
    unfold backoff_or_raise.
    set (st1 := mkState (total_tokens_used st) (sent st ++ [req]) (draws st) (slept st)).
    pose proof (backoff_bounds lo st1 Hlo) as [Hd _].
    pose proof (backoff_state lo st1) as Hs.
    destruct (_calculate_backoff random self lo st1) as [d st2]. cbn [fst snd] in Hd, Hs.
    destruct (Z.ltb_spec lo (max_retries self - 1)); [|lia].
    rewrite (sleep_nonneg _ _ Hd). subst st2. cbn [total_tokens_used sent draws slept].
    set (st3 := mkState _ _ _ _).
    destruct (IH (lo + 1) req st3) as (e' & st' & Hg & Hcls & Hsent & Hslept & Htok).
    + lia.
    + lia.
    + intros k Hk. destruct (Hrl (S k)) as (ek & Hpk & Hck); [lia|].
      exists ek. split; [|exact Hck]. rewrite <- Hpk. f_equal.
      unfold calls, st3, st1. cbn [sent]. rewrite length_app. simpl. lia.
    + exists e', st'. split; [exact Hg|]. split; [exact Hcls|].
      unfold st3, st1 in Hsent, Hslept, Htok. cbn [sent slept total_tokens_used] in *.
      split; [|split].
      * rewrite Hsent, <- app_assoc. reflexivity.
      * rewrite Hslept, length_app. simpl. lia.
      * exact Htok.
Qed.

End Client.

(** C4. With a non-negative base delay and random numbers drawn from
    [0, 1), the backoff delay computed for the 0-indexed attempt [k] lies
    in [0, retry_delay * 2^k]; and when each of the [max_retries] calls
    of [generate] hits the rate limit, [generate] raises
    [GenerationError] having sent exactly [max_retries] requests. *)
Theorem C4_backoff_in_range_and_rate_limit_exhaustion
  (provider : nat -> Request -> ProviderOutcome) (random : nat -> Q) (self : Client) :
  0 <= retry_delay self ->
  (forall n, (0 <= random n)%Q /\ (random n < 1)%Q) ->
  (forall (k : Z) (st : State),
      0 <= k ->
      (0 <= fst (_calculate_backoff random self k st))%Q
      /\ (fst (_calculate_backoff random self k st)
          <= inject_Z (retry_delay self * 2 ^ k))%Q)
  /\
  (forall (req : Request) (st : State),
      (forall k, (k < Z.to_nat (max_retries self))%nat ->
                 exists e, provider (calls st + k)%nat req = Raises e
                           /\ caught_by e [RateLimitError] = true) ->
      exists e st',
        generate provider random self req st = (inl e, st')
        /\ cls e = GenerationError
        /\ sent st' = sent st ++ repeat req (Z.to_nat (max_retries self))
        /\ calls st' = (calls st + Z.to_nat (max_retries self))%nat
        /\ total_tokens_used st' = total_tokens_used st).
Proof.
  intros Hdelay Hrand. split.
  - intros k st Hk. now apply backoff_bounds.
  - intros req st Hrl. unfold generate.
    destruct (Z.to_nat (max_retries self)) as [|n] eqn:En.
    + rewrite range_nil by lia. cbn [generate_from].
      eexists. eexists. split; [reflexivity|]. cbn.
      repeat split; auto. now rewrite app_nil_r.
    + destruct (rate_limited_from provider random self Hdelay Hrand n 0 req st)
        as (e & st' & Hg & Hcls & Hsent & _ & Htok).
      * lia.
      * lia.
      * intros k Hk. apply Hrl. lia.
      * exists e, st'. split; [exact Hg|]. split; [exact Hcls|].
        split; [exact Hsent|]. split; [|exact Htok].
        unfold calls. rewrite Hsent, length_app, repeat_length. reflexivity.
Qed.

End ClientFacts.

(** ** The chapter generator *)

Module ChapterFacts.

Import Curriculum ChapterGenerator.
Open Scope Z_scope.

(** The two addenda of [_add_word_count_emphasis]. *)
Definition expand_addendum (actual_count target_count : Z) : str :=
  nl ++ nl ++ lit "**CRITICAL**: The previous attempt was too short ("
  ++ of_Z actual_count
  ++ lit " words). You MUST generate at least 800 words. Target is "
  ++ of_Z target_count
  ++ lit " words. Add more depth, examples, and explanations to reach the required length.".

Definition trim_addendum (actual_count target_count : Z) : str :=
  nl ++ nl ++ lit "**CRITICAL**: The previous attempt was too long ("
  ++ of_Z actual_count
  ++ lit " words). You MUST stay under 1200 words. Target is "
  ++ of_Z target_count
  ++ lit " words. Be more concise and focused on core concepts.".

Lemma emphasis_expand (p : str) (wc target : Z) :
  wc < 800 -> _add_word_count_emphasis p wc target = p ++ expand_addendum wc target.
Proof.
  intros H. unfold _add_word_count_emphasis.
  destruct (Z.ltb_spec wc 800); [reflexivity | lia].
Qed.

Lemma emphasis_trim (p : str) (wc target : Z) :
  800 <= wc -> _add_word_count_emphasis p wc target = p ++ trim_addendum wc target.
Proof.
  intros H. unfold _add_word_count_emphasis.
  destruct (Z.ltb_spec wc 800); [lia | reflexivity].
Qed.

Lemma expand_addendum_says_expand (wc target : Z) :
  contains (lit "too short") (expand_addendum wc target) = true
  /\ contains (lit "You MUST generate at least 800 words") (expand_addendum wc target) = true.
Proof. unfold expand_addendum. split; PyStrFacts.find_needle. Qed.

Lemma trim_addendum_says_trim (wc target : Z) :
  contains (lit "too long") (trim_addendum wc target) = true
  /\ contains (lit "You MUST stay under 1200 words") (trim_addendum wc target) = true.
Proof. unfold trim_addendum. split; PyStrFacts.find_needle. Qed.

Section Generate.

Variable provider : nat -> LLMClient.Request -> LLMClient.ProviderOutcome.
Variable random : nat -> Q.
Variable system : str.
Variable self : ChapterGenerator.

Let loop := generate_chapter_from provider random system self.
Let call (user_prompt model : str) :=
  LLMClient.generate_with_rate_limit_buffer provider random (llm_client self)
    (LLMClient.mkRequest user_prompt (Some system) model 4096).

(** The result built from the text [r] of attempt [attempt]. *)
Definition accepted (chapter : ChapterDefinition) (r : LLMClient.GenerationResult)
  (attempt : Z) : ChapterGenerationResult :=
  mkChapterGenerationResult (LLMClient.content r) (number chapter) (title chapter)
    (_count_words (LLMClient.content r)) (LLMClient.tokens_used r)
    (LLMClient.model_used r) attempt
    (_is_word_count_valid (_count_words (LLMClient.content r))).

Lemma loop_step (attempt : Z) (rest : list Z) (chapter : ChapterDefinition)
  (model user_prompt : str) (st st1 : LLMClient.State) (r : LLMClient.GenerationResult) :
  call user_prompt model st = (inr r, st1) ->
  loop (attempt :: rest) chapter model user_prompt st =
    let wc := _count_words (LLMClient.content r) in
    if enforce_word_count self && negb (_is_word_count_valid wc)
       && (attempt <? max_generation_attempts self)
    then loop rest chapter model
           (_add_word_count_emphasis user_prompt wc (word_count_target chapter)) st1
    else (inr (accepted chapter r attempt), st1).
Proof.
  intros Hcall. unfold loop. cbn [generate_chapter_from].
  unfold call in Hcall. rewrite Hcall. cbv zeta. unfold accepted.
  destruct (enforce_word_count self);
    destruct (_is_word_count_valid (_count_words (LLMClient.content r)));
    destruct (attempt <? max_generation_attempts self); reflexivity.
Qed.

(** C5. With word-count enforcement on, an attempt whose text has fewer
    than 800 or more than 1200 words is followed, while attempts remain,
    by a retry whose prompt is the previous one with the addendum asking
    to expand, respectively to trim; on the last allowed attempt the
    chapter is returned with [validation_passed = false]; a text within
    the range on attempt [n] is returned with [generation_attempts = n]
    and [validation_passed = true]. *)
Theorem C5_word_count_retry_then_accept
  (attempt : Z) (rest : list Z) (chapter : ChapterDefinition)
  (model user_prompt : str) (st st1 : LLMClient.State) (r : LLMClient.GenerationResult) :
  enforce_word_count self = true ->
  call user_prompt model st = (inr r, st1) ->
  let wc := _count_words (LLMClient.content r) in
  let target := word_count_target chapter in
  let outcome := loop (attempt :: rest) chapter model user_prompt st in
  (wc < 800 -> attempt < max_generation_attempts self ->
   outcome = loop rest chapter model (user_prompt ++ expand_addendum wc target) st1
   /\ contains (lit "too short") (expand_addendum wc target) = true
   /\ contains (lit "You MUST generate at least 800 words")
        (expand_addendum wc target) = true)
  /\ (1200 < wc -> attempt < max_generation_attempts self ->
      outcome = loop rest chapter model (user_prompt ++ trim_addendum wc target) st1
      /\ contains (lit "too long") (trim_addendum wc target) = true
      /\ contains (lit "You MUST stay under 1200 words")
           (trim_addendum wc target) = true)
  /\ (wc < 800 \/ 1200 < wc -> max_generation_attempts self <= attempt ->
      exists result,
        outcome = (inr result, st1)
        /\ content result = LLMClient.content r
        /\ generation_attempts result = attempt
        /\ validation_passed result = false)
  /\ (800 <= wc <= 1200 ->
      exists result,
        outcome = (inr result, st1)
        /\ content result = LLMClient.content r
        /\ generation_attempts result = attempt
        /\ validation_passed result = true).
Proof.
  intros Henf Hcall wc target outcome. subst outcome.
  rewrite (loop_step attempt rest chapter model user_prompt st st1 r Hcall).
  cbv zeta. fold wc. rewrite Henf. cbn [andb].
  unfold _is_word_count_valid.
  split; [|split; [|split]].
  - intros Hwc Hatt.
    destruct (Z.leb_spec 800 wc); [lia|]. cbn [andb negb].
    destruct (Z.ltb_spec attempt (max_generation_attempts self)); [|lia].
    rewrite emphasis_expand by exact Hwc.
    split; [reflexivity | apply expand_addendum_says_expand].
  - intros Hwc Hatt.
    destruct (Z.leb_spec 800 wc); [|lia].
    destruct (Z.leb_spec wc 1200); [lia|]. cbn [andb negb].
    destruct (Z.ltb_spec attempt (max_generation_attempts self)); [|lia].
    rewrite emphasis_trim by lia.
    split; [reflexivity | apply trim_addendum_says_trim].
  - intros Hwc Hatt.
    destruct (Z.ltb_spec attempt (max_generation_attempts self)); [lia|].
    rewrite andb_false_r.
    exists (accepted chapter r attempt). repeat split.
    unfold accepted. cbn [validation_passed]. fold wc. unfold _is_word_count_valid.
    destruct (Z.leb_spec 800 wc); destruct (Z.leb_spec wc 1200); try reflexivity; lia.
  - intros Hwc.
    destruct (Z.leb_spec 800 wc); [|lia].
    destruct (Z.leb_spec wc 1200); [|lia]. cbn [andb negb].
    exists (accepted chapter r attempt). repeat split.
    unfold accepted. cbn [validation_passed]. fold wc. unfold _is_word_count_valid.
    destruct (Z.leb_spec 800 wc); destruct (Z.leb_spec wc 1200); try reflexivity; lia.
Qed.

End Generate.

End ChapterFacts.

(** ** Parse failures in the summary, quiz and booster generators *)

Module ParseFacts.

Open Scope Z_scope.

(** A parse failure: the exception a [_parse_*_json] function raised. *)
Definition caught_as_parse_failure (e : exn) : bool :=
  caught_by e [JSONDecodeError; ValueError].

Lemma all_strings_none (items : list json) (item : json) :
  In item items -> is_str item = false -> SummaryGenerator.all_strings items = None.
Proof.
  induction items as [|x items IH]; intros Hin Hns; [contradiction|].
  destruct Hin as [->|Hin].
  - destruct item; try reflexivity. discriminate.
  - simpl. destruct x; try reflexivity. now rewrite (IH Hin Hns).
Qed.

Lemma missing_fields_In (members : list (str * json)) (f : str) :
  In f QuizGenerator.required_fields -> LLMClient.lookup f members = None ->
  QuizGenerator.missing_fields members <> [].
Proof.
  intros Hin Hl E.
  assert (H : In f (QuizGenerator.missing_fields members)).
  { unfold QuizGenerator.missing_fields. apply filter_In. split; [exact Hin|].
    now rewrite Hl. }
  rewrite E in H. contradiction.
Qed.

Lemma check_items_bad (items : list json) (item : json) :
  In item items ->
  (forall members, item = JObj members -> QuizGenerator.missing_fields members <> []) ->
  forall i, exists e, QuizGenerator.check_items i items = inl e
                      /\ cls e = ValueError.
Proof.
  induction items as [|x items IH]; intros Hin Hbad i; [contradiction|].
  destruct Hin as [->|Hin].
  - cbn [QuizGenerator.check_items].
    destruct item as [| | | |its|members]; try (eexists; split; reflexivity).
    specialize (Hbad members eq_refl).
    destruct (QuizGenerator.missing_fields members); [congruence|].
    eexists; split; reflexivity.
  - cbn [QuizGenerator.check_items].
    destruct x as [| | | |its|members]; try (eexists; split; reflexivity).
    destruct (QuizGenerator.missing_fields members);
      [apply (IH Hin Hbad) | eexists; split; reflexivity].
Qed.

Lemma check_items_class (items : list json) :
  forall i e, QuizGenerator.check_items i items = inl e -> cls e = ValueError.
Proof.
  induction items as [|x items IH]; intros i e; cbn [QuizGenerator.check_items].
  - discriminate.
  - destruct x as [| | | |its|members]; try (intros [= <-]; reflexivity).
    destruct (QuizGenerator.missing_fields members); [apply IH|].
    intros [= <-]. reflexivity.
Qed.

(** After [_parse_quiz_json] every element is a dictionary that holds the
    three required keys, so reading them cannot raise [KeyError]. *)
Lemma check_items_fields (items : list json) :
  forall i, QuizGenerator.check_items i items = inr tt ->
  forall item, In item items ->
    exists members text opts index,
      item = JObj members
      /\ LLMClient.lookup (lit "question_text") members = Some text
      /\ LLMClient.lookup (lit "options") members = Some opts
      /\ LLMClient.lookup (lit "correct_index") members = Some index.
Proof.
  induction items as [|x items IH]; intros i Hc item Hin; [contradiction|].
  cbn [QuizGenerator.check_items] in Hc.
  destruct x as [| | | |its|members]; try discriminate.
  destruct (QuizGenerator.missing_fields members) eqn:Em; [|discriminate].
  destruct Hin as [<-|Hin]; [|eapply IH; eassumption].
  unfold QuizGenerator.missing_fields, QuizGenerator.required_fields in Em.
  cbn [filter] in Em.
  destruct (LLMClient.lookup (lit "question_text") members) as [text|] eqn:Ht;
    [|discriminate].
  destruct (LLMClient.lookup (lit "options") members) as [opts|] eqn:Ho;
    [|discriminate].
  destruct (LLMClient.lookup (lit "correct_index") members) as [index|] eqn:Hi;
    [|discriminate].
  exists members, text, opts, index. repeat split; assumption.
Qed.

Lemma as_question_no_key_error (item : json) (e : exn) :
  (exists members text opts index,
      item = JObj members
      /\ LLMClient.lookup (lit "question_text") members = Some text
      /\ LLMClient.lookup (lit "options") members = Some opts
      /\ LLMClient.lookup (lit "correct_index") members = Some index) ->
  QuizGenerator.as_question item = inl e ->
  cls e = TypeError \/ cls e = AttributeError.
Proof.
  intros (members & text & opts & index & -> & Ht & Ho & Hi).
  unfold QuizGenerator.as_question. rewrite Ht, Ho, Hi.
  destruct opts, index, text; cbn;
    try (intros [= <-]; auto);
    repeat match goal with
           | |- context [match ?x with _ => _ end] => destruct x
           end; try discriminate; intros [= <-]; auto.
Qed.

Section Parsers.

Variable json_loads : str -> option json.

Let parse_takeaways := SummaryGenerator._parse_takeaways_json json_loads.
Let parse_quiz := QuizGenerator._parse_quiz_json json_loads.
Let parse_boosters := BoosterGenerator._parse_boosters_json json_loads.

(** Whatever a parser raises is a [JSONDecodeError] or a [ValueError]. *)
Lemma parse_takeaways_class (c : str) (e : exn) :
  parse_takeaways c = inl e -> caught_as_parse_failure e = true.
Proof.
  unfold parse_takeaways, SummaryGenerator._parse_takeaways_json.
  destruct (json_loads (strip_code_fence c)) as [[| | | |items|]|];
    try (intros [= <-]; reflexivity).
  destruct (SummaryGenerator.all_strings items); [discriminate|].
  intros [= <-]; reflexivity.
Qed.

Lemma parse_quiz_class (c : str) (e : exn) :
  parse_quiz c = inl e -> caught_as_parse_failure e = true.
Proof.
  unfold parse_quiz, QuizGenerator._parse_quiz_json.
  destruct (json_loads (strip_code_fence c)) as [[| | | |items|]|];
    try (intros [= <-]; reflexivity).
  destruct (QuizGenerator.check_items 0 items) as [e'|] eqn:E; [|discriminate].
  intros [= <-]. unfold caught_as_parse_failure, caught_by.
  now rewrite (check_items_class _ _ _ E).
Qed.

Lemma parse_boosters_class (c : str) (e : exn) :
  parse_boosters c = inl e -> caught_as_parse_failure e = true.
Proof.
  unfold parse_boosters, BoosterGenerator._parse_boosters_json.
  destruct (json_loads (strip_code_fence c)) as [[| | | |items|]|];
    try (intros [= <-]; reflexivity); try discriminate.
Qed.

(** The three kinds of malformed answers are parse failures. *)
Lemma takeaways_failures (c : str) :
  (json_loads (strip_code_fence c) = None -> exists e, parse_takeaways c = inl e)
  /\ (forall v, json_loads (strip_code_fence c) = Some v ->
                (forall items, v <> JArr items) -> exists e, parse_takeaways c = inl e)
  /\ (forall items item,
         json_loads (strip_code_fence c) = Some (JArr items) ->
         In item items -> is_str item = false -> exists e, parse_takeaways c = inl e).
Proof.
  unfold parse_takeaways, SummaryGenerator._parse_takeaways_json.
  split; [|split].
  - intros ->. eexists; reflexivity.
  - intros v -> Hv. destruct v; try (eexists; reflexivity).
    exfalso. eapply Hv; reflexivity.
  - intros items item -> Hin Hns. rewrite (all_strings_none items item Hin Hns).
    eexists; reflexivity.
Qed.

Lemma quiz_failures (c : str) :
  (json_loads (strip_code_fence c) = None -> exists e, parse_quiz c = inl e)
  /\ (forall v, json_loads (strip_code_fence c) = Some v ->
                (forall items, v <> JArr items) -> exists e, parse_quiz c = inl e)
  /\ (forall items item,
         json_loads (strip_code_fence c) = Some (JArr items) ->
         In item items -> (forall members, item <> JObj members) ->
         exists e, parse_quiz c = inl e)
  /\ (forall items members field,
         json_loads (strip_code_fence c) = Some (JArr items) ->
         In (JObj members) items ->
         In field QuizGenerator.required_fields ->
         LLMClient.lookup field members = None ->
         exists e, parse_quiz c = inl e).
Proof.
  unfold parse_quiz, QuizGenerator._parse_quiz_json.
  split; [|split; [|split]].
  - intros ->. eexists; reflexivity.
  - intros v -> Hv. destruct v; try (eexists; reflexivity).
    exfalso. eapply Hv; reflexivity.
  - intros items item -> Hin Hno.
    destruct (check_items_bad items item Hin) with (i := 0%nat) as (e & -> & _).
    + intros members ->. exfalso. eapply Hno; reflexivity.
    + eexists; reflexivity.
  - intros items members field -> Hin Hf Hl.
    destruct (check_items_bad items (JObj members) Hin) with (i := 0%nat) as (e & -> & _).
    + intros m [= <-]. eapply missing_fields_In; eassumption.
    + eexists; reflexivity.
Qed.

Lemma boosters_failures (c : str) :
  (json_loads (strip_code_fence c) = None -> exists e, parse_boosters c = inl e)
  /\ (forall v, json_loads (strip_code_fence c) = Some v ->
                (forall items, v <> JArr items) -> exists e, parse_boosters c = inl e).
Proof.
  unfold parse_boosters, BoosterGenerator._parse_boosters_json.
  split.
  - intros ->. eexists; reflexivity.
  - intros v -> Hv. destruct v; try (eexists; reflexivity).
    exfalso. eapply Hv; reflexivity.
Qed.

End Parsers.

End ParseFacts.

(** ** Requests sent by the client *)

Module SentFacts.

Import LLMClient.
Open Scope Z_scope.

Section Client.

Variable provider : nat -> Request -> ProviderOutcome.
Variable random : nat -> Q.
Variable self : Client.

Lemma sleep_sent (d : Q) (st : State) :
  sent (snd (sleep d st)) = sent st.
Proof. unfold sleep. destruct (Qle_bool 0 d); reflexivity. Qed.

Lemma repeat_snoc (req : Request) (l : list Request) (k : nat) :
  (l ++ [req]) ++ repeat req k = l ++ repeat req (S k).
Proof. now rewrite <- app_assoc. Qed.

Lemma backoff_or_raise_sent (what : str) (attempt : Z) (req : Request) (l : list Request)
  (st : State) (k : State -> result GenerationResult * State) :
  sent st = l ++ [req] ->
  (forall st1 res st', sent st1 = l ++ [req] -> k st1 = (res, st') ->
                       exists n, sent st' = (l ++ [req]) ++ repeat req n) ->
  forall res st', backoff_or_raise random self what attempt st k = (res, st') ->
                  exists n, sent st' = l ++ repeat req n.
Proof.
  intros Hs Hk res st'. unfold backoff_or_raise, _calculate_backoff.
  destruct (attempt <? max_retries self - 1).
  - pose proof (sleep_sent (uniform 0 (inject_Z (retry_delay self * 2 ^ attempt))
                              (random (draws st)))
                  (mkState (total_tokens_used st) (sent st) (S (draws st)) (slept st)))
      as Hsl.
    destruct (sleep _ _) as [[e|[]] st2]; cbn [snd sent] in Hsl.
    + intros [= <- <-]. exists 1%nat. now rewrite Hsl, Hs.
    + intros Hk'. destruct (Hk st2 res st') as [n Hn]; [congruence | exact Hk' |].
      exists (S n). now rewrite Hn, repeat_snoc.
  - intros [= <- <-]. exists 1%nat. exact Hs.
Qed.

(** [generate] sends the request it was given, and nothing else. *)
Lemma generate_from_sent (attempts : list Z) (req : Request) :
  forall st res st',
    generate_from provider random self attempts req st = (res, st') ->
    exists n, sent st' = sent st ++ repeat req n.
Proof.
  induction attempts as [|attempt rest IH]; intros st res st'; cbn [generate_from].
  - intros [= <- <-]. exists 0%nat. now rewrite app_nil_r.
  - unfold create. destruct (provider (calls st) req) as [response|e].
    + intros [= <- <-]. exists 1%nat. reflexivity.
    + assert (Hk : forall st1 res st',
                 sent st1 = sent st ++ [req] ->
                 generate_from provider random self rest req st1 = (res, st') ->
                 exists n, sent st' = (sent st ++ [req]) ++ repeat req n).
      { intros st1 res1 st1' Hs H. destruct (IH _ _ _ H) as [n Hn].
        exists n. now rewrite Hn, Hs. }
      destruct (caught_by e [RateLimitError]);
        [|destruct (caught_by e [APIConnectionError]);
          [|destruct (caught_by e [APIError])]].
      * apply backoff_or_raise_sent; [reflexivity | exact Hk].
      * apply backoff_or_raise_sent; [reflexivity | exact Hk].
      * intros [= <- <-]. exists 1%nat. reflexivity.
      * intros [= <- <-]. exists 1%nat. reflexivity.
Qed.

Lemma generate_with_rate_limit_buffer_sent (req : Request) (st : State)
  (res : result GenerationResult) (st' : State) :
  generate_with_rate_limit_buffer provider random self req st = (res, st') ->
  exists n, sent st' = sent st ++ repeat req n.
Proof.
  unfold generate_with_rate_limit_buffer, generate.
  destruct (generate_from provider random self (range 0 (max_retries self)) req st)
    as [[e|r] st1] eqn:E; apply generate_from_sent in E.
  - now intros [= <- <-].
  - pose proof (sleep_sent (inject_Z RATE_LIMIT_BUFFER) st1) as Hs.
    destruct (sleep _ st1) as [[e|[]] st2]; cbn [snd] in Hs;
      intros [= <- <-]; destruct E as [n E]; exists n; congruence.
Qed.

End Client.

End SentFacts.

(** ** Retry on parse failure *)

Module RetryFacts.

Import ParseFacts.
Open Scope Z_scope.

(** The instructions the summary and the quiz generator append after a
    parse failure. *)
Definition summary_format_addendum : str :=
  SummaryGenerator._add_json_format_emphasis [].

Definition quiz_format_addendum : str :=
  QuizGenerator._add_json_format_emphasis [].

Lemma summary_emphasis (p : str) :
  SummaryGenerator._add_json_format_emphasis p = p ++ summary_format_addendum.
Proof. reflexivity. Qed.

Lemma quiz_emphasis (p : str) :
  QuizGenerator._add_json_format_emphasis p = p ++ quiz_format_addendum.
Proof. reflexivity. Qed.

Lemma addenda_demand_json_array :
  contains (lit "Your response MUST be a valid JSON array of strings")
    summary_format_addendum = true
  /\ contains (lit "Your response MUST be a valid JSON array of question objects")
       quiz_format_addendum = true.
Proof. split; vm_compute; reflexivity. Qed.

(** Every call of the client, whatever the prompt and the state, returns
    a text that the parser rejects. *)
Definition never_parses {A : Type}
  (call : str -> LLMClient.State -> result LLMClient.GenerationResult * LLMClient.State)
  (parse : str -> result A) : Prop :=
  forall user_prompt st,
    exists r st1 e,
      call user_prompt st = (inr r, st1)
      /\ parse (strip (LLMClient.content r)) = inl e.

Section Generators.

Variable provider : nat -> LLMClient.Request -> LLMClient.ProviderOutcome.
Variable random : nat -> Q.
Variable json_loads : str -> option json.

(** *** Summaries *)

Section Summary.

Variable system : str.
Variable self : SummaryGenerator.SummaryGenerator.

Let loop := SummaryGenerator.generate_summary_from provider random json_loads system self.
Let call (user_prompt model : str) :=
  LLMClient.generate_with_rate_limit_buffer provider random
    (SummaryGenerator.llm_client self)
    (LLMClient.mkRequest user_prompt (Some system) model 1024).
Let cap := SummaryGenerator.max_generation_attempts self.

Lemma summary_parse_failure_step
  (attempt : Z) (rest : list Z) (title : str) (number : Z) (model user_prompt : str)
  (st st1 : LLMClient.State) (r : LLMClient.GenerationResult) (e : exn) :
  call user_prompt model st = (inr r, st1) ->
  SummaryGenerator._parse_takeaways_json json_loads (strip (LLMClient.content r)) = inl e ->
  (attempt < cap ->
   loop (attempt :: rest) title number model user_prompt st
   = loop rest title number model (user_prompt ++ summary_format_addendum) st1)
  /\ (cap <= attempt ->
      loop (attempt :: rest) title number model user_prompt st
      = (raise GenerationError
           (lit "Failed to parse summary JSON after " ++ of_Z cap ++ lit " attempts"),
         st1)).
Proof.
  intros Hcall Hparse. pose proof (parse_takeaways_class _ _ _ Hparse) as Hc.
  unfold caught_as_parse_failure in Hc.
  unfold loop. cbn [SummaryGenerator.generate_summary_from].
  unfold call in Hcall. rewrite Hcall, Hparse, Hc. fold cap.
  split; intros H.
  - destruct (Z.ltb_spec attempt cap); [|lia]. now rewrite summary_emphasis.
  - destruct (Z.ltb_spec attempt cap); [lia|].
    destruct (Z.leb_spec cap attempt); [reflexivity | lia].
Qed.

(** When no answer parses, the loop ends with [GenerationError]. *)
Lemma summary_loop_never_parsed (title : str) (number : Z) (model : str) :
  never_parses (fun p => call p model)
    (SummaryGenerator._parse_takeaways_json json_loads) ->
  forall (k : nat) (lo : Z) (user_prompt : str) (st : LLMClient.State),
    k = Z.to_nat (cap + 1 - lo) ->
    exists e st',
      loop (range lo (cap + 1)) title number model user_prompt st = (inl e, st')
      /\ cls e = GenerationError.
Proof.
  intros Hnever. induction k as [|k IH]; intros lo user_prompt st Hk.
  - rewrite RangeFacts.range_nil by lia. unfold loop.
    cbn [SummaryGenerator.generate_summary_from].
    eexists. eexists. split; reflexivity.
  - rewrite RangeFacts.range_cons by lia.
    destruct (Hnever user_prompt st) as (r & st1 & e & Hcall & Hparse).
    destruct (summary_parse_failure_step lo (range (lo + 1) (cap + 1)) title number
                model user_prompt st st1 r e Hcall Hparse) as [Hretry Hraise].
    destruct (Z.lt_ge_cases lo cap) as [Hlt|Hge].
    + rewrite (Hretry Hlt). apply IH. lia.
    + rewrite (Hraise Hge). eexists. eexists. split; reflexivity.
Qed.

End Summary.

(** *** Quizzes *)

Section Quiz.

Variable system : str.
Variable self : QuizGenerator.QuizGenerator.

Let loop := QuizGenerator.generate_quiz_from provider random json_loads system self.
Let call (user_prompt model : str) :=
  LLMClient.generate_with_rate_limit_buffer provider random
    (QuizGenerator.llm_client self)
    (LLMClient.mkRequest user_prompt (Some system) model 2048).
Let cap := QuizGenerator.max_generation_attempts self.

Lemma quiz_parse_failure_step
  (attempt : Z) (rest : list Z) (title : str) (number : Z) (model user_prompt : str)
  (st st1 : LLMClient.State) (r : LLMClient.GenerationResult) (e : exn) :
  call user_prompt model st = (inr r, st1) ->
  QuizGenerator._parse_quiz_json json_loads (strip (LLMClient.content r)) = inl e ->
  (attempt < cap ->
   loop (attempt :: rest) title number model user_prompt st
   = loop rest title number model (user_prompt ++ quiz_format_addendum) st1)
  /\ (cap <= attempt ->
      loop (attempt :: rest) title number model user_prompt st
      = (raise GenerationError
           (lit "Failed to parse quiz JSON after " ++ of_Z cap ++ lit " attempts"),
         st1)).
Proof.
  intros Hcall Hparse. pose proof (parse_quiz_class _ _ _ Hparse) as Hc.
  unfold caught_as_parse_failure in Hc.
  unfold loop. cbn [QuizGenerator.generate_quiz_from].
  unfold call in Hcall. rewrite Hcall, Hparse, Hc. fold cap.
  split; intros H.
  - destruct (Z.ltb_spec attempt cap); [|lia]. now rewrite quiz_emphasis.
  - destruct (Z.ltb_spec attempt cap); [lia|].
    destruct (Z.leb_spec cap attempt); [reflexivity | lia].
Qed.

Lemma quiz_loop_never_parsed (title : str) (number : Z) (model : str) :
  never_parses (fun p => call p model) (QuizGenerator._parse_quiz_json json_loads) ->
  forall (k : nat) (lo : Z) (user_prompt : str) (st : LLMClient.State),
    k = Z.to_nat (cap + 1 - lo) ->
    exists e st',
      loop (range lo (cap + 1)) title number model user_prompt st = (inl e, st')
      /\ cls e = GenerationError.
Proof.
  intros Hnever. induction k as [|k IH]; intros lo user_prompt st Hk.
  - rewrite RangeFacts.range_nil by lia. unfold loop.
    cbn [QuizGenerator.generate_quiz_from].
    eexists. eexists. split; reflexivity.
  - rewrite RangeFacts.range_cons by lia.
    destruct (Hnever user_prompt st) as (r & st1 & e & Hcall & Hparse).
    destruct (quiz_parse_failure_step lo (range (lo + 1) (cap + 1)) title number
                model user_prompt st st1 r e Hcall Hparse) as [Hretry Hraise].
    destruct (Z.lt_ge_cases lo cap) as [Hlt|Hge].
    + rewrite (Hretry Hlt). apply IH. lia.
    + rewrite (Hraise Hge). eexists. eexists. split; reflexivity.
Qed.

End Quiz.

(** *** Boosters *)

Section Booster.

Variable get_booster_generation_prompt : str -> str -> str -> str -> Z -> str.
Variable system : str.
Variable self : BoosterGenerator.BoosterGenerator.

Let loop :=
  BoosterGenerator.generate_boosters_from provider random json_loads
    get_booster_generation_prompt system self.
Let prompt_of := BoosterGenerator.attempt_prompt get_booster_generation_prompt self.
Let request (content title model : str) :=
  LLMClient.mkRequest (prompt_of content title) (Some system) model 1024.
Let call (content title model : str) :=
  LLMClient.generate_with_rate_limit_buffer provider random
    (BoosterGenerator.llm_client self) (request content title model).
Let cap := BoosterGenerator.max_attempts self.

Lemma booster_parse_failure_step
  (attempt : Z) (rest : list Z) (content title : str) (number : Z) (model : str)
  (st st1 : LLMClient.State) (r : LLMClient.GenerationResult) (e : exn) :
  call content title model st = (inr r, st1) ->
  BoosterGenerator._parse_boosters_json json_loads (strip (LLMClient.content r)) = inl e ->
  (attempt < cap ->
   loop (attempt :: rest) content title number model st
   = loop rest content title number model st1)
  /\ (cap <= attempt ->
      loop (attempt :: rest) content title number model st
      = (raise GenerationError
           (lit "Failed to parse booster JSON after " ++ of_Z cap ++ lit " attempts"),
         st1)).
Proof.
  intros Hcall Hparse. pose proof (parse_boosters_class _ _ _ Hparse) as Hc.
  unfold caught_as_parse_failure in Hc.
  unfold loop. cbn [BoosterGenerator.generate_boosters_from].
  unfold call, request, prompt_of in Hcall. rewrite Hcall, Hparse, Hc. fold cap.
  split; intros H.
  - destruct (Z.leb_spec cap attempt); [lia | reflexivity].
  - destruct (Z.leb_spec cap attempt); [reflexivity | lia].
Qed.

Lemma booster_loop_never_parsed (content title : str) (number : Z) (model : str) :
  never_parses (fun _ => call content title model)
    (BoosterGenerator._parse_boosters_json json_loads) ->
  forall (k : nat) (lo : Z) (st : LLMClient.State),
    k = Z.to_nat (cap + 1 - lo) ->
    exists e st',
      loop (range lo (cap + 1)) content title number model st = (inl e, st')
      /\ cls e = GenerationError.
Proof.
  intros Hnever. induction k as [|k IH]; intros lo st Hk.
  - rewrite RangeFacts.range_nil by lia. unfold loop.
    cbn [BoosterGenerator.generate_boosters_from].
    eexists. eexists. split; reflexivity.
  - rewrite RangeFacts.range_cons by lia.
    destruct (Hnever [] st) as (r & st1 & e & Hcall & Hparse).
    destruct (booster_parse_failure_step lo (range (lo + 1) (cap + 1)) content title
                number model st st1 r e Hcall Hparse) as [Hretry Hraise].
    destruct (Z.lt_ge_cases lo cap) as [Hlt|Hge].
    + rewrite (Hretry Hlt). apply IH. lia.
    + rewrite (Hraise Hge). eexists. eexists. split; reflexivity.
Qed.

(** Every request of a booster run is the same request: nothing is ever
    appended to the prompt. *)
Lemma booster_requests_identical (attempts : list Z) (content title : str)
  (number : Z) (model : str) :
  forall st res st',
    loop attempts content title number model st = (res, st') ->
    exists n, LLMClient.sent st'
              = LLMClient.sent st ++ repeat (request content title model) n.
Proof.
  induction attempts as [|attempt rest IH]; intros st res st';
    unfold loop; cbn [BoosterGenerator.generate_boosters_from].
  - intros [= <- <-]. exists 0%nat. now rewrite app_nil_r.
  - fold loop. fold prompt_of. fold (request content title model).
    destruct (LLMClient.generate_with_rate_limit_buffer provider random
                (BoosterGenerator.llm_client self) (request content title model) st)
      as [res1 st1] eqn:E.
    apply SentFacts.generate_with_rate_limit_buffer_sent in E as [n Hn].
    assert (Hrec : forall res st',
               loop rest content title number model st1 = (res, st') ->
               exists m, LLMClient.sent st'
                         = LLMClient.sent st ++ repeat (request content title model) m).
    { intros res2 st2 H. destruct (IH _ _ _ H) as [m Hm].
      exists (n + m)%nat. now rewrite Hm, Hn, repeat_app, app_assoc. }
    assert (Hhere : exists m, LLMClient.sent st1
                         = LLMClient.sent st ++ repeat (request content title model) m)
      by (exists n; exact Hn).
    repeat match goal with
           | |- (inl _, _) = _ -> _ => intros [= <- <-]; exact Hhere
           | |- (inr _, _) = _ -> _ => intros [= <- <-]; exact Hhere
           | |- (raise _ _, _) = _ -> _ => intros [= <- <-]; exact Hhere
           | |- (ret _, _) = _ -> _ => intros [= <- <-]; exact Hhere
           | |- loop rest _ _ _ _ _ = _ -> _ => apply Hrec
           | |- context [match ?x with _ => _ end] => destruct x
           end.
Qed.

End Booster.

End Generators.

End RetryFacts.

Module ParseRetryClaim.

Import ParseFacts RetryFacts.
Open Scope Z_scope.

Section Claim.

Variable provider : nat -> LLMClient.Request -> LLMClient.ProviderOutcome.
Variable random : nat -> Q.
Variable json_loads : str -> option json.
Variable get_summary_generation_prompt : str -> str -> str.
Variable get_quiz_generation_prompt : str -> str -> Z -> str.
Variable get_booster_generation_prompt : str -> str -> str -> str -> Z -> str.
Variable summary_system quiz_system booster_system : str.
Variable summaries : SummaryGenerator.SummaryGenerator.
Variable quizzes : QuizGenerator.QuizGenerator.
Variable boosters : BoosterGenerator.BoosterGenerator.

Let call (client : LLMClient.Client) (user_prompt system model : str) (max_tokens : Z) :=
  LLMClient.generate_with_rate_limit_buffer provider random client
    (LLMClient.mkRequest user_prompt (Some system) model max_tokens).

Let summary_loop :=
  SummaryGenerator.generate_summary_from provider random json_loads summary_system
    summaries.
Let quiz_loop :=
  QuizGenerator.generate_quiz_from provider random json_loads quiz_system quizzes.
Let booster_loop :=
  BoosterGenerator.generate_boosters_from provider random json_loads
    get_booster_generation_prompt booster_system boosters.
Let booster_prompt :=
  BoosterGenerator.attempt_prompt get_booster_generation_prompt boosters.

Let generate_summary :=
  SummaryGenerator.generate_summary provider random json_loads
    get_summary_generation_prompt summary_system summaries.
Let generate_quiz :=
  QuizGenerator.generate_quiz provider random json_loads
    get_quiz_generation_prompt quiz_system quizzes.
Let generate_boosters :=
  BoosterGenerator.generate_boosters provider random json_loads
    get_booster_generation_prompt booster_system boosters.

(** C2, as the code has it.  In the summary and the quiz generator a
    parse failure (malformed JSON, a top-level value that is not an
    array, an element that is not a string, respectively not an object
    or an object without a required key) is followed, while attempts
    remain, by a retry whose prompt is the previous one with the format
    instructions appended, and raises [GenerationError] on the last
    attempt.  In the booster generator malformed JSON and a top-level
    value that is not an array are followed by a retry with the same
    request, nothing being appended, and raise [GenerationError] on the
    last attempt.  In all three generators a run in which no answer
    parses ends with [GenerationError]. *)
Theorem C2_parse_failure_retries_then_generation_error :
  (* summaries *)
  (forall attempt rest title number model user_prompt st st1 r e,
      call (SummaryGenerator.llm_client summaries) user_prompt summary_system model 1024 st
      = (inr r, st1) ->
      SummaryGenerator._parse_takeaways_json json_loads (strip (LLMClient.content r))
      = inl e ->
      (attempt < SummaryGenerator.max_generation_attempts summaries ->
       summary_loop (attempt :: rest) title number model user_prompt st
       = summary_loop rest title number model (user_prompt ++ summary_format_addendum) st1)
      /\ (SummaryGenerator.max_generation_attempts summaries <= attempt ->
          exists e', summary_loop (attempt :: rest) title number model user_prompt st
                     = (inl e', st1) /\ cls e' = GenerationError))
  /\
  (forall c,
      (json_loads (strip_code_fence c) = None ->
       exists e, SummaryGenerator._parse_takeaways_json json_loads c = inl e)
      /\ (forall v, json_loads (strip_code_fence c) = Some v ->
                    (forall items, v <> JArr items) ->
                    exists e, SummaryGenerator._parse_takeaways_json json_loads c = inl e)
      /\ (forall items item,
             json_loads (strip_code_fence c) = Some (JArr items) ->
             In item items -> is_str item = false ->
             exists e, SummaryGenerator._parse_takeaways_json json_loads c = inl e))
  /\
  (* quizzes *)
  (forall attempt rest title number model user_prompt st st1 r e,
      call (QuizGenerator.llm_client quizzes) user_prompt quiz_system model 2048 st
      = (inr r, st1) ->
      QuizGenerator._parse_quiz_json json_loads (strip (LLMClient.content r)) = inl e ->
      (attempt < QuizGenerator.max_generation_attempts quizzes ->
       quiz_loop (attempt :: rest) title number model user_prompt st
       = quiz_loop rest title number model (user_prompt ++ quiz_format_addendum) st1)
      /\ (QuizGenerator.max_generation_attempts quizzes <= attempt ->
          exists e', quiz_loop (attempt :: rest) title number model user_prompt st
                     = (inl e', st1) /\ cls e' = GenerationError))
  /\
  (forall c,
      (json_loads (strip_code_fence c) = None ->
       exists e, QuizGenerator._parse_quiz_json json_loads c = inl e)
      /\ (forall v, json_loads (strip_code_fence c) = Some v ->
                    (forall items, v <> JArr items) ->
                    exists e, QuizGenerator._parse_quiz_json json_loads c = inl e)
      /\ (forall items item,
             json_loads (strip_code_fence c) = Some (JArr items) ->
             In item items -> (forall members, item <> JObj members) ->
             exists e, QuizGenerator._parse_quiz_json json_loads c = inl e)
      /\ (forall items members field,
             json_loads (strip_code_fence c) = Some (JArr items) ->
             In (JObj members) items ->
             In field QuizGenerator.required_fields ->
             LLMClient.lookup field members = None ->
             exists e, QuizGenerator._parse_quiz_json json_loads c = inl e))
  /\
  (* the appended instructions *)
  (contains (lit "Your response MUST be a valid JSON array of strings")
     summary_format_addendum = true
   /\ contains (lit "Your response MUST be a valid JSON array of question objects")
        quiz_format_addendum = true)
  /\
  (* boosters *)
  (forall attempt rest content title number model st st1 r e,
      call (BoosterGenerator.llm_client boosters) (booster_prompt content title)
        booster_system model 1024 st = (inr r, st1) ->
      BoosterGenerator._parse_boosters_json json_loads (strip (LLMClient.content r))
      = inl e ->
      (attempt < BoosterGenerator.max_attempts boosters ->
       booster_loop (attempt :: rest) content title number model st
       = booster_loop rest content title number model st1)
      /\ (BoosterGenerator.max_attempts boosters <= attempt ->
          exists e', booster_loop (attempt :: rest) content title number model st
                     = (inl e', st1) /\ cls e' = GenerationError))
  /\
  (forall attempts content title number model st res st',
      booster_loop attempts content title number model st = (res, st') ->
      exists n,
        LLMClient.sent st'
        = LLMClient.sent st
          ++ repeat (LLMClient.mkRequest (booster_prompt content title)
                       (Some booster_system) model 1024) n)
  /\
  (forall c,
      (json_loads (strip_code_fence c) = None ->
       exists e, BoosterGenerator._parse_boosters_json json_loads c = inl e)
      /\ (forall v, json_loads (strip_code_fence c) = Some v ->
                    (forall items, v <> JArr items) ->
                    exists e, BoosterGenerator._parse_boosters_json json_loads c = inl e))
  /\
  (* whole runs *)
  (forall content title number model st,
      LLMClient.get_model_for_task (lit "summary") = inr model ->
      never_parses
        (fun p => call (SummaryGenerator.llm_client summaries) p summary_system model 1024)
        (SummaryGenerator._parse_takeaways_json json_loads) ->
      exists e st', generate_summary content title number st = (inl e, st')
                    /\ cls e = GenerationError)
  /\
  (forall content title number model st,
      LLMClient.get_model_for_task (lit "quiz") = inr model ->
      never_parses
        (fun p => call (QuizGenerator.llm_client quizzes) p quiz_system model 2048)
        (QuizGenerator._parse_quiz_json json_loads) ->
      exists e st', generate_quiz content title number st = (inl e, st')
                    /\ cls e = GenerationError)
  /\
  (forall content title number model st,
      LLMClient.get_model_for_task (lit "booster") = inr model ->
      never_parses
        (fun _ => call (BoosterGenerator.llm_client boosters) (booster_prompt content title)
                    booster_system model 1024)
        (BoosterGenerator._parse_boosters_json json_loads) ->
      exists e st', generate_boosters content title number st = (inl e, st')
                    /\ cls e = GenerationError).
Proof.
  repeat apply conj.
  - intros attempt rest title number model user_prompt st st1 r e Hcall Hparse.
    destruct (summary_parse_failure_step provider random json_loads summary_system
                summaries attempt rest title number model user_prompt st st1 r e
                Hcall Hparse) as [H1 H2].
    split; [exact H1|]. intros H. eexists. split; [apply (H2 H) | reflexivity].
  - apply takeaways_failures.
  - intros attempt rest title number model user_prompt st st1 r e Hcall Hparse.
    destruct (quiz_parse_failure_step provider random json_loads quiz_system
                quizzes attempt rest title number model user_prompt st st1 r e
                Hcall Hparse) as [H1 H2].
    split; [exact H1|]. intros H. eexists. split; [apply (H2 H) | reflexivity].
  - apply quiz_failures.
  - apply addenda_demand_json_array.
  - apply addenda_demand_json_array.
  - intros attempt rest content title number model st st1 r e Hcall Hparse.
    destruct (booster_parse_failure_step provider random json_loads
                get_booster_generation_prompt booster_system boosters
                attempt rest content title number model st st1 r e Hcall Hparse)
      as [H1 H2].
    split; [exact H1|]. intros H. eexists. split; [apply (H2 H) | reflexivity].
  - apply booster_requests_identical.
  - apply boosters_failures.
  - intros content title number model st Hm Hnever.
    unfold generate_summary, SummaryGenerator.generate_summary. rewrite Hm.
    eapply summary_loop_never_parsed; [exact Hnever | reflexivity].
  - intros content title number model st Hm Hnever.
    unfold generate_quiz, QuizGenerator.generate_quiz. rewrite Hm.
    eapply quiz_loop_never_parsed; [exact Hnever | reflexivity].
  - intros content title number model st Hm Hnever.
    unfold generate_boosters, BoosterGenerator.generate_boosters. rewrite Hm.
    eapply booster_loop_never_parsed; [exact Hnever | reflexivity].
Qed.

End Claim.

(** [json.loads] on the texts of the examples: [[{}]] is a list that
    holds one empty dictionary, [{}] an empty dictionary, [[]] an empty
    list, [[1]] a list that holds a number; the other texts used are not
    JSON. *)
Definition sample_loads (s : str) : option json :=
  if PyStr.eqb s (lit "[{}]") then Some (JArr [JObj []])
  else if PyStr.eqb s (lit "{}") then Some (JObj [])
  else if PyStr.eqb s (lit "[]") then Some (JArr [])
  else if PyStr.eqb s (lit "[1]") then Some (JArr [JInt 1])
  else None.

(** A short stand-in for the booster prompt template. *)
Definition sample_booster_prompt (content title section kind : str) (n : Z) : str :=
  lit "Generate learning boosters for: " ++ title.

Definition sample_boosters : BoosterGenerator.BoosterGenerator :=
  BoosterGenerator.init LLMClient.default_client 3 3.

Definition no_jitter (n : nat) : Q := 0%Q.

(** C2, as stated, fails for the booster generator.  When every answer
    is malformed, the three requests carry the same prompt: no format
    instruction is appended on retry.  And an answer whose element lacks
    the [content] key ends the call with a [KeyError], not a
    [GenerationError]. *)
Lemma C2_counterexample_booster_generator :
  let run text :=
    BoosterGenerator.generate_boosters (WordCountFacts.fixed_provider (lit text))
      no_jitter sample_loads sample_booster_prompt (lit "system")
      sample_boosters (lit "chapter text") (lit "Title") 1 LLMClient.initial_state in
  let p := lit "Generate learning boosters for: Title" in
  (exists e st, run "oops"%string = (inl e, st)
                /\ cls e = GenerationError
                /\ map LLMClient.prompt (LLMClient.sent st) = [p; p; p])
  /\ (exists e st, run "[{}]"%string = (inl e, st) /\ cls e = KeyError).
Proof.
  split.
  - eexists. eexists. split; [vm_compute; reflexivity|]. split; reflexivity.
  - eexists. eexists. split; [vm_compute; reflexivity|]. reflexivity.
Qed.

End ParseRetryClaim.

(** ** The batch orchestrator *)

Module ServiceFacts.

Import Curriculum GenerationJob GenerationService.
Open Scope Z_scope.

Definition has_job (w : World) : Prop := exists j, job w = Some j.

(** The error records of the job the session holds. *)
Definition job_errors (w : World) : list str :=
  match job w with
  | Some j => errors j
  | None => []
  end.

Definition chapter_error (ch : ChapterDefinition) (e : exn) : str :=
  lit "Failed to generate chapter " ++ of_Z (number ch) ++ lit ": " ++ message e.

Section Service.

Variable provider : nat -> LLMClient.Request -> LLMClient.ProviderOutcome.
Variable random : nat -> Q.
Variable md_parse : str -> Validator.MdOutcome.
Variable prompt : ChapterDefinition -> str.
Variable system : str.
Variable commit_fails : nat -> bool.
Variable api_key : bool.
Variable summary_task : ChapterDefinition -> result Z.
Variable schedule : list ChapterDefinition -> list ChapterDefinition.

Let commit := commit commit_fails.
Let _add_job_error := _add_job_error commit_fails.
Let _increment_job_progress := _increment_job_progress commit_fails.
Let chapter_body :=
  chapter_body provider random md_parse prompt system commit_fails.
Let chapter_loop :=
  chapter_loop provider random md_parse prompt system commit_fails.
Let gather := gather commit_fails summary_task.
Let batch_body :=
  batch_body provider random md_parse prompt system commit_fails api_key
    summary_task schedule.
Let _execute_batch_generation :=
  _execute_batch_generation provider random md_parse prompt system commit_fails
    api_key summary_task schedule.

(** *** The session keeps its job *)

Lemma commit_job (w : World) : job (snd (commit w)) = job w.
Proof. unfold commit, GenerationService.commit. destruct (commit_fails _); reflexivity. Qed.

Lemma commit_has_job (w : World) (res : result unit) (w' : World) :
  commit w = (res, w') -> has_job w -> has_job w'.
Proof.
  intros H [j Hj]. exists j. rewrite <- Hj, <- (commit_job w). now rewrite H.
Qed.

Lemma add_job_error_job (msg : str) (w : World) (j : GenerationJob) :
  job w = Some j -> job (snd (_add_job_error msg w)) = Some (add_error j msg).
Proof.
  intros Hj. unfold _add_job_error, GenerationService._add_job_error, _get_job.
  rewrite Hj. fold commit. now rewrite commit_job.
Qed.

Lemma add_job_error_has_job (msg : str) (w : World) (res : result unit) (w' : World) :
  _add_job_error msg w = (res, w') -> has_job w -> has_job w'.
Proof.
  intros H [j Hj]. exists (add_error j msg).
  rewrite <- (add_job_error_job msg w j Hj). now rewrite H.
Qed.

Lemma increment_job (tokens : Z) (w : World) (j : GenerationJob) :
  job w = Some j ->
  job (snd (_increment_job_progress tokens w))
  = Some (mkGenerationJob (status j) (chapters_completed j + 1) (chapters_total j)
            (errors j) (token_usage j + tokens) (model_used j) (completed_at j)).
Proof.
  intros Hj.
  unfold _increment_job_progress, GenerationService._increment_job_progress, _get_job.
  rewrite Hj. fold commit. now rewrite commit_job.
Qed.

Lemma increment_has_job (tokens : Z) (w : World) (res : result unit) (w' : World) :
  _increment_job_progress tokens w = (res, w') -> has_job w -> has_job w'.
Proof.
  intros H [j Hj]. eexists.
  rewrite <- (increment_job tokens w j Hj). now rewrite H.
Qed.

Lemma create_chapter_job n t s wc rt stat (w : World) :
  job (snd (create_chapter commit_fails n t s wc rt stat w)) = job w.
Proof.
  unfold create_chapter.
  repeat match goal with
         | |- context [if ?c then _ else _] => destruct c
         end; try reflexivity.
  fold commit.
  pose proof (commit_job (with_chapters w
    (chapters w ++ [mkChapter n t s wc rt stat []]))) as H.
  destruct (commit _) as [[e|u] w1]; cbn [snd] in *; exact H.
Qed.

Lemma update_chapter_status_job id stat errs (w : World) :
  job (snd (update_chapter_status commit_fails id stat errs w)) = job w.
Proof.
  unfold update_chapter_status.
  destruct (nth_error (chapters w) id); [|reflexivity].
  fold commit. now rewrite commit_job.
Qed.

Lemma chapter_body_has_job g i total ch (w : World) (res : result unit) (w' : World) :
  chapter_body g i total ch w = (res, w') -> has_job w -> has_job w'.
Proof.
  unfold chapter_body, GenerationService.chapter_body. intros H Hw.
  destruct (ChapterGenerator.generate_chapter _ _ _ _ _ _ _) as [[e|r] st].
  - injection H as <- <-. exact Hw.
  - set (w0 := with_llm w st) in *.
    assert (H0 : has_job w0) by exact Hw.
    pose proof (create_chapter_job (number ch) (title ch) (slug ch)
      (ChapterGenerator.word_count r)
      (metrics_get "reading_time_minutes"%string 6
         (Validator.metrics (Validator.validate_chapter md_parse
                               (ChapterGenerator.content r))))
      (if Validator.valid (Validator.validate_chapter md_parse
                             (ChapterGenerator.content r))
       then CH_VALIDATED else CH_FAILED) w0) as Hc.
    destruct (create_chapter _ _ _ _ _ _ _ w0) as [[e|id] w1]; cbn [snd] in Hc.
    + injection H as <- <-. destruct H0 as [j Hj]. exists j. congruence.
    + assert (H1 : has_job w1) by (destruct H0 as [j Hj]; exists j; congruence).
      destruct (negb (Validator.valid _)).
      * pose proof (update_chapter_status_job id CH_FAILED
          (Validator.errors (Validator.validate_chapter md_parse
                               (ChapterGenerator.content r))) w1) as Hu.
        destruct (update_chapter_status _ _ _ _ w1) as [[e|u] w2]; cbn [snd] in Hu.
        -- injection H as <- <-. destruct H1 as [j Hj]. exists j. congruence.
        -- assert (H2 : has_job w2) by (destruct H1 as [j Hj]; exists j; congruence).
           fold _increment_job_progress in H.
           destruct (_increment_job_progress _ w2) as [[e|u'] w3] eqn:Ei;
             pose proof (increment_has_job _ _ _ _ Ei H2) as H3.
           ++ injection H as <- <-. exact H3.
           ++ destruct (i <? total)%nat; injection H as <- <-; exact H3.
      * fold _increment_job_progress in H.
        destruct (_increment_job_progress _ w1) as [[e|u'] w3] eqn:Ei;
          pose proof (increment_has_job _ _ _ _ Ei H1) as H3.
        -- injection H as <- <-. exact H3.
        -- destruct (i <? total)%nat; injection H as <- <-; exact H3.
Qed.

(** *** The per-chapter handler *)

(** The failures of a run of the chapter loop from [w]: the message of
    every chapter whose body raised, in curriculum order. *)
Fixpoint chapter_failures (g : ChapterGenerator.ChapterGenerator) (total : nat)
  (units : list (nat * ChapterDefinition)) (w : World) : list str :=
  match units with
  | [] => []
  | (i, ch) :: rest =>
      match chapter_body g i total ch w with
      | (inr _, w1) => chapter_failures g total rest w1
      | (inl e, w1) =>
          chapter_error ch e
          :: chapter_failures g total rest (snd (_add_job_error (chapter_error ch e) w1))
      end
  end.

Lemma job_errors_eq (w w' : World) : job w' = job w -> job_errors w' = job_errors w.
Proof. unfold job_errors. now intros ->. Qed.

Lemma add_job_error_errors (msg : str) (w : World) :
  has_job w -> job_errors (snd (_add_job_error msg w)) = job_errors w ++ [msg].
Proof.
  intros [j Hj]. unfold job_errors at 1.
  rewrite (add_job_error_job msg w j Hj). unfold job_errors. now rewrite Hj.
Qed.

Lemma increment_errors (tokens : Z) (w : World) :
  job_errors (snd (_increment_job_progress tokens w)) = job_errors w.
Proof.
  destruct (job w) as [j|] eqn:Hj.
  - unfold job_errors. now rewrite (increment_job tokens w j Hj), Hj.
  - unfold _increment_job_progress, GenerationService._increment_job_progress, _get_job.
    now rewrite Hj.
Qed.

Lemma chapter_body_errors g i total ch (w : World) :
  job_errors (snd (chapter_body g i total ch w)) = job_errors w.
Proof.
  unfold chapter_body, GenerationService.chapter_body.
  destruct (ChapterGenerator.generate_chapter _ _ _ _ _ _ _) as [[e|r] st];
    [reflexivity|].
  set (w0 := with_llm w st).
  change (job_errors w) with (job_errors w0).
  pose proof (create_chapter_job (number ch) (title ch) (slug ch)
    (ChapterGenerator.word_count r)
    (metrics_get "reading_time_minutes"%string 6
       (Validator.metrics (Validator.validate_chapter md_parse
                             (ChapterGenerator.content r))))
    (if Validator.valid (Validator.validate_chapter md_parse
                           (ChapterGenerator.content r))
     then CH_VALIDATED else CH_FAILED) w0) as Hc.
  destruct (create_chapter _ _ _ _ _ _ _ w0) as [[e|id] w1]; cbn [snd] in Hc;
    apply job_errors_eq in Hc; [exact Hc|].
  rewrite <- Hc.
  assert (Hinc : forall w2, job_errors w2 = job_errors w1 ->
            job_errors
              (snd match GenerationService._increment_job_progress commit_fails
                           (ChapterGenerator.tokens_used r) w2 with
                   | (inl e, w) => (inl e, w)
                   | (inr _, w) =>
                       if (i <? total)%nat
                       then (ret tt, mkWorld (llm w) (job w) (chapters w) (commits w)
                                       (S (pauses w)))
                       else (ret tt, w)
                   end) = job_errors w1).
  { intros w2 H2. pose proof (increment_errors (ChapterGenerator.tokens_used r) w2) as Hi.
    unfold _increment_job_progress in Hi.
    destruct (GenerationService._increment_job_progress _ _ w2) as [[e|u] w3];
      cbn [snd] in Hi |- *; [congruence|].
    destruct (i <? total)%nat; cbn [snd]; [|congruence].
    rewrite <- H2, <- Hi. reflexivity. }
  destruct (negb (Validator.valid _)).
  - pose proof (update_chapter_status_job id CH_FAILED
      (Validator.errors (Validator.validate_chapter md_parse
                           (ChapterGenerator.content r))) w1) as Hu.
    destruct (update_chapter_status _ _ _ _ w1) as [[e|u] w2]; cbn [snd] in Hu;
      apply job_errors_eq in Hu; [exact Hu|].
    now apply Hinc.
  - now apply Hinc.
Qed.

(** A chapter whose body raises is recorded on the job, and the loop
    goes on with the next chapter. *)
Lemma chapter_failure_recorded g total i ch rest (w w1 w2 : World)
  (e : exn) (j1 : GenerationJob) :
  chapter_body g i total ch w = (inl e, w1) ->
  job w1 = Some j1 ->
  _add_job_error (chapter_error ch e) w1 = (inr tt, w2) ->
  chapter_loop g total ((i, ch) :: rest) w = chapter_loop g total rest w2
  /\ job w2 = Some (add_error j1 (chapter_error ch e)).
Proof.
  intros Hb Hj Ha. split.
  - unfold chapter_loop. cbn [GenerationService.chapter_loop].
    fold chapter_body. rewrite Hb. fold _add_job_error.
    unfold chapter_error in Ha. rewrite Ha. reflexivity.
  - rewrite <- (add_job_error_job (chapter_error ch e) w1 j1 Hj). now rewrite Ha.
Qed.

Lemma chapter_success_continues g total i ch rest (w w1 : World) :
  chapter_body g i total ch w = (inr tt, w1) ->
  chapter_loop g total ((i, ch) :: rest) w = chapter_loop g total rest w1.
Proof.
  intros Hb. unfold chapter_loop. cbn [GenerationService.chapter_loop].
  fold chapter_body. now rewrite Hb.
Qed.

Lemma chapter_loop_has_job g total units :
  forall (w : World) res w',
    chapter_loop g total units w = (res, w') -> has_job w -> has_job w'.
Proof.
  induction units as [|[i ch] rest IH]; intros w res w';
    unfold chapter_loop; cbn [GenerationService.chapter_loop].
  - intros [= <- <-]. auto.
  - fold chapter_body. fold chapter_loop.
    destruct (chapter_body g i total ch w) as [[e|u] w1] eqn:Eb; intros H Hw;
      pose proof (chapter_body_has_job _ _ _ _ _ _ _ Eb Hw) as H1.
    + fold _add_job_error in H.
      destruct (_add_job_error _ w1) as [[e'|u] w2] eqn:Ea;
        pose proof (add_job_error_has_job _ _ _ _ Ea H1) as H2.
      * injection H as <- <-. exact H2.
      * eapply IH; eassumption.
    + eapply IH; eassumption.
Qed.

Lemma chapter_loop_site g total units :
  forall (w : World) site e w',
    chapter_loop g total units w = (inl (site, e), w') ->
    exists i, site = InChapterHandler i.
Proof.
  induction units as [|[i ch] rest IH]; intros w site e w';
    unfold chapter_loop; cbn [GenerationService.chapter_loop].
  - discriminate.
  - fold chapter_body. fold chapter_loop.
    destruct (chapter_body g i total ch w) as [[e1|u] w1].
    + fold _add_job_error. destruct (_add_job_error _ w1) as [[e'|u] w2].
      * intros [= <- <- <-]. now exists i.
      * apply IH.
    + apply IH.
Qed.

(** When the loop ends without an exception of a handler, the job
    holds one more error record for every chapter that failed. *)
Lemma chapter_loop_errors g total units :
  forall (w w' : World),
    has_job w ->
    chapter_loop g total units w = (inr tt, w') ->
    job_errors w' = job_errors w ++ chapter_failures g total units w.
Proof.
  induction units as [|[i ch] rest IH]; intros w w' Hw;
    unfold chapter_loop; cbn [GenerationService.chapter_loop chapter_failures].
  - intros [= <-]. now rewrite app_nil_r.
  - fold chapter_body. fold chapter_loop.
    pose proof (chapter_body_errors g i total ch w) as He.
    destruct (chapter_body g i total ch w) as [[e|u] w1] eqn:Eb; cbn [snd] in He;
      pose proof (chapter_body_has_job _ _ _ _ _ _ _ Eb Hw) as H1.
    + fold _add_job_error. fold (chapter_error ch e).
      pose proof (add_job_error_errors (chapter_error ch e) w1 H1) as Ha.
      destruct (_add_job_error (chapter_error ch e) w1) as [[e'|u] w2] eqn:Ea;
        [discriminate|].
      cbn [snd] in Ha |- *. intros H.
      rewrite (IH w2 w' (add_job_error_has_job _ _ _ _ Ea H1) H), Ha, He.
      now rewrite <- app_assoc.
    + intros H. rewrite (IH w1 w' H1 H), He. reflexivity.
Qed.

(** *** The summary stage *)

Lemma gather_has_job tasks :
  forall (w : World), has_job w -> has_job (snd (gather tasks w)).
Proof.
  induction tasks as [|ch rest IH]; intros w Hw;
    unfold gather; cbn [GenerationService.gather]; [exact Hw|].
  fold gather. unfold _generate_single_summary.
  destruct (summary_task ch) as [e|tokens].
  - specialize (IH w Hw). destruct (gather rest w). exact IH.
  - fold _increment_job_progress.
    destruct (_increment_job_progress tokens w) as [[e|u] w1] eqn:Ei;
      pose proof (increment_has_job _ _ _ _ Ei Hw) as H1;
      specialize (IH w1 H1); destruct (gather rest w1); exact IH.
Qed.

Lemma gather_errors tasks :
  forall (w : World), job_errors (snd (gather tasks w)) = job_errors w.
Proof.
  induction tasks as [|ch rest IH]; intros w;
    unfold gather; cbn [GenerationService.gather]; [reflexivity|].
  fold gather. unfold _generate_single_summary.
  destruct (summary_task ch) as [e|tokens].
  - specialize (IH w). destruct (gather rest w). exact IH.
  - fold _increment_job_progress.
    pose proof (increment_errors tokens w) as Hi.
    destruct (_increment_job_progress tokens w) as [[e|u] w1]; cbn [snd] in Hi;
      specialize (IH w1); destruct (gather rest w1); cbn [snd] in *; congruence.
Qed.

(** *** The final status *)

Lemma complete_job_status (w : World) (j : GenerationJob) :
  job w = Some j ->
  exists j', job (snd (_complete_job commit_fails w)) = Some j' /\ status j' = COMPLETED
             /\ errors j' = errors j.
Proof.
  intros Hj. unfold _complete_job, _get_job. rewrite Hj. fold commit.
  rewrite commit_job. eexists. split; [reflexivity|]. split; reflexivity.
Qed.

Lemma fail_job_status (msg : str) (w : World) (j : GenerationJob) :
  job w = Some j ->
  exists j', job (snd (_fail_job commit_fails msg w)) = Some j' /\ status j' = FAILED.
Proof.
  intros Hj. unfold _fail_job, _get_job. rewrite Hj. fold commit.
  rewrite commit_job. eexists. split; reflexivity.
Qed.

Lemma batch_body_outcome (curriculum : list ChapterDefinition) (w : World) :
  has_job w ->
  forall res w', batch_body curriculum w = (res, w') ->
    has_job w'
    /\ (res = inr tt -> exists j', job w' = Some j' /\ status j' = COMPLETED)
    /\ (forall site e, res = inl (site, e) ->
          site = AtSetup \/ (exists i, site = InChapterHandler i)
          \/ site = InSummaryHandler \/ site = AtCompletion).
Proof.
  intros Hw res w'. unfold batch_body, GenerationService.batch_body.
  destruct (_update_job_status commit_fails IN_PROGRESS w) as [[e|u] w1] eqn:Eu.
  - intros [= <- <-]. split; [|split].
    + unfold _update_job_status, _get_job in Eu. destruct Hw as [j Hj].
      rewrite Hj in Eu. fold commit in Eu.
      eapply commit_has_job; [exact Eu | eexists; reflexivity].
    + discriminate.
    + intros site e' [= <- <-]. now left.
  - assert (H1 : has_job w1).
    { unfold _update_job_status, _get_job in Eu. destruct Hw as [j Hj].
      rewrite Hj in Eu. fold commit in Eu.
      eapply commit_has_job; [exact Eu | eexists; reflexivity]. }
    destruct api_key; cbn [negb].
    2: { intros [= <- <-]. split; [exact H1|]. split; [discriminate|].
         intros site e' [= <- <-]. now left. }
    fold chapter_loop.
    destruct (chapter_loop _ _ _ (with_llm w1 LLMClient.initial_state))
      as [[[site e]|u1] w2] eqn:El.
    + intros [= <- <-].
      split; [eapply chapter_loop_has_job; [exact El | exact H1]|].
      split; [discriminate|].
      intros site' e' [= <- <-]. right. left.
      eapply chapter_loop_site; exact El.
    + assert (H2 : has_job w2) by (eapply chapter_loop_has_job; [exact El | exact H1]).
      unfold _generate_summaries_for_chapters. fold gather.
      pose proof (gather_has_job (schedule curriculum) w2 H2) as H3.
      destruct (gather (schedule curriculum) w2) as [failed w3]. cbn [snd] in H3.
      fold _add_job_error.
      assert (Hstage : forall (r : (Site * exn + unit) * World),
                 (r = (inr tt, w3)
                  \/ (exists msg u w4, _add_job_error msg w3 = (inr u, w4)
                                       /\ r = (inr tt, w4))
                  \/ (exists msg e1 w4 msg' u w5,
                         _add_job_error msg w3 = (inl e1, w4)
                         /\ _add_job_error msg' w4 = (inr u, w5) /\ r = (inr tt, w5))
                  \/ (exists msg e1 w4 msg' e2 w5,
                         _add_job_error msg w3 = (inl e1, w4)
                         /\ _add_job_error msg' w4 = (inl e2, w5)
                         /\ r = (inl (InSummaryHandler, e2), w5))) ->
                 forall res w',
                   match r with
                   | (inl escaped, w) => (inl escaped, w)
                   | (inr _, w) =>
                       match _complete_job commit_fails w with
                       | (inl e, w) => (inl (AtCompletion, e), w)
                       | (inr _, w) => (inr tt, w)
                       end
                   end = (res, w') ->
                 has_job w'
                 /\ (res = inr tt -> exists j', job w' = Some j' /\ status j' = COMPLETED)
                 /\ (forall site e, res = inl (site, e) ->
                       site = AtSetup \/ (exists i, site = InChapterHandler i)
                       \/ site = InSummaryHandler \/ site = AtCompletion)).
      { assert (Hdone : forall w4, has_job w4 -> forall res w',
                   match _complete_job commit_fails w4 with
                   | (inl e, w) => (inl (AtCompletion, e), w)
                   | (inr _, w) => (inr tt, w)
                   end = (res, w') ->
                   has_job w'
                   /\ (res = inr tt -> exists j', job w' = Some j' /\ status j' = COMPLETED)
                   /\ (forall site e, res = inl (site, e) ->
                         site = AtSetup \/ (exists i, site = InChapterHandler i)
                         \/ site = InSummaryHandler \/ site = AtCompletion)).
        { intros w4 [j4 Hj4] res0 w0.
          destruct (complete_job_status w4 j4 Hj4) as (j' & Hj' & Hs & _).
          destruct (_complete_job commit_fails w4) as [[e|uu] w5]; cbn [snd] in Hj';
            intros [= <- <-].
          - split; [now exists j'|]. split; [discriminate|].
            intros site e' [= <- <-]. now do 3 right.
          - split; [now exists j'|]. split; [intros _; now exists j'|]. discriminate. }
        intros r [->|[(msg & uu & w4 & Ha & ->)
                     |[(msg & e1 & w4 & msg' & uu & w5 & Ha & Ha' & ->)
                      |(msg & e1 & w4 & msg' & e2 & w5 & Ha & Ha' & ->)]]] res0 w0.
        - apply Hdone; exact H3.
        - apply Hdone. eapply add_job_error_has_job; eassumption.
        - apply Hdone. eapply add_job_error_has_job; [exact Ha'|].
          eapply add_job_error_has_job; eassumption.
        - intros [= <- <-]. split.
          + eapply add_job_error_has_job; [exact Ha'|].
            eapply add_job_error_has_job; eassumption.
          + split; [discriminate|]. intros site e' [= <- <-]. now right; right; left. }
      apply Hstage.
      destruct (0 <? failed)%nat; [|now left].
      destruct (_add_job_error _ w3) as [[e1|uu] w4] eqn:Ea.
      * destruct (_add_job_error _ w4) as [[e2|uu] w5] eqn:Ea'.
        -- do 3 right. now repeat eexists; eauto.
        -- right; right; left. now repeat eexists; eauto.
      * right; left. now repeat eexists; eauto.
Qed.

(** The state in which the chapter loop starts. *)
Definition after_setup (w : World) : World :=
  with_llm (snd (_update_job_status commit_fails IN_PROGRESS w)) LLMClient.initial_state.

(** A run that ends without an exception at task level has recorded
    every failed chapter, and after them what the summary stage
    reported. *)
Lemma batch_body_errors (curriculum : list ChapterDefinition) (w w' : World) :
  has_job w ->
  batch_body curriculum w = (inr tt, w') ->
  exists summary_errors,
    job_errors w'
    = job_errors w
      ++ chapter_failures ChapterGenerator.with_defaults (length curriculum)
           (enumerate 1 curriculum) (after_setup w)
      ++ summary_errors.
Proof.
  intros Hw. unfold batch_body, GenerationService.batch_body, after_setup.
  assert (Hu : job_errors (snd (_update_job_status commit_fails IN_PROGRESS w))
               = job_errors w
               /\ has_job (snd (_update_job_status commit_fails IN_PROGRESS w))).
  { unfold _update_job_status, _get_job. destruct Hw as [j Hj]. rewrite Hj.
    fold commit. split.
    - unfold job_errors. now rewrite commit_job, Hj.
    - eexists. rewrite commit_job. reflexivity. }
  destruct (_update_job_status commit_fails IN_PROGRESS w) as [[e|u] w1];
    [discriminate|]. cbn [snd] in Hu |- *. destruct Hu as [Hu H1].
  destruct api_key; cbn [negb]; [|discriminate].
  fold chapter_loop.
  destruct (chapter_loop _ _ _ (with_llm w1 LLMClient.initial_state))
    as [[[site e]|u1] w2] eqn:El; [discriminate|]. destruct u1.
  pose proof (chapter_loop_errors _ _ _ (with_llm w1 LLMClient.initial_state) w2 H1 El)
    as Hl.
  pose proof (chapter_loop_has_job _ _ _ (with_llm w1 LLMClient.initial_state) _ w2 El H1)
    as H2.
  change (job_errors (with_llm w1 LLMClient.initial_state)) with (job_errors w1) in Hl.
  unfold _generate_summaries_for_chapters. fold gather.
  pose proof (gather_errors (schedule curriculum) w2) as Hg.
  pose proof (gather_has_job (schedule curriculum) w2 H2) as H3.
  destruct (gather (schedule curriculum) w2) as [failed w3]. cbn [snd] in Hg, H3.
  fold _add_job_error.
  assert (Hdone : forall w4 part,
             has_job w4 -> job_errors w4 = job_errors w3 ++ part ->
             match _complete_job commit_fails w4 with
             | (inl e, w) => (inl (AtCompletion, e), w)
             | (inr _, w) => (inr tt, w)
             end = (inr tt, w') ->
             exists summary_errors,
               job_errors w'
               = job_errors w
                 ++ chapter_failures ChapterGenerator.with_defaults (length curriculum)
                      (enumerate 1 curriculum) (with_llm w1 LLMClient.initial_state)
                 ++ summary_errors).
  { intros w4 part [j4 Hj4] Hp.
    destruct (complete_job_status w4 j4 Hj4) as (j' & Hj' & _ & He).
    destruct (_complete_job commit_fails w4) as [[e|uu] w5]; [discriminate|].
    cbn [snd] in Hj'. intros [= <-]. exists part.
    unfold job_errors at 1. rewrite Hj', He.
    unfold job_errors in Hp at 1. rewrite Hj4 in Hp.
    rewrite Hp, Hg, Hl, Hu, <- app_assoc. reflexivity. }
  destruct (0 <? failed)%nat.
  - set (msg := lit "Failed to generate summaries for " ++ of_nat failed ++ lit " chapters").
    pose proof (add_job_error_errors msg w3 H3) as Ha.
    destruct (_add_job_error msg w3) as [[e1|uu] w4] eqn:Ea; cbn [snd] in Ha.
    + pose proof (add_job_error_has_job _ _ _ _ Ea H3) as H4.
      set (msg' := lit "Summary generation failed: " ++ message e1).
      pose proof (add_job_error_errors msg' w4 H4) as Ha'.
      destruct (_add_job_error msg' w4) as [[e2|uu] w5] eqn:Ea'; cbn [snd] in Ha';
        [discriminate|].
      apply (Hdone w5 [msg; msg']).
      * eapply add_job_error_has_job; eassumption.
      * rewrite Ha', Ha, <- app_assoc. reflexivity.
    + apply (Hdone w4 [msg]).
      * eapply add_job_error_has_job; eassumption.
      * exact Ha.
  - apply (Hdone w3 []); [exact H3 | now rewrite app_nil_r].
Qed.

(** C6. The job of a batch run; the task ends with the job completed
    unless an exception reaches its outermost handler, and then with the
    job failed.  A chapter whose body raises is recorded as a job error
    and the loop goes on with the next chapter; a completed job holds the
    error of every chapter that failed.  Such an exception comes
    from the setup, from the completion, or from one of the two stage
    handlers; so a run in which no exception leaves those handlers ends
    completed, whatever errors it recorded, or fails by an exception of
    the task outside the handlers. *)
Theorem C6_completed_unless_task_level_exception
  (curriculum : list ChapterDefinition) (w : World) (j : GenerationJob) :
  job w = Some j ->
  (forall g total i ch rest (w0 w1 w2 : World) (e : exn) (j1 : GenerationJob),
      chapter_body g i total ch w0 = (inl e, w1) ->
      job w1 = Some j1 ->
      _add_job_error (chapter_error ch e) w1 = (inr tt, w2) ->
      chapter_loop g total ((i, ch) :: rest) w0 = chapter_loop g total rest w2
      /\ job w2 = Some (add_error j1 (chapter_error ch e)))
  /\
  (exists j',
      job (snd (_execute_batch_generation curriculum w)) = Some j'
      /\ (fst (_execute_batch_generation curriculum w) = None ->
          status j' = COMPLETED
          /\ exists summary_errors,
               errors j'
               = errors j
                 ++ chapter_failures ChapterGenerator.with_defaults (length curriculum)
                      (enumerate 1 curriculum) (after_setup w)
                 ++ summary_errors)
      /\ (status j' = FAILED ->
          exists site e, fst (_execute_batch_generation curriculum w) = Some (site, e))
      /\ ((forall i e, fst (_execute_batch_generation curriculum w)
                       <> Some (InChapterHandler i, e)) ->
          (forall e, fst (_execute_batch_generation curriculum w)
                     <> Some (InSummaryHandler, e)) ->
          status j' = COMPLETED
          \/ (status j' = FAILED
              /\ exists e, fst (_execute_batch_generation curriculum w) = Some (AtSetup, e)
                           \/ fst (_execute_batch_generation curriculum w)
                              = Some (AtCompletion, e)))).
Proof.
  intros Hj. split.
  - intros g total i ch rest w0 w1 w2 e j1. apply chapter_failure_recorded.
  - unfold _execute_batch_generation, GenerationService._execute_batch_generation.
    fold batch_body.
    destruct (batch_body curriculum w) as [[[site e]|u] w'] eqn:Eb;
      destruct (batch_body_outcome curriculum w (ex_intro _ j Hj) _ _ Eb)
        as ([j1 Hj1] & Hok & Hsite).
    + destruct (fail_job_status (lit "Batch generation failed: " ++ message e) w' j1 Hj1)
        as (j' & Hj' & Hs).
      exists j'. cbn [fst snd]. split; [exact Hj'|]. split; [discriminate|].
      split; [intros _; now exists site, e|].
      intros Hc Hsum. right. split; [exact Hs|]. exists e.
      destruct (Hsite site e eq_refl) as [-> | [[i ->] | [-> | ->]]].
      * now left.
      * exfalso. now apply (Hc i e).
      * exfalso. now apply (Hsum e).
      * now right.
    + destruct u. destruct (Hok eq_refl) as (j' & Hj' & Hs).
      exists j'. cbn [fst snd]. split; [exact Hj'|]. split.
      * intros _. split; [exact Hs|].
        destruct (batch_body_errors curriculum w w' (ex_intro _ j Hj) Eb) as [part Hp].
        exists part. unfold job_errors in Hp at 1 2. now rewrite Hj', Hj in Hp.
      * split; [intros Hf; congruence|]. intros _ _. now left.
Qed.

End Service.

End ServiceFacts.

(** ** Concrete runs *)

Module Examples.

Import Curriculum GenerationJob.
Open Scope Z_scope.

(** A markdown parser that finds tokens. *)
Definition sample_md (content : str) : Validator.MdOutcome := Validator.MdTokens 1.

Definition words (n : nat) : str := concat (repeat (lit "w ") n).

(** One title, one section and 848 further words: 850 counted words. *)
Definition document_850 : str :=
  lit "# T" ++ nl ++ lit "## S" ++ nl ++ words 848.

Definition sample_prompt (chapter : ChapterDefinition) : str :=
  lit "Generate a comprehensive textbook chapter: " ++ title chapter.

Definition half (n : nat) : Q := (1 # 2)%Q.

Definition rate_limited (n : nat) (req : LLMClient.Request) : LLMClient.ProviderOutcome :=
  LLMClient.Raises (mkExn RateLimitError (lit "429")).

Definition sample_request : LLMClient.Request :=
  LLMClient.mkRequest (lit "prompt") None LLMClient.MODEL_SONNET 4096.


(** The progress update has no guard: from a job whose counter has
    reached the total it goes one past it. *)
Lemma increment_past_total (commit_fails : nat -> bool) (tokens : Z)
  (w : GenerationService.World) (j : GenerationJob) :
  GenerationService.job w = Some j ->
  chapters_completed j = chapters_total j ->
  exists j',
    GenerationService.job
      (snd (GenerationService._increment_job_progress commit_fails tokens w)) = Some j'
    /\ chapters_completed j' = chapters_total j' + 1
    /\ check_chapters_completed j' = false.
Proof.
  intros Hj Heq. eexists. split; [apply ServiceFacts.increment_job; exact Hj|].
  cbn [chapters_completed chapters_total]. split; [lia|].
  unfold check_chapters_completed. cbn [chapters_completed chapters_total].
  apply Z.leb_gt. lia.
Qed.

(** *** Instances of the theorems above *)

Lemma C9_witness :
  Validator._validate_structure document_850 = []
  /\ 800 <= Z.of_nat (Validator._count_words document_850) <= 900
  /\ Validator.valid (Validator.validate_chapter sample_md document_850)
     = false.
Proof.
  assert (H1 : Validator._validate_structure document_850 = [])
    by (vm_compute; reflexivity).
  assert (H2 : 800 <= Z.of_nat (Validator._count_words document_850) <= 900)
    by (vm_compute; split; discriminate).
  split; [exact H1|]. split; [exact H2|].
  exact (proj1 (ValidatorFacts.C9_accepted_word_count_rejected_by_reading_time
                  sample_md document_850 H1 H2)).
Defined.

Lemma C7_witness :
  exists e,
    In e (Validator.errors
            (Validator.validate_chapter sample_md (words 3)))
    /\ ValidatorFacts.is_word_count_error e = true
    /\ contains (lit "3") e = true.
Proof.
  exact (proj2 (ValidatorFacts.C7_word_count_error_iff_outside_range
                  sample_md) (words 3)).
Defined.

Definition takeaway_60 : str := repeat 97%N 60.
Definition takeaway_160 : str := repeat 97%N 160.

Lemma C8_witness :
  Validator.valid
    (Validator.validate_summary_default [takeaway_60; takeaway_160; takeaway_60]) = true
  /\ Validator.errors
       (Validator.validate_summary_default [takeaway_60; takeaway_160; takeaway_60]) = []
  /\ exists i,
       In (lit "Takeaway " ++ of_nat i ++ lit " too long: 160 chars (recommended max 150)")
          (Validator.warnings
             (Validator.validate_summary_default
                [takeaway_60; takeaway_160; takeaway_60])).
Proof.
  destruct SummaryFacts.C8_validate_summary_cases as (_ & _ & _ & H).
  apply (H [takeaway_60; takeaway_160; takeaway_60] takeaway_160).
  - simpl. lia.
  - intros t [<-|[<-|[<-|[]]]]; vm_compute; split; try reflexivity; lia.
  - right. now left.
  - reflexivity.
Defined.


Lemma C4_witness :
  0 <= LLMClient.retry_delay LLMClient.default_client
  /\ (forall n, (0 <= half n)%Q /\ (half n < 1)%Q)
  /\ (fst (LLMClient._calculate_backoff half LLMClient.default_client 2
             LLMClient.initial_state) <= inject_Z 20)%Q
  /\ exists e st,
       LLMClient.generate rate_limited half LLMClient.default_client sample_request
         LLMClient.initial_state = (inl e, st)
       /\ cls e = GenerationError
       /\ LLMClient.calls st = 3%nat.
Proof.
  assert (H1 : 0 <= LLMClient.retry_delay LLMClient.default_client)
    by (vm_compute; discriminate).
  assert (H2 : forall n, (0 <= half n)%Q /\ (half n < 1)%Q)
    by (intros n; split; vm_compute; [discriminate | reflexivity]).
  destruct (ClientFacts.C4_backoff_in_range_and_rate_limit_exhaustion
              rate_limited half LLMClient.default_client H1 H2) as [Hb Hg].
  split; [exact H1|]. split; [exact H2|]. split.
  - apply (Hb 2 LLMClient.initial_state). lia.
  - destruct (Hg sample_request LLMClient.initial_state) as (e & st & He & Hc & _ & Hn & _).
    + intros k _. eexists. split; reflexivity.
    + exists e, st. split; [exact He|]. split; [exact Hc|]. exact Hn.
Defined.

(** A chapter attempt that comes back with two words. *)
Definition short_answer : LLMClient.GenerationResult :=
  LLMClient.mkGenerationResult (lit "too brief") (lit "m") 30 (lit "end_turn")
    (LLMClient.mkMetadata 10 20 (lit "msg")).

Definition after_short_answer : LLMClient.State :=
  LLMClient.mkState 30
    [LLMClient.mkRequest (lit "p") (Some (lit "system")) (lit "m") 4096] 0
    [inject_Z 5].

Lemma C5_witness :
  ChapterGenerator.enforce_word_count ChapterGenerator.with_defaults = true
  /\ LLMClient.generate_with_rate_limit_buffer
       (WordCountFacts.fixed_provider (lit "too brief")) half
       (ChapterGenerator.llm_client ChapterGenerator.with_defaults)
       (LLMClient.mkRequest (lit "p") (Some (lit "system")) (lit "m") 4096)
       LLMClient.initial_state
     = (inr short_answer, after_short_answer)
  /\ ChapterGenerator.generate_chapter_from
       (WordCountFacts.fixed_provider (lit "too brief")) half (lit "system")
       ChapterGenerator.with_defaults [1; 2; 3] WordCountFacts.sample_chapter
       (lit "m") (lit "p") LLMClient.initial_state
     = ChapterGenerator.generate_chapter_from
         (WordCountFacts.fixed_provider (lit "too brief")) half (lit "system")
         ChapterGenerator.with_defaults [2; 3] WordCountFacts.sample_chapter
         (lit "m") (lit "p" ++ ChapterFacts.expand_addendum 2 1000) after_short_answer.
Proof.
  assert (H1 : ChapterGenerator.enforce_word_count ChapterGenerator.with_defaults = true)
    by reflexivity.
  assert (H2 : LLMClient.generate_with_rate_limit_buffer
                 (WordCountFacts.fixed_provider (lit "too brief")) half
                 (ChapterGenerator.llm_client ChapterGenerator.with_defaults)
                 (LLMClient.mkRequest (lit "p") (Some (lit "system")) (lit "m") 4096)
                 LLMClient.initial_state
               = (inr short_answer, after_short_answer))
    by (vm_compute; reflexivity).
  split; [exact H1|]. split; [exact H2|].
  destruct (ChapterFacts.C5_word_count_retry_then_accept
              (WordCountFacts.fixed_provider (lit "too brief")) half (lit "system")
              ChapterGenerator.with_defaults 1 [2; 3] WordCountFacts.sample_chapter
              (lit "m") (lit "p") LLMClient.initial_state after_short_answer
              short_answer H1 H2) as (Hshort & _).
  apply Hshort; vm_compute; reflexivity.
Defined.

(** The model answers with 2 words, then with 1300, then with 1000. *)
Definition three_answers (n : nat) (req : LLMClient.Request) : LLMClient.ProviderOutcome :=
  LLMClient.Responds
    (LLMClient.mkResponse
       (match n with
        | O => lit "too brief"
        | S O => words 1300
        | _ => words 1000
        end)
       (LLMClient.model req) 10 20 (lit "end_turn") (lit "msg")).

(** The chapter is returned on the third attempt, as valid; the second
    prompt asks to expand, the third also to trim. *)
Example chapter_accepted_on_third_attempt :
  exists r st,
    ChapterGenerator.generate_chapter three_answers half sample_prompt (lit "system")
      ChapterGenerator.with_defaults WordCountFacts.sample_chapter
      LLMClient.initial_state = (inr r, st)
    /\ ChapterGenerator.generation_attempts r = 3
    /\ ChapterGenerator.validation_passed r = true
    /\ ChapterGenerator.word_count r = 1000
    /\ map LLMClient.prompt (LLMClient.sent st)
       = let p := sample_prompt WordCountFacts.sample_chapter in
         [p;
          p ++ ChapterFacts.expand_addendum 2 1000;
          p ++ ChapterFacts.expand_addendum 2 1000 ++ ChapterFacts.trim_addendum 1300 1000].
Proof.
  eexists. eexists. split; [vm_compute; reflexivity|].
  repeat split.
Qed.

(** A batch of one unit whose provider always fails: the chapter is
    recorded as failed, the summary too, and the job ends completed. *)
Definition failing_provider (n : nat) (req : LLMClient.Request) : LLMClient.ProviderOutcome :=
  LLMClient.Raises (mkExn APIError (lit "overloaded")).

Definition started_world : GenerationService.World :=
  GenerationService.mkWorld LLMClient.initial_state
    (Some (GenerationService.new_job 1 None)) [] 1 0.

Lemma C6_witness :
  GenerationService.job started_world = Some (GenerationService.new_job 1 None)
  /\ exists j',
       GenerationService.job
         (snd (GenerationService._execute_batch_generation failing_provider half
                 sample_md sample_prompt (lit "system") (fun _ => false)
                 true (fun _ => raise GenerationError (lit "no summary")) (fun l => l)
                 [WordCountFacts.sample_chapter] started_world)) = Some j'
       /\ status j' = COMPLETED
       /\ length (errors j') = 2%nat.
Proof.
  split; [reflexivity|].
  destruct (ServiceFacts.C6_completed_unless_task_level_exception
              failing_provider half sample_md sample_prompt (lit "system")
              (fun _ => false) true (fun _ => raise GenerationError (lit "no summary"))
              (fun l => l) [WordCountFacts.sample_chapter] started_world
              (GenerationService.new_job 1 None) eq_refl)
    as (_ & j' & Hj & Hdone & _).
  exists j'. split; [exact Hj|]. split.
  - apply Hdone. vm_compute. reflexivity.
  - assert (E : GenerationService.job
                  (snd (GenerationService._execute_batch_generation failing_provider half
                          sample_md sample_prompt (lit "system")
                          (fun _ => false) true
                          (fun _ => raise GenerationError (lit "no summary")) (fun l => l)
                          [WordCountFacts.sample_chapter] started_world))
                = Some j') by exact Hj.
    vm_compute in E. injection E as <-. reflexivity.
Defined.

Lemma C10_witness :
  ChapterGenerator._count_words (lit "plain words only")
  = Z.of_nat (Validator._count_words (lit "plain words only")).
Proof.
  apply (proj1 WordCountFacts.C10_word_counts_agree_on_plain_text_only).
  - intros (a & b & c & H).
    assert (Hc : contains Regex.fence (lit "plain words only") = true)
      by (rewrite H; apply PyStrFacts.contains_app).
    vm_compute in Hc. discriminate.
  - intros (a & b & c & _ & _ & H).
    assert (Hc : contains [Regex.BACKTICK] (lit "plain words only") = true)
      by (rewrite H; apply (PyStrFacts.contains_app a [Regex.BACKTICK])).
    vm_compute in Hc. discriminate.
  - intros (c & Hin & Hc). revert Hc.
    assert (Hall : forallb (fun x => negb (Regex.is_markdown_syntax x))
                     (lit "plain words only") = true) by (vm_compute; reflexivity).
    rewrite forallb_forall in Hall. specialize (Hall c Hin).
    destruct (Regex.is_markdown_syntax c); [discriminate | discriminate].
Defined.

(** A provider whose every answer is the text [oops] never yields an
    answer that the summary parser accepts. *)
Lemma oops_never_parses (model : str) :
  RetryFacts.never_parses
    (fun p =>
       LLMClient.generate_with_rate_limit_buffer
         (WordCountFacts.fixed_provider (lit "oops")) half LLMClient.default_client
         (LLMClient.mkRequest p (Some (lit "system")) model 1024))
    (SummaryGenerator._parse_takeaways_json ParseRetryClaim.sample_loads).
Proof.
  intros p st. eexists. eexists. eexists. split.
  - reflexivity.
  - vm_compute. reflexivity.
Qed.

Lemma C2_witness :
  (exists e st,
      SummaryGenerator.generate_summary_from
        (WordCountFacts.fixed_provider (lit "oops")) half ParseRetryClaim.sample_loads
        (lit "system") (SummaryGenerator.mkSummaryGenerator LLMClient.default_client 3 true)
        [3] (lit "Title") 1 (lit "m") (lit "p") LLMClient.initial_state = (inl e, st)
      /\ cls e = GenerationError)
  /\ (exists e st,
         SummaryGenerator.generate_summary
           (WordCountFacts.fixed_provider (lit "oops")) half ParseRetryClaim.sample_loads
           (fun content title => title) (lit "system")
           (SummaryGenerator.mkSummaryGenerator LLMClient.default_client 3 true)
           (lit "chapter text") (lit "Title") 1 LLMClient.initial_state = (inl e, st)
         /\ cls e = GenerationError).
Proof.
  destruct (ParseRetryClaim.C2_parse_failure_retries_then_generation_error
              (WordCountFacts.fixed_provider (lit "oops")) half
              ParseRetryClaim.sample_loads
              (fun content title => title) (fun content title n => title)
              ParseRetryClaim.sample_booster_prompt
              (lit "system") (lit "system") (lit "system")
              (SummaryGenerator.mkSummaryGenerator LLMClient.default_client 3 true)
              (QuizGenerator.init LLMClient.default_client 3 true 5)
              ParseRetryClaim.sample_boosters)
    as (Hs & _ & _ & _ & _ & _ & _ & _ & Hrun & _).
  split.
  - destruct (Hs 3 [] (lit "Title") 1 (lit "m") (lit "p") LLMClient.initial_state
                (LLMClient.mkState 30
                   [LLMClient.mkRequest (lit "p") (Some (lit "system")) (lit "m") 1024] 0
                   [inject_Z 5])
                (LLMClient.mkGenerationResult (lit "oops") (lit "m") 30 (lit "end_turn")
                   (LLMClient.mkMetadata 10 20 (lit "msg")))
                (mkExn JSONDecodeError (lit "Expecting value")))
      as (_ & Hcap).
    + vm_compute. reflexivity.
    + vm_compute. reflexivity.
    + destruct Hcap as (e & He & Hc); [vm_compute; discriminate|].
      eexists. eexists. split; [exact He | exact Hc].
  - eapply (Hrun (lit "chapter text") (lit "Title") 1 _ LLMClient.initial_state).
    + reflexivity.
    + apply oops_never_parses.
Defined.

End Examples.

(** ** Runs of the model client *)

Module ClientRunFacts.

Import LLMClient RangeFacts.
Open Scope Z_scope.

(** The result [generate] builds from a provider response. *)
Definition result_of (response : Response) : GenerationResult :=
  mkGenerationResult (text response) (response_model response)
    (input_tokens response + output_tokens response) (stop_reason response)
    (mkMetadata (input_tokens response) (output_tokens response) (response_id response)).

(** An error after which [generate] tries again. *)
Definition transient (e : exn) : bool :=
  caught_by e [RateLimitError; APIConnectionError].

Lemma transient_cases (e : exn) :
  transient e = caught_by e [RateLimitError] || caught_by e [APIConnectionError].
Proof. unfold transient, caught_by. simpl. now rewrite !orb_false_r. Qed.

Lemma sleep_tokens (d : Q) (st : State) :
  total_tokens_used (snd (sleep d st)) = total_tokens_used st.
Proof. unfold sleep. destruct (Qle_bool 0 d); reflexivity. Qed.

Lemma sleep_buffer (st : State) :
  sleep (inject_Z RATE_LIMIT_BUFFER) st
  = (ret tt, mkState (total_tokens_used st) (sent st) (draws st)
               (slept st ++ [inject_Z RATE_LIMIT_BUFFER])).
Proof. reflexivity. Qed.

Section Client.

Variable provider : nat -> Request -> ProviderOutcome.
Variable random : nat -> Q.
Variable self : Client.

Let generate := generate provider random self.
Let generate_with_rate_limit_buffer := generate_with_rate_limit_buffer provider random self.

(** *** Token accounting *)

Definition accounted (st : State) (res : result GenerationResult) (st' : State) : Prop :=
  match res with
  | inr r =>
      total_tokens_used st' = total_tokens_used st + tokens_used r
      /\ tokens_used r
         = meta_input_tokens (metadata r) + meta_output_tokens (metadata r)
  | inl _ => total_tokens_used st' = total_tokens_used st
  end.

Lemma backoff_or_raise_accounted (what : str) (attempt : Z) (st0 st : State)
  (k : State -> result GenerationResult * State) :
  total_tokens_used st = total_tokens_used st0 ->
  (forall st1 res st', total_tokens_used st1 = total_tokens_used st0 ->
                       k st1 = (res, st') -> accounted st0 res st') ->
  forall res st', backoff_or_raise random self what attempt st k = (res, st') ->
                  accounted st0 res st'.
Proof.
  intros Ht Hk res st'. unfold backoff_or_raise, _calculate_backoff.
  destruct (attempt <? max_retries self - 1).
  - pose proof (sleep_tokens (uniform 0 (inject_Z (retry_delay self * 2 ^ attempt))
                                (random (draws st)))
                  (mkState (total_tokens_used st) (sent st) (S (draws st)) (slept st)))
      as Hs.
    destruct (sleep _ _) as [[e|[]] st2]; cbn [snd total_tokens_used] in Hs.
    + intros [= <- <-]. simpl. congruence.
    + apply Hk. congruence.
  - intros [= <- <-]. simpl. exact Ht.
Qed.

Lemma generate_from_accounted (attempts : list Z) (req : Request) :
  forall st0 st res st',
    total_tokens_used st = total_tokens_used st0 ->
    generate_from provider random self attempts req st = (res, st') ->
    accounted st0 res st'.
Proof.
  induction attempts as [|attempt rest IH]; intros st0 st res st' Ht;
    cbn [generate_from].
  - intros [= <- <-]. exact Ht.
  - unfold create. destruct (provider (calls st) req) as [response|e].
    + intros [= <- <-]. simpl. split; [lia | reflexivity].
    + assert (Hk : forall st1 res st',
                 total_tokens_used st1 = total_tokens_used st0 ->
                 generate_from provider random self rest req st1 = (res, st') ->
                 accounted st0 res st').
      { intros st1 res1 st1' H1. now apply IH. }
      destruct (caught_by e [RateLimitError]);
        [|destruct (caught_by e [APIConnectionError]);
          [|destruct (caught_by e [APIError])]].
      * apply backoff_or_raise_accounted; [exact Ht | exact Hk].
      * apply backoff_or_raise_accounted; [exact Ht | exact Hk].
      * intros [= <- <-]. exact Ht.
      * intros [= <- <-]. exact Ht.
Qed.

Lemma generate_accounted (req : Request) (st : State)
  (res : result GenerationResult) (st' : State) :
  generate req st = (res, st') -> accounted st res st'.
Proof. apply generate_from_accounted. reflexivity. Qed.

Lemma buffer_accounted (req : Request) (st : State)
  (res : result GenerationResult) (st' : State) :
  generate_with_rate_limit_buffer req st = (res, st') -> accounted st res st'.
Proof.
  unfold generate_with_rate_limit_buffer, LLMClient.generate_with_rate_limit_buffer.
  destruct (LLMClient.generate provider random self req st) as [[e|r] st1] eqn:E;
    apply generate_accounted in E.
  - now intros [= <- <-].
  - rewrite sleep_buffer. intros [= <- <-]. exact E.
Qed.

(** *** Only [GenerationError] *)

Section NonNegative.

Hypothesis retry_delay_nonneg : 0 <= retry_delay self.
Hypothesis random_nonneg : forall n, (0 <= random n)%Q.

Lemma backoff_nonneg (attempt : Z) (st : State) :
  (0 <= fst (_calculate_backoff random self attempt st))%Q.
Proof.
  unfold _calculate_backoff, uniform. cbn [fst].
  pose proof (random_nonneg (draws st)) as H0.
  assert (Hm : (0 <= inject_Z (retry_delay self * 2 ^ attempt))%Q).
  { change 0%Q with (inject_Z 0). rewrite <- Zle_Qle.
    apply Z.mul_nonneg_nonneg; [exact retry_delay_nonneg|].
    apply Z.pow_nonneg. lia. }
  nra.
Qed.

Lemma generate_from_raises (attempts : list Z) (req : Request) :
  forall st e st',
    generate_from provider random self attempts req st = (inl e, st') ->
    cls e = GenerationError.
Proof.
  induction attempts as [|attempt rest IH]; intros st e st'; cbn [generate_from].
  - now intros [= <- <-].
  - unfold create. destruct (provider (calls st) req) as [response|e0];
      [discriminate|].
    assert (Hb : forall what st1,
               backoff_or_raise random self what attempt st1
                 (generate_from provider random self rest req) = (inl e, st') ->
               cls e = GenerationError).
    { intros what st1. unfold backoff_or_raise.
      pose proof (backoff_nonneg attempt st1) as Hd.
      destruct (_calculate_backoff random self attempt st1) as [d st2]. cbn [fst] in Hd.
      destruct (attempt <? max_retries self - 1).
      - rewrite (ClientFacts.sleep_nonneg _ _ Hd). apply IH.
      - now intros [= <- <-]. }
    destruct (caught_by e0 [RateLimitError]);
      [|destruct (caught_by e0 [APIConnectionError]);
        [|destruct (caught_by e0 [APIError])]].
    + apply Hb.
    + apply Hb.
    + now intros [= <- <-].
    + now intros [= <- <-].
Qed.

End NonNegative.

(** *** Number of calls *)

Lemma generate_range_bounded (k : nat) (req : Request) :
  forall lo st res st',
    k = Z.to_nat (max_retries self - lo) ->
    generate_from provider random self (range lo (max_retries self)) req st = (res, st') ->
    exists n ds,
      sent st' = sent st ++ repeat req n
      /\ slept st' = slept st ++ ds
      /\ (n <= k)%nat
      /\ (length ds <= Nat.pred n)%nat
      /\ (draws st' <= draws st + n)%nat
      /\ (lo < max_retries self -> (1 <= n)%nat).
Proof.
  induction k as [|k IH]; intros lo st res st' Hk.
  - rewrite range_nil by lia. cbn [generate_from]. intros [= <- <-].
    exists 0%nat, []. rewrite !app_nil_r. repeat split; simpl; lia.
  - rewrite range_cons by lia. cbn [generate_from]. unfold create.
    assert (Hone : forall st1,
               sent st1 = sent st ++ [req] -> slept st1 = slept st ->
               (draws st1 <= S (draws st))%nat ->
               exists n ds,
                 sent st1 = sent st ++ repeat req n
                 /\ slept st1 = slept st ++ ds
                 /\ (n <= S k)%nat
                 /\ (length ds <= Nat.pred n)%nat
                 /\ (draws st1 <= draws st + n)%nat
                 /\ (lo < max_retries self -> (1 <= n)%nat)).
    { intros st1 H1 H2 H3.
      exists 1%nat, []. rewrite H1, H2, app_nil_r. simpl. repeat split; lia. }
    assert (Hb : forall what,
               backoff_or_raise random self what lo
                 (mkState (total_tokens_used st) (sent st ++ [req]) (draws st) (slept st))
                 (generate_from provider random self (range (lo + 1) (max_retries self)) req)
               = (res, st') ->
               exists n ds,
                 sent st' = sent st ++ repeat req n
                 /\ slept st' = slept st ++ ds
                 /\ (n <= S k)%nat
                 /\ (length ds <= Nat.pred n)%nat
                 /\ (draws st' <= draws st + n)%nat
                 /\ (lo < max_retries self -> (1 <= n)%nat)).
    { intros what. unfold backoff_or_raise, _calculate_backoff.
      cbn [total_tokens_used sent draws slept].
      destruct (Z.ltb_spec lo (max_retries self - 1)) as [Hlt|Hge].
      - unfold sleep. destruct (Qle_bool 0 _).
        + intros H. apply IH in H as (n & ds & H1 & H2 & H3 & H4 & H5 & H6); [|lia].
          cbn [sent slept draws] in *.
          exists (S n), (uniform 0 (inject_Z (retry_delay self * 2 ^ lo))
                           (random (draws st)) :: ds).
          rewrite H1, H2, <- !app_assoc. simpl.
          assert (1 <= n)%nat by (apply H6; lia).
          repeat split; try lia.
        + intros [= <- <-]. apply Hone; simpl; auto.
      - intros [= <- <-]. apply Hone; simpl; auto. }
    destruct (provider (calls st) req) as [response|e].
    + intros [= <- <-]. apply Hone; simpl; auto.
    + destruct (caught_by e [RateLimitError]);
        [|destruct (caught_by e [APIConnectionError]);
          [|destruct (caught_by e [APIError])]].
      * apply Hb.
      * apply Hb.
      * intros [= <- <-]. apply Hone; simpl; auto.
      * intros [= <- <-]. apply Hone; simpl; auto.
Qed.

Lemma generate_bounded (req : Request) (st : State)
  (res : result GenerationResult) (st' : State) :
  generate req st = (res, st') ->
  exists n ds,
    sent st' = sent st ++ repeat req n
    /\ slept st' = slept st ++ ds
    /\ (n <= Z.to_nat (max_retries self))%nat
    /\ (length ds <= Nat.pred n)%nat
    /\ (draws st' <= draws st + n)%nat
    /\ (0 < max_retries self -> (1 <= n)%nat).
Proof.
  intros H.
  apply (generate_range_bounded (Z.to_nat (max_retries self)) req 0 st res st') in H;
    [exact H | f_equal; lia].
Qed.

Lemma buffer_bounded (req : Request) (st : State)
  (res : result GenerationResult) (st' : State) :
  generate_with_rate_limit_buffer req st = (res, st') ->
  exists n,
    sent st' = sent st ++ repeat req n /\ (n <= Z.to_nat (max_retries self))%nat.
Proof.
  unfold generate_with_rate_limit_buffer, LLMClient.generate_with_rate_limit_buffer.
  destruct (LLMClient.generate provider random self req st) as [[e|r] st1] eqn:E;
    apply generate_bounded in E as (n & ds & H1 & _ & H3 & _).
  - intros [= <- <-]. now exists n.
  - rewrite sleep_buffer. intros [= <- <-]. now exists n.
Qed.

(** *** Recovery from transient errors *)

Section Recovery.

Hypothesis retry_delay_nonneg : 0 <= retry_delay self.
Hypothesis random_unit : forall n, (0 <= random n)%Q /\ (random n < 1)%Q.

Lemma transient_step (attempt : Z) (rest : list Z) (req : Request) (st : State) (e : exn) :
  provider (calls st) req = Raises e ->
  transient e = true ->
  0 <= attempt < max_retries self - 1 ->
  exists d,
    generate_from provider random self (attempt :: rest) req st
    = generate_from provider random self rest req
        (mkState (total_tokens_used st) (sent st ++ [req]) (S (draws st))
           (slept st ++ [d]))
    /\ (0 <= d)%Q /\ (d <= inject_Z (retry_delay self * 2 ^ attempt))%Q.
Proof.
  intros Hp Ht Ha. cbn [generate_from]. unfold create. rewrite Hp.
  set (st1 := mkState (total_tokens_used st) (sent st ++ [req]) (draws st) (slept st)).
  assert (Hb : forall what,
             exists d,
               backoff_or_raise random self what attempt st1
                 (generate_from provider random self rest req)
               = generate_from provider random self rest req
                   (mkState (total_tokens_used st) (sent st ++ [req]) (S (draws st))
                      (slept st ++ [d]))
               /\ (0 <= d)%Q /\ (d <= inject_Z (retry_delay self * 2 ^ attempt))%Q).
  { intros what. unfold backoff_or_raise.
    destruct (ClientFacts.backoff_bounds random self retry_delay_nonneg random_unit
                attempt st1) as [Hd0 Hd1]; [lia|].
    pose proof (ClientFacts.backoff_state random self attempt st1) as Hs.
    destruct (_calculate_backoff random self attempt st1) as [d st2].
    cbn [fst snd] in Hd0, Hd1, Hs. subst st2.
    destruct (Z.ltb_spec attempt (max_retries self - 1)); [|lia].
    rewrite (ClientFacts.sleep_nonneg _ _ Hd0).
    exists d. split; [reflexivity | split; assumption]. }
  rewrite transient_cases in Ht.
  destruct (caught_by e [RateLimitError]); [apply Hb|].
  destruct (caught_by e [APIConnectionError]); [apply Hb | discriminate].
Qed.

Lemma recovers_from (k : nat) :
  forall (lo : Z) (req : Request) (st : State) (response : Response),
    0 <= lo -> lo + Z.of_nat k < max_retries self ->
    (forall i, (i < k)%nat ->
               exists e, provider (calls st + i) req = Raises e /\ transient e = true) ->
    provider (calls st + k) req = Responds response ->
    exists ds,
      generate_from provider random self (range lo (max_retries self)) req st
      = (inr (result_of response),
         mkState (total_tokens_used st + tokens_used (result_of response))
           (sent st ++ repeat req (S k)) (draws st + k) (slept st ++ ds))
      /\ length ds = k
      /\ (forall i d, nth_error ds i = Some d ->
                      (0 <= d)%Q
                      /\ (d <= inject_Z (retry_delay self * 2 ^ (lo + Z.of_nat i)))%Q).
Proof.
  induction k as [|k IH]; intros lo req st response Hlo Hmax Hfail Hok.
  - rewrite range_cons by lia. cbn [generate_from]. unfold create.
    rewrite Nat.add_0_r in Hok. rewrite Hok.
    exists []. rewrite app_nil_r, Nat.add_0_r. split; [reflexivity|].
    split; [reflexivity|]. intros [|i] d; discriminate.
  - rewrite range_cons by lia.
    destruct (Hfail 0%nat) as (e & Hp & Ht); [lia|]. rewrite Nat.add_0_r in Hp.
    destruct (transient_step lo (range (lo + 1) (max_retries self)) req st e Hp Ht)
      as (d & Hstep & Hd0 & Hd1); [lia|].
    rewrite Hstep.
    set (st3 := mkState (total_tokens_used st) (sent st ++ [req]) (S (draws st))
                  (slept st ++ [d])).
    assert (Hcalls : forall i, (calls st3 + i = calls st + S i)%nat).
    { intros i. unfold calls, st3. cbn [sent]. rewrite length_app. simpl. lia. }
    destruct (IH (lo + 1) req st3 response) as (ds & Hg & Hlen & Hds).
    + lia.
    + lia.
    + intros i Hi. rewrite Hcalls. apply Hfail. lia.
    + rewrite Hcalls. exact Hok.
    + exists (d :: ds). split; [|split].
      * rewrite Hg. unfold st3. cbn [total_tokens_used sent draws slept].
        rewrite <- !app_assoc. simpl. do 3 f_equal. lia.
      * simpl. now rewrite Hlen.
      * intros [|i] d' Hn; simpl in Hn.
        -- injection Hn as <-. rewrite Z.add_0_r. split; assumption.
        -- destruct (Hds i d' Hn) as [H0 H1]. split; [exact H0|].
           replace (lo + Z.of_nat (S i)) with (lo + 1 + Z.of_nat i) by lia. exact H1.
Qed.

End Recovery.

End Client.

(** The running token total of a client grows by exactly the tokens of
    the result it returns, which are the input and output tokens the
    provider reported, and stays as it was when the call raises; this
    holds for [generate] and for [generate_with_rate_limit_buffer]. *)
Theorem client_token_total_tracks_results
  (provider : nat -> Request -> ProviderOutcome) (random : nat -> Q) (self : Client)
  (req : Request) (st : State) :
  accounted st (fst (generate provider random self req st))
    (snd (generate provider random self req st))
  /\ accounted st (fst (generate_with_rate_limit_buffer provider random self req st))
       (snd (generate_with_rate_limit_buffer provider random self req st)).
Proof.
  split.
  - apply (generate_accounted provider random self req). apply surjective_pairing.
  - apply (buffer_accounted provider random self req). apply surjective_pairing.
Qed.

(** One call of [generate] sends the request it was given at most
    [max_retries] times and nothing else, at least once when
    [max_retries] is positive; it sleeps fewer times than it calls the
    provider and draws at most one random number per call. *)
Theorem generate_calls_at_most_max_retries
  (provider : nat -> Request -> ProviderOutcome) (random : nat -> Q) (self : Client)
  (req : Request) (st : State) :
  let st' := snd (generate provider random self req st) in
  exists n ds,
    sent st' = sent st ++ repeat req n
    /\ slept st' = slept st ++ ds
    /\ (n <= Z.to_nat (max_retries self))%nat
    /\ (length ds <= Nat.pred n)%nat
    /\ (draws st' <= draws st + n)%nat
    /\ (0 < max_retries self -> (1 <= n)%nat).
Proof.
  intros st'. apply (generate_bounded provider random self req st
                       (fst (generate provider random self req st))).
  apply surjective_pairing.
Qed.

(** With a non-negative base delay and non-negative random numbers,
    [generate] and [generate_with_rate_limit_buffer] raise nothing but
    [GenerationError], whatever the provider raises. *)
Theorem generate_raises_only_generation_error
  (provider : nat -> Request -> ProviderOutcome) (random : nat -> Q) (self : Client) :
  0 <= retry_delay self ->
  (forall n, (0 <= random n)%Q) ->
  forall (req : Request) (st : State) (e : exn) (st' : State),
    (generate provider random self req st = (inl e, st')
     \/ generate_with_rate_limit_buffer provider random self req st = (inl e, st')) ->
    cls e = GenerationError.
Proof.
  intros Hdelay Hrand req st e st' [H|H].
  - eapply generate_from_raises; eassumption.
  - unfold generate_with_rate_limit_buffer in H.
    destruct (generate provider random self req st) as [[e1|r] st1] eqn:E.
    + injection H as <- <-. eapply generate_from_raises; eassumption.
    + rewrite sleep_buffer in H. discriminate.
Qed.

(** An error of the provider that is neither a rate limit nor a
    connection failure is not retried: [generate] raises
    [GenerationError] after that one call, without sleeping and without
    drawing a random number; the message names an API error when the
    exception is an [APIError], an unexpected error otherwise. *)
Theorem generate_does_not_retry_other_errors
  (provider : nat -> Request -> ProviderOutcome) (random : nat -> Q) (self : Client)
  (req : Request) (st : State) (e : exn) :
  0 < max_retries self ->
  provider (calls st) req = Raises e ->
  transient e = false ->
  generate provider random self req st
  = (raise GenerationError
       ((if caught_by e [APIError] then lit "API error: " else lit "Unexpected error: ")
        ++ message e),
     mkState (total_tokens_used st) (sent st ++ [req]) (draws st) (slept st)).
Proof.
  intros Hmax Hp Ht. unfold generate. rewrite range_cons by lia.
  cbn [generate_from]. unfold create. rewrite Hp.
  rewrite transient_cases in Ht. apply orb_false_iff in Ht as [-> ->].
  destruct (caught_by e [APIError]); reflexivity.
Qed.

(** After [k] rate-limit or connection errors in a row, with [k] less
    than [max_retries], a response of the provider is returned: the
    request has been sent [k + 1] times, the client has slept [k] times,
    the [i]-th time for at most [retry_delay * 2^i] seconds, and the
    tokens of the response have been added to its total. *)
Theorem generate_recovers_from_transient_errors
  (provider : nat -> Request -> ProviderOutcome) (random : nat -> Q) (self : Client)
  (k : nat) (req : Request) (st : State) (response : Response) :
  0 <= retry_delay self ->
  (forall n, (0 <= random n)%Q /\ (random n < 1)%Q) ->
  Z.of_nat k < max_retries self ->
  (forall i, (i < k)%nat ->
             exists e, provider (calls st + i)%nat req = Raises e /\ transient e = true) ->
  provider (calls st + k)%nat req = Responds response ->
  exists ds,
    generate provider random self req st
    = (inr (result_of response),
       mkState (total_tokens_used st + (input_tokens response + output_tokens response))
         (sent st ++ repeat req (S k)) (draws st + k) (slept st ++ ds))
    /\ length ds = k
    /\ (forall i d, nth_error ds i = Some d ->
                    (0 <= d)%Q /\ (d <= inject_Z (retry_delay self * 2 ^ Z.of_nat i))%Q).
Proof.
  intros Hdelay Hrand Hk Hfail Hok.
  destruct (recovers_from provider random self Hdelay Hrand k 0 req st response)
    as (ds & Hg & Hlen & Hds); try assumption; try lia.
  exists ds. split; [exact Hg|]. split; [exact Hlen|].
  intros i d Hn. apply (Hds i d Hn).
Qed.

(** [get_model_for_task] returns a model for the four task names
    [chapter], [booster], [summary] and [quiz], and raises [ValueError]
    for every other string. *)
Lemma get_model_for_task_knows_four_tasks (task : str) :
  (In task [lit "chapter"; lit "booster"; lit "summary"; lit "quiz"] ->
   exists m, get_model_for_task task = inr m /\ In m [MODEL_SONNET; MODEL_HAIKU])
  /\ (~ In task [lit "chapter"; lit "booster"; lit "summary"; lit "quiz"] ->
      exists e, get_model_for_task task = inl e /\ cls e = ValueError).
Proof.
  split.
  - intros [<-|[<-|[<-|[<-|[]]]]]; eexists; (split; [reflexivity|]); simpl; auto.
  - intros Hn. unfold get_model_for_task, task_models. cbn [lookup].
    repeat match goal with
           | |- context [PyStr.eqb ?a task] =>
               let E := fresh "E" in
               destruct (PyStr.eqb a task) eqn:E;
               [apply PyStrFacts.eqb_eq in E; exfalso; apply Hn; rewrite <- E;
                simpl; auto|clear E]
           end.
    eexists. split; reflexivity.
Qed.

End ClientRunFacts.

(** ** What the validators accept *)

Module ValidityFacts.

Import Validator EnumerateFacts.
Open Scope Z_scope.

Lemma no_errors_nil (l : list str) : no_errors l = true <-> l = [].
Proof.
  unfold no_errors. rewrite Nat.eqb_eq. split.
  - now destruct l.
  - now intros ->.
Qed.

Lemma no_errors_app (a b : list str) :
  no_errors (a ++ b) = no_errors a && no_errors b.
Proof. destruct a; reflexivity. Qed.

Lemma no_errors_flat_map {A} (f : A -> list str) (l : list A) :
  no_errors (flat_map f l) = forallb (fun x => no_errors (f x)) l.
Proof.
  induction l as [|x l IH]; [reflexivity|].
  simpl. now rewrite no_errors_app, IH.
Qed.

Lemma forallb_pointwise {A} (p q : A -> bool) (l : list A) :
  (forall x, p x = q x) -> forallb p l = forallb q l.
Proof.
  intros H. induction l as [|x l IH]; [reflexivity|]. simpl. now rewrite H, IH.
Qed.

Lemma forallb_enumerate {A} (p : A -> bool) (l : list A) (start : nat) :
  forallb (fun it => p (snd it)) (enumerate start l) = forallb p l.
Proof.
  revert start. induction l as [|x l IH]; intros start; [reflexivity|].
  rewrite enumerate_cons. simpl. now rewrite IH.
Qed.

Lemma nodup_length_le {A} (dec : forall a b : A, {a = b} + {a <> b}) (l : list A) :
  (length (nodup dec l) <= length l)%nat.
Proof.
  induction l as [|x l IH]; simpl; [lia|].
  destruct (in_dec dec x l); simpl; lia.
Qed.

(** [len(l) == len(set(l))] says that [l] has no duplicates. *)
Lemma nodup_length_iff {A} (dec : forall a b : A, {a = b} + {a <> b}) (l : list A) :
  length (nodup dec l) = length l <-> NoDup l.
Proof.
  split.
  - induction l as [|x l IH]; intros H; [constructor|].
    simpl in H. destruct (in_dec dec x l) as [Hin|Hin].
    + pose proof (nodup_length_le dec l). lia.
    + constructor; [exact Hin|]. apply IH. simpl in H. lia.
  - intros H. now rewrite nodup_fixed_point.
Qed.

(** *** Reading time *)

Lemma round_div_200 (wc : Z) :
  exists q r,
    wc = 200 * q + r /\ 0 <= r < 200
    /\ _calculate_reading_time wc
       = if 2 * r <? 200 then q
         else if 200 <? 2 * r then q + 1
         else if Z.even q then q else q + 1.
Proof.
  exists (wc / 200), (wc mod 200). split; [apply Z.div_mod; lia|].
  split; [apply Z.mod_pos_bound; lia | reflexivity].
Qed.

(** The rounded reading time is the quotient of the word count by 200
    to within half a minute. *)
Lemma reading_time_near (wc : Z) :
  -100 <= wc - 200 * _calculate_reading_time wc <= 100.
Proof.
  destruct (round_div_200 wc) as (q & r & -> & Hr & ->).
  destruct (Z.ltb_spec (2 * r) 200); [lia|].
  destruct (Z.ltb_spec 200 (2 * r)); [lia|].
  destruct (Z.even q); lia.
Qed.

Lemma reading_time_window (wc : Z) :
  5 <= _calculate_reading_time wc <= 7 <-> 901 <= wc <= 1499.
Proof.
  destruct (round_div_200 wc) as (q & r & -> & Hr & ->).
  split.
  - intros H.
    assert (Hq : q = 3 \/ q = 4 \/ q = 5 \/ q = 6 \/ q = 7).
    { destruct (Z.ltb_spec (2 * r) 200); [lia|].
      destruct (Z.ltb_spec 200 (2 * r)); [lia|].
      destruct (Z.even q); lia. }
    destruct Hq as [->|[->|[->|[->| ->]]]];
      (destruct (Z.ltb_spec (2 * r) 200); [lia|]);
      (destruct (Z.ltb_spec 200 (2 * r)); [lia|]);
      simpl in H; lia.
  - intros H.
    assert (Hq : q = 4 \/ q = 5 \/ q = 6 \/ q = 7) by lia.
    destruct Hq as [->|[->|[->| ->]]];
      (destruct (Z.ltb_spec (2 * r) 200); [lia|]);
      (destruct (Z.ltb_spec 200 (2 * r)); [lia|]);
      simpl; lia.
Qed.

Lemma reading_time_errors_nil (rt : Z) :
  _validate_reading_time rt = [] <-> 5 <= rt <= 7.
Proof.
  unfold _validate_reading_time, MIN_READING_TIME, MAX_READING_TIME.
  destruct (Z.ltb_spec rt 5); [split; [discriminate | lia]|].
  destruct (Z.ltb_spec 7 rt); [split; [discriminate | lia]|].
  split; [lia | reflexivity].
Qed.

Lemma word_count_errors_nil (wc : Z) :
  _validate_word_count wc = [] <-> 800 <= wc <= 1200.
Proof.
  unfold _validate_word_count, MIN_WORD_COUNT, MAX_WORD_COUNT.
  destruct (Z.ltb_spec wc 800); [split; [discriminate | lia]|].
  destruct (Z.ltb_spec 1200 wc); [split; [discriminate | lia]|].
  split; [lia | reflexivity].
Qed.

Lemma structure_errors_nil (content : str) :
  _validate_structure content = []
  <-> Regex.findall_count_heading 1 content = 1%nat
      /\ (1 <= Regex.findall_count_heading 2 content)%nat.
Proof.
  unfold _validate_structure.
  destruct (Nat.eqb_spec (Regex.findall_count_heading 1 content) 0) as [H1|H1];
    [|destruct (Nat.ltb_spec 1 (Regex.findall_count_heading 1 content)) as [H1'|H1']];
    destruct (Nat.eqb_spec (Regex.findall_count_heading 2 content) 0) as [H2|H2];
    simpl; (split; [try discriminate; intros _; lia | try (intros; lia); reflexivity]).
Qed.

(** *** Summaries *)

Definition conforming_takeaway (t : str) : bool :=
  (50 <=? length t)%nat && negb (is_empty (strip t)).

Lemma takeaway_errors_conforming (it : nat * str) :
  no_errors (SummaryFacts.takeaway_errors it) = conforming_takeaway (snd it).
Proof.
  unfold SummaryFacts.takeaway_errors, conforming_takeaway.
  destruct (Nat.ltb_spec (length (snd it)) 50);
    destruct (Nat.leb_spec 50 (length (snd it))); try lia;
    destruct (is_empty (strip (snd it))); reflexivity.
Qed.

(** *** Quizzes *)

Definition well_formed (q : Question) : bool :=
  match question_text q, options q, correct_index q with
  | Some text, Some opts, Some index =>
      (length opts =? 4)%nat && ((0 <=? index) && (index <=? 3))
      && negb (is_empty (strip text))
      && forallb (fun o => negb (is_empty (strip o))) opts
  | _, _, _ => false
  end.

Lemma question_errors_well_formed (it : nat * Question) :
  no_errors (IndependenceFacts.question_errors it) = well_formed (snd it).
Proof.
  destruct it as [i [text opts index diff]].
  unfold IndependenceFacts.question_errors, well_formed. cbn [fst snd question_text options correct_index].
  destruct text as [text|]; [|reflexivity].
  destruct opts as [opts|]; [|reflexivity].
  destruct index as [index|]; [|reflexivity].
  rewrite !no_errors_app, no_errors_flat_map.
  rewrite <- (forallb_enumerate (fun o => negb (is_empty (strip o))) opts 0).
  assert (Ho : forallb (fun x => no_errors (IndependenceFacts.option_errors i x))
                 (enumerate 0 opts)
               = forallb (fun it => negb (is_empty (strip (snd it)))) (enumerate 0 opts)).
  { apply forallb_pointwise. intros [j o]. unfold IndependenceFacts.option_errors. simpl.
    destruct (is_empty (strip o)); reflexivity. }
  rewrite Ho.
  destruct (length opts =? 4)%nat; destruct (0 <=? index); destruct (index <=? 3);
    destruct (is_empty (strip text)); reflexivity.
Qed.

Lemma count_errors_in_range (errs : list str) (n lo hi : Z) (few many : str) :
  errs = (if n <? lo then [few] else if hi <? n then [many] else []) ->
  no_errors errs = (lo <=? n) && (n <=? hi).
Proof.
  intros ->.
  destruct (Z.ltb_spec n lo); destruct (Z.leb_spec lo n); try lia; [reflexivity|].
  destruct (Z.ltb_spec hi n); destruct (Z.leb_spec n hi); try lia; reflexivity.
Qed.

Lemma validate_quiz_valid (questions : list Question) (lo hi : Z) :
  valid (validate_quiz questions lo hi)
  = no_errors (errors (validate_quiz questions lo hi)).
Proof.
  unfold validate_quiz.
  rewrite (fold_left_appends quiz_body IndependenceFacts.question_errors
             IndependenceFacts.question_warnings IndependenceFacts.quiz_body_appends).
  reflexivity.
Qed.

Lemma summary_valid_eq (takeaways : list str) (lo hi : Z) :
  valid (validate_summary takeaways lo hi)
  = (lo <=? Z.of_nat (length takeaways)) && (Z.of_nat (length takeaways) <=? hi)
    && forallb conforming_takeaway takeaways.
Proof.
  destruct (SummaryFacts.validate_summary_lists takeaways lo hi) as (He & _ & Hv).
  rewrite Hv, He, no_errors_app, no_errors_flat_map. f_equal.
  - eapply count_errors_in_range. reflexivity.
  - rewrite <- (forallb_enumerate conforming_takeaway takeaways 1).
    apply forallb_pointwise. intros it. apply takeaway_errors_conforming.
Qed.

(** [validate_summary] accepts a list exactly when its length is within
    the bounds and every takeaway has at least 50 characters and is not
    blank; a takeaway of more than 150 characters does not make it
    invalid. *)
Theorem summary_valid_iff (takeaways : list str) (lo hi : Z) :
  valid (validate_summary takeaways lo hi) = true
  <-> lo <= Z.of_nat (length takeaways) <= hi
      /\ (forall t, In t takeaways ->
                    (50 <= length t)%nat /\ is_empty (strip t) = false).
Proof.
  rewrite summary_valid_eq, !andb_true_iff, !Z.leb_le, forallb_forall.
  unfold conforming_takeaway.
  split.
  - intros [H Hall]. split; [exact H|]. intros t Ht. specialize (Hall t Ht).
    apply andb_true_iff in Hall as [H1 H2]. apply Nat.leb_le in H1.
    apply negb_true_iff in H2. now split.
  - intros [H Hall]. split; [exact H|]. intros t Ht. destruct (Hall t Ht) as [H1 H2].
    apply andb_true_iff. split; [now apply Nat.leb_le | now apply negb_true_iff].
Qed.

Lemma quiz_valid_eq (questions : list Question) (lo hi : Z) :
  valid (validate_quiz questions lo hi)
  = (lo <=? Z.of_nat (length questions)) && (Z.of_nat (length questions) <=? hi)
    && forallb well_formed questions.
Proof.
  rewrite validate_quiz_valid, IndependenceFacts.validate_quiz_errors.
  rewrite no_errors_app, no_errors_flat_map. f_equal.
  - eapply count_errors_in_range. reflexivity.
  - rewrite <- (forallb_enumerate well_formed questions 1).
    apply forallb_pointwise. intros it. apply question_errors_well_formed.
Qed.

(** [validate_quiz] accepts a list exactly when its length is within the
    bounds and every question has its three required fields, four
    options, an index from 0 to 3, a non-blank text and non-blank
    options; difficulty and duplicate texts play no part. *)
Theorem quiz_valid_iff (questions : list Question) (lo hi : Z) :
  valid (validate_quiz questions lo hi) = true
  <-> lo <= Z.of_nat (length questions) <= hi
      /\ (forall q, In q questions ->
             exists text opts index,
               question_text q = Some text /\ options q = Some opts
               /\ correct_index q = Some index
               /\ length opts = 4%nat /\ 0 <= index <= 3
               /\ is_empty (strip text) = false
               /\ (forall o, In o opts -> is_empty (strip o) = false)).
Proof.
  rewrite quiz_valid_eq, !andb_true_iff, !Z.leb_le, forallb_forall.
  assert (Hwf : forall q,
             well_formed q = true
             <-> exists text opts index,
                 question_text q = Some text /\ options q = Some opts
                 /\ correct_index q = Some index
                 /\ length opts = 4%nat /\ 0 <= index <= 3
                 /\ is_empty (strip text) = false
                 /\ (forall o, In o opts -> is_empty (strip o) = false)).
  { intros [text opts index diff]. unfold well_formed.
    cbn [question_text options correct_index]. split.
    - destruct text as [text|]; [|discriminate].
      destruct opts as [opts|]; [|discriminate].
      destruct index as [index|]; [|discriminate].
      rewrite !andb_true_iff, Nat.eqb_eq, !Z.leb_le, negb_true_iff, forallb_forall.
      intros [[[H1 H2] H3] H4]. exists text, opts, index.
      repeat split; try assumption; try lia.
      intros o Ho. now apply negb_true_iff, H4.
    - intros (t & o & i & [= ->] & [= ->] & [= ->] & H1 & H2 & H3 & H4).
      rewrite !andb_true_iff, Nat.eqb_eq, !Z.leb_le, negb_true_iff, forallb_forall.
      repeat split; try assumption; try lia.
      intros x Hx. now apply negb_true_iff, H4. }
  split.
  - intros [H Hall]. split; [exact H|]. intros q Hq. now apply Hwf, Hall.
  - intros [H Hall]. split; [exact H|]. intros q Hq. now apply Hwf, Hall.
Qed.

Lemma booster_valid_eq (content booster_type : str) (lo hi : Z) :
  valid (validate_learning_booster content booster_type lo hi)
  = (lo <=? Z.of_nat (length content)) && (Z.of_nat (length content) <=? hi)
    && existsb (PyStr.eqb booster_type) valid_types
    && negb (is_empty (strip content)).
Proof.
  unfold validate_learning_booster. cbv zeta. cbn [valid].
  destruct (Z.ltb_spec (Z.of_nat (length content)) lo);
    destruct (Z.leb_spec lo (Z.of_nat (length content))); try lia;
    destruct (Z.ltb_spec hi (Z.of_nat (length content)));
    destruct (Z.leb_spec (Z.of_nat (length content)) hi); try lia;
    destruct (existsb (PyStr.eqb booster_type) valid_types);
    destruct (is_empty (strip content)); reflexivity.
Qed.

(** [validate_learning_booster] accepts a text exactly when its length
    is within the bounds, its type is one of the three valid types and
    it is not blank. *)
Theorem booster_valid_iff (content booster_type : str) (lo hi : Z) :
  valid (validate_learning_booster content booster_type lo hi) = true
  <-> lo <= Z.of_nat (length content) <= hi
      /\ In booster_type valid_types
      /\ is_empty (strip content) = false.
Proof.
  rewrite booster_valid_eq, !andb_true_iff, !Z.leb_le, negb_true_iff, existsb_exists.
  split.
  - intros [[H [x [Hx E]]] Hne]. apply PyStrFacts.eqb_eq in E as ->. tauto.
  - intros (H & Hin & Hne). repeat split; try tauto.
    exists booster_type. split; [exact Hin | apply PyStrFacts.eqb_refl].
Qed.

Section Chapter.

Variable md_parse : str -> MdOutcome.

(** [validate_chapter] accepts a text exactly when the markdown parser
    yields tokens, the text has one H1 heading and at least one H2
    heading, and its counted words lie between 901 and 1200: below 901
    the rounded reading time is under five minutes. *)
Theorem chapter_valid_iff (content : str) :
  valid (validate_chapter md_parse content) = true
  <-> (exists tokens, md_parse content = MdTokens (S tokens))
      /\ Regex.findall_count_heading 1 content = 1%nat
      /\ (1 <= Regex.findall_count_heading 2 content)%nat
      /\ 901 <= Z.of_nat (_count_words content) <= 1200.
Proof.
  rewrite (ValidatorFacts.validate_chapter_valid md_parse),
    (ValidatorFacts.validate_chapter_errors md_parse).
  rewrite !no_errors_app, !andb_true_iff, !no_errors_nil.
  rewrite structure_errors_nil, word_count_errors_nil, reading_time_errors_nil,
    reading_time_window.
  assert (Hmd : _validate_markdown_syntax md_parse content = []
                <-> exists tokens, md_parse content = MdTokens (S tokens)).
  { unfold _validate_markdown_syntax.
    destruct (md_parse content) as [[|n]|e]; simpl.
    - split; [discriminate | intros [t Ht]; discriminate].
    - split; [intros _; now exists n | reflexivity].
    - split; [discriminate | intros [t Ht]; discriminate]. }
  rewrite Hmd. split.
  - intros (H1 & H2 & H3 & H4). repeat split; try tauto; lia.
  - intros (H1 & H2 & H3 & H4). repeat split; try tauto; lia.
Qed.

End Chapter.

(** The reading time is monotone in the word count and differs from the
    exact quotient by 200 by at most half a minute. *)
Lemma reading_time_monotone_and_near (a b : Z) :
  (a <= b -> _calculate_reading_time a <= _calculate_reading_time b)
  /\ -100 <= a - 200 * _calculate_reading_time a <= 100.
Proof.
  split; [|apply reading_time_near].
  intros Hab. pose proof (reading_time_near a) as Ha. pose proof (reading_time_near b) as Hb.
  destruct (Z.le_gt_cases (_calculate_reading_time a) (_calculate_reading_time b))
    as [H|H]; [exact H|].
  assert (a = b) by lia. subst b. lia.
Qed.

(** A quiz gets the warning about duplicate questions exactly when two
    of its questions have the same text, a missing text counting as the
    empty one; the warning never makes the quiz invalid. *)
Lemma quiz_duplicate_warning (questions : list Question) (lo hi : Z) :
  let texts :=
    map (fun q => match question_text q with Some t => t | None => [] end) questions in
  (In (lit "Duplicate questions detected") (warnings (validate_quiz questions lo hi))
   <-> ~ NoDup texts)
  /\ ~ In (lit "Duplicate questions detected") (errors (validate_quiz questions lo hi)).
Proof.
  intros texts. split.
  - unfold validate_quiz.
    rewrite (fold_left_appends quiz_body IndependenceFacts.question_errors
               IndependenceFacts.question_warnings IndependenceFacts.quiz_body_appends).
    cbn [warnings]. fold texts.
    assert (Hq : forall it, ~ In (lit "Duplicate questions detected")
                              (IndependenceFacts.question_warnings it)).
    { intros [i [text opts index diff]]. unfold IndependenceFacts.question_warnings.
      cbn [fst snd question_text options correct_index difficulty].
      destruct text; [|tauto]. destruct opts; [|tauto]. destruct index; [|tauto].
      destruct diff as [d|]; [|tauto].
      destruct (negb (existsb (PyStr.eqb d) valid_difficulties)); [|tauto].
      intros [H|[]]. apply (f_equal (fun s => nth 0 s 0%N)) in H. discriminate H. }
    assert (Hw : ~ In (lit "Duplicate questions detected")
                   (flat_map IndependenceFacts.question_warnings (enumerate 1 questions))).
    { rewrite in_flat_map. intros (it & _ & H). exact (Hq it H). }
    pose proof (nodup_length_iff str_eq_dec texts) as Hlen.
    destruct (Nat.eqb_spec (length texts) (length (nodup str_eq_dec texts))) as [E|E];
      cbn [negb]; simpl.
    + split; [intros H; rewrite app_nil_r in H || idtac; contradiction (Hw H)|].
      intros H. exfalso. apply H, Hlen. congruence.
    + split; [intros _ H; apply E; symmetry; now apply Hlen|].
      intros _. apply in_or_app. right. now left.
  - rewrite IndependenceFacts.validate_quiz_errors. intros H.
    apply in_app_or in H as [H|H].
    + unfold IndependenceFacts.question_count_errors in H.
      destruct (Z.of_nat (length questions) <? lo);
        [|destruct (hi <? Z.of_nat (length questions))];
        simpl in H; try contradiction; destruct H as [H|[]];
        apply (f_equal (fun s => nth 0 s 0%N)) in H; discriminate H.
    + apply in_flat_map in H as ([i [text opts index diff]] & _ & H).
      unfold IndependenceFacts.question_errors in H.
      cbn [fst snd question_text options correct_index] in H.
      assert (Hm : forall f, ~ In (lit "Duplicate questions detected")
                               [lit "Question " ++ of_nat i ++ lit ": missing '" ++ lit f
                                ++ lit "' field"]).
      { intros f [E|[]]. apply (f_equal (fun s => nth 0 s 0%N)) in E. discriminate E. }
      destruct text as [text|]; [|exact (Hm _ H)].
      destruct opts as [opts|]; [|exact (Hm _ H)].
      destruct index as [index|]; [|exact (Hm _ H)].
      repeat (apply in_app_or in H as [H|H]).
      * destruct (negb (length opts =? 4)%nat); [|contradiction].
        destruct H as [H|[]]. apply (f_equal (fun s => nth 0 s 0%N)) in H. discriminate H.
      * destruct (negb ((0 <=? index) && (index <=? 3))); [|contradiction].
        destruct H as [H|[]]. apply (f_equal (fun s => nth 0 s 0%N)) in H. discriminate H.
      * destruct (is_empty (strip text)); [|contradiction].
        destruct H as [H|[]]. apply (f_equal (fun s => nth 0 s 0%N)) in H. discriminate H.
      * apply in_flat_map in H as ([j o] & _ & H).
        unfold IndependenceFacts.option_errors in H. simpl in H.
        destruct (is_empty (strip o)); [|contradiction].
        destruct H as [H|[]]. apply (f_equal (fun s => nth 0 s 0%N)) in H. discriminate H.
Qed.

End ValidityFacts.

(** ** Stripping and counting words *)

Module StripFacts.

Definition blank (s : str) : bool := forallb isspace s.

Lemma lstrip_nonspace (c : char) (t : str) :
  isspace c = false -> lstrip (c :: t) = c :: t.
Proof. intros H. simpl. now rewrite H. Qed.

Lemma lstrip_blank_app (ws s : str) : blank ws = true -> lstrip (ws ++ s) = lstrip s.
Proof.
  induction ws as [|c ws IH]; intros H; [reflexivity|].
  simpl in H. apply andb_true_iff in H as [Hc H]. simpl. rewrite Hc. now apply IH.
Qed.

Lemma lstrip_split (s : str) :
  exists ws, s = ws ++ lstrip s /\ blank ws = true.
Proof.
  induction s as [|c s (ws & IH & Hws)].
  - now exists [].
  - simpl. destruct (isspace c) eqn:E.
    + exists (c :: ws). simpl. rewrite E, Hws. split; [now f_equal | reflexivity].
    + now exists [].
Qed.

Lemma lstrip_head (s : str) :
  lstrip s = [] \/ exists c t, lstrip s = c :: t /\ isspace c = false.
Proof.
  induction s as [|c s IH]; [now left|].
  simpl. destruct (isspace c) eqn:E; [exact IH|].
  right. now exists c, s.
Qed.

Lemma lstrip_idempotent (s : str) : lstrip (lstrip s) = lstrip s.
Proof.
  destruct (lstrip_head s) as [->|(c & t & -> & H)]; [reflexivity|].
  now apply lstrip_nonspace.
Qed.

Lemma blank_rev (s : str) : blank (rev s) = blank s.
Proof.
  unfold blank. induction s as [|c s IH]; [reflexivity|].
  simpl. rewrite forallb_app, IH. simpl. rewrite andb_true_r. apply andb_comm.
Qed.

Lemma rstrip_split (s : str) :
  exists ws, s = rstrip s ++ ws /\ blank ws = true.
Proof.
  destruct (lstrip_split (rev s)) as (ws & H & Hws).
  exists (rev ws). split; [|now rewrite blank_rev].
  unfold rstrip. rewrite <- rev_app_distr, <- H. now rewrite rev_involutive.
Qed.

Lemma rstrip_blank_app (s ws : str) : blank ws = true -> rstrip (s ++ ws) = rstrip s.
Proof.
  intros H. unfold rstrip. rewrite rev_app_distr, lstrip_blank_app; [reflexivity|].
  now rewrite blank_rev.
Qed.

Lemma rstrip_nonspace (s : str) (c : char) :
  isspace c = false -> rstrip (s ++ [c]) = s ++ [c].
Proof.
  intros H. unfold rstrip. rewrite rev_app_distr. simpl. rewrite H.
  simpl. now rewrite rev_involutive.
Qed.

Lemma rstrip_idempotent (s : str) : rstrip (rstrip s) = rstrip s.
Proof. unfold rstrip. now rewrite rev_involutive, lstrip_idempotent. Qed.

(** Stripping the right end leaves the left end as it was. *)
Lemma lstrip_rstrip (s : str) : lstrip s = s -> lstrip (rstrip s) = rstrip s.
Proof.
  intros Hs. destruct (rstrip_split s) as (ws & H & Hws).
  destruct (rstrip s) as [|c t] eqn:E; [reflexivity|].
  apply lstrip_nonspace.
  rewrite H in Hs. simpl in Hs.
  destruct (isspace c) eqn:Ec; [|reflexivity].
  exfalso. pose proof (lstrip_split (t ++ ws)) as (ws' & H' & _).
  apply (f_equal (@length char)) in Hs. apply (f_equal (@length char)) in H'.
  simpl in Hs. rewrite !length_app in *. lia.
Qed.

Lemma strip_lstrip_fixed (s : str) : lstrip (strip s) = strip s.
Proof. unfold strip. apply lstrip_rstrip, lstrip_idempotent. Qed.

Lemma strip_rstrip_fixed (s : str) : rstrip (strip s) = strip s.
Proof. unfold strip. apply rstrip_idempotent. Qed.

Lemma strip_idempotent (s : str) : strip (strip s) = strip s.
Proof.
  unfold strip at 1. now rewrite strip_lstrip_fixed, strip_rstrip_fixed.
Qed.

(** A text between whitespace, whose first and last characters are not
    whitespace, is what [strip] returns. *)
Lemma strip_core (ws1 ws2 mid : str) (c1 c2 : char) :
  blank ws1 = true -> blank ws2 = true ->
  isspace c1 = false -> isspace c2 = false ->
  strip (ws1 ++ (c1 :: mid ++ [c2]) ++ ws2) = c1 :: mid ++ [c2].
Proof.
  intros H1 H2 Hc1 Hc2. unfold strip.
  rewrite lstrip_blank_app by exact H1.
  change ((c1 :: mid ++ [c2]) ++ ws2) with (c1 :: (mid ++ [c2]) ++ ws2).
  rewrite lstrip_nonspace by exact Hc1.
  change (c1 :: (mid ++ [c2]) ++ ws2) with ((c1 :: mid ++ [c2]) ++ ws2).
  rewrite rstrip_blank_app by exact H2.
  change (c1 :: mid ++ [c2]) with ((c1 :: mid) ++ [c2]).
  now apply rstrip_nonspace.
Qed.

Lemma lstrip_blank (ws : str) : blank ws = true -> lstrip ws = [].
Proof.
  intros H. rewrite <- (app_nil_r ws). now rewrite lstrip_blank_app.
Qed.

Lemma strip_blank_app (ws1 ws2 s : str) :
  blank ws1 = true -> blank ws2 = true -> strip (ws1 ++ s ++ ws2) = strip s.
Proof.
  intros H1 H2. unfold strip. rewrite lstrip_blank_app by exact H1.
  destruct (lstrip_split s) as (ws & Hs & Hws).
  destruct (lstrip_head s) as [E|(c & t & E & Hc)].
  - rewrite E in *. rewrite app_nil_r in Hs. subst ws.
    rewrite lstrip_blank; [reflexivity|].
    unfold blank in *. now rewrite forallb_app, Hws, H2.
  - assert (H : lstrip (s ++ ws2) = lstrip s ++ ws2).
    { rewrite Hs at 1. rewrite <- app_assoc, lstrip_blank_app by exact Hws.
      rewrite E. simpl. now rewrite Hc. }
    rewrite H. now apply rstrip_blank_app.
Qed.

(** *** Words *)

(** The number of words of [s], given whether the text before [s] ends
    inside a word. *)
Fixpoint words_from (in_word : bool) (s : str) : nat :=
  match s with
  | [] => if in_word then 1 else 0
  | c :: t =>
      if isspace c then (if in_word then 1 else 0) + words_from false t
      else words_from true t
  end.

Lemma split_acc_length (w s : str) :
  length (split_acc w s) = words_from (negb (is_empty w)) s.
Proof.
  revert w. induction s as [|c s IH]; intros w; simpl.
  - destruct w; reflexivity.
  - destruct (isspace c).
    + destruct w; simpl; now rewrite IH.
    + now rewrite IH.
Qed.

Lemma split_length (s : str) : length (split s) = words_from false s.
Proof. apply split_acc_length. Qed.

Lemma words_from_step (s : str) :
  (words_from false s <= words_from true s <= words_from false s + 1)%nat.
Proof. destruct s as [|c s]; simpl; [lia|]. destruct (isspace c); lia. Qed.

Lemma words_from_ge (b : bool) (s : str) :
  ((if b then 1 else 0) <= words_from b s)%nat.
Proof.
  revert b. induction s as [|c s IH]; intros b; simpl; [lia|].
  destruct (isspace c); [lia|]. specialize (IH true). simpl in IH. destruct b; lia.
Qed.

(** [a] is [b] with some characters left out. *)
Inductive subseq : str -> str -> Prop :=
| subseq_nil (b : str) : subseq [] b
| subseq_skip (c : char) (a b : str) : subseq a b -> subseq a (c :: b)
| subseq_keep (c : char) (a b : str) : subseq a b -> subseq (c :: a) (c :: b).

(** Leaving characters out never adds a word. *)
Lemma words_from_subseq (a b : str) :
  subseq a b -> forall x, (words_from x a <= words_from x b)%nat.
Proof.
  induction 1 as [b|c a b H IH|c a b H IH]; intros x.
  - apply words_from_ge.
  - simpl. pose proof (words_from_step a). pose proof (IH false). pose proof (IH true).
    destruct (isspace c); destruct x; lia.
  - simpl. pose proof (IH false). pose proof (IH true). destruct (isspace c); lia.
Qed.

Lemma subseq_refl (s : str) : subseq s s.
Proof. induction s; constructor; assumption. Qed.

Lemma sub_empty_subseq (match_len : str -> option nat) (s : str) :
  forall skip, subseq (Regex.sub_empty match_len skip s) s.
Proof.
  induction s as [|c s IH]; intros skip; simpl; [constructor|].
  destruct skip; [|constructor; apply IH].
  destruct (match_len (c :: s)); constructor; apply IH.
Qed.

Lemma filter_subseq (p : char -> bool) (s : str) : subseq (filter p s) s.
Proof.
  induction s as [|c s IH]; simpl; [constructor|].
  destruct (p c); constructor; assumption.
Qed.

(** The validator never counts more words than the generator: it counts
    the words that are left after fenced blocks, inline code and
    markdown punctuation have been taken out.  So a text the generator
    finds within its upper limit never gets the validator's error for
    too many words. *)
Theorem validator_counts_at_most_generator_words (content : str) :
  (Z.of_nat (Validator._count_words content) <= ChapterGenerator._count_words content)%Z
  /\ ((ChapterGenerator._count_words content <= 1200)%Z ->
      forall e, In e (Validator._validate_word_count
                        (Z.of_nat (Validator._count_words content))) ->
                startswith (lit "Word count too low: ") e = true).
Proof.
  assert (Hle : (Validator._count_words content <= length (split content))%nat).
  { unfold Validator._count_words. rewrite !split_length.
    eapply Nat.le_trans; [apply words_from_subseq, filter_subseq|].
    eapply Nat.le_trans; [apply words_from_subseq, sub_empty_subseq|].
    apply words_from_subseq, sub_empty_subseq. }
  unfold ChapterGenerator._count_words. split; [lia|].
  intros Hmax e. unfold Validator._validate_word_count, Validator.MIN_WORD_COUNT,
    Validator.MAX_WORD_COUNT.
  destruct (Z.ltb_spec (Z.of_nat (Validator._count_words content)) 800).
  - simpl. intros [<-|[]]. reflexivity.
  - destruct (Z.ltb_spec 1200 (Z.of_nat (Validator._count_words content))); [lia|].
    intros [].
Qed.

End StripFacts.

(** ** Code fences around an answer, and sections of a chapter *)

Module FenceFacts.

Import StripFacts.

Lemma endswith_app (p s : str) : endswith p (s ++ p) = true.
Proof. unfold endswith. rewrite rev_app_distr. apply PyStrFacts.startswith_app. Qed.

Lemma firstn_drop_suffix (s p : str) : firstn (length (s ++ p) - length p) (s ++ p) = s.
Proof.
  rewrite length_app. replace (length s + length p - length p)%nat with (length s) by lia.
  rewrite firstn_app, Nat.sub_diag, firstn_all. simpl. apply app_nil_r.
Qed.

Lemma startswith_json_fence (s : str) :
  startswith (lit "```json") s = true -> startswith Regex.fence s = true.
Proof.
  intros H. apply PyStrFacts.startswith_prefix in H as [r ->].
  change (lit "```json" ++ r) with (Regex.fence ++ lit "json" ++ r).
  apply PyStrFacts.startswith_app.
Qed.

Lemma no_json_before_fence (body : str) :
  startswith (lit "json") body = false ->
  startswith (lit "json") (body ++ Regex.fence) = false.
Proof.
  intros Hb. destruct (startswith (lit "json") (body ++ Regex.fence)) eqn:E;
    [|reflexivity].
  apply PyStrFacts.startswith_prefix in E as [r E].
  destruct body as [|a [|b [|c [|d body]]]]; try discriminate E.
  injection E as -> -> -> -> _.
  change (106%N :: 115%N :: 111%N :: 110%N :: body) with (lit "json" ++ body) in Hb.
  rewrite PyStrFacts.startswith_app in Hb. discriminate.
Qed.

(** The text between the fences, once the answer is stripped. *)
Lemma strip_fenced (ws1 ws2 opening body : str) :
  blank ws1 = true -> blank ws2 = true ->
  strip (ws1 ++ (Regex.fence ++ opening ++ body ++ Regex.fence) ++ ws2)
  = Regex.fence ++ opening ++ body ++ Regex.fence.
Proof.
  intros H1 H2.
  replace (Regex.fence ++ opening ++ body ++ Regex.fence)
    with (Regex.BACKTICK
            :: ([Regex.BACKTICK; Regex.BACKTICK] ++ opening ++ body
                ++ [Regex.BACKTICK; Regex.BACKTICK]) ++ [Regex.BACKTICK]).
  - apply strip_core; auto.
  - unfold Regex.fence. simpl. rewrite <- !app_assoc. reflexivity.
Qed.

(** What the three parsers give to [json.loads].  An answer wrapped in a
    fence that opens with [```json], or in a plain fence, possibly with
    whitespace around it, is reduced to the stripped text between the
    fences; an answer that neither starts nor ends with a fence is
    only stripped. *)
Theorem strip_code_fence_unwraps (ws1 ws2 body : str) :
  blank ws1 = true -> blank ws2 = true ->
  (startswith Regex.fence (body ++ Regex.fence) = false ->
   strip_code_fence (ws1 ++ (lit "```json" ++ body ++ lit "```") ++ ws2) = strip body)
  /\ (startswith (lit "json") body = false ->
      strip_code_fence (ws1 ++ (lit "```" ++ body ++ lit "```") ++ ws2) = strip body)
  /\ (startswith Regex.fence (strip body) = false ->
      endswith Regex.fence (strip body) = false ->
      strip_code_fence body = strip body).
Proof.
  intros H1 H2. split; [|split].
  - intros Hb. unfold strip_code_fence.
    change (lit "```json" ++ body ++ lit "```")
      with (Regex.fence ++ lit "json" ++ body ++ Regex.fence).
    rewrite (strip_fenced ws1 ws2 (lit "json") body H1 H2).
    change (startswith (lit "```json") (Regex.fence ++ lit "json" ++ body ++ Regex.fence))
      with (startswith [] (body ++ Regex.fence)).
    assert (E : startswith [] (body ++ Regex.fence) = true) by now destruct body.
    rewrite E.
    change (skipn 7 (Regex.fence ++ lit "json" ++ body ++ Regex.fence))
      with (body ++ Regex.fence).
    change (lit "```") with Regex.fence.
    rewrite Hb, endswith_app.
    change 3%nat with (length Regex.fence). now rewrite firstn_drop_suffix.
  - intros Hb. unfold strip_code_fence.
    change (lit "```" ++ body ++ lit "```")
      with (Regex.fence ++ [] ++ body ++ Regex.fence).
    rewrite (strip_fenced ws1 ws2 [] body H1 H2). cbn [app].
    change (startswith (lit "```json") (Regex.fence ++ body ++ Regex.fence))
      with (startswith (lit "json") (body ++ Regex.fence)).
    rewrite (no_json_before_fence body Hb).
    change (lit "```") with Regex.fence.
    rewrite PyStrFacts.startswith_app.
    change (skipn 3 (Regex.fence ++ body ++ Regex.fence)) with (body ++ Regex.fence).
    rewrite endswith_app.
    change 3%nat with (length Regex.fence). now rewrite firstn_drop_suffix.
  - intros Hs He. unfold strip_code_fence.
    destruct (startswith (lit "```json") (strip body)) eqn:Ej.
    + apply startswith_json_fence in Ej. congruence.
    + change (lit "```") with Regex.fence. rewrite Hs, He. apply strip_idempotent.
Qed.

(** *** Sections *)

Lemma re_split_no_match (match_len : str -> option nat) (s : str) :
  (forall a b, s = a ++ b -> match_len b = None) ->
  forall cur, BoosterGenerator.re_split match_len 0 cur s = [rev cur ++ s].
Proof.
  induction s as [|c t IH]; intros H cur; simpl.
  - now rewrite app_nil_r.
  - rewrite (H [] (c :: t) eq_refl). rewrite IH.
    + simpl. now rewrite <- app_assoc.
    + intros a b ->. apply (H (c :: a) b). reflexivity.
Qed.

(** Every section [_extract_sections] returns is non-empty and has no
    whitespace at either end; a text without a line that starts with
    two hash marks followed by whitespace has at most one section, the
    stripped text itself. *)
Theorem extract_sections_are_stripped (content : str) :
  (forall section, In section (BoosterGenerator._extract_sections content) ->
                   section <> [] /\ strip section = section)
  /\ ((forall a b, content = a ++ b -> BoosterGenerator.h2_break_len b = None) ->
      BoosterGenerator._extract_sections content
      = if is_empty (strip content) then [] else [strip content]).
Proof.
  split.
  - intros section. unfold BoosterGenerator._extract_sections.
    rewrite in_map_iff. intros (s & <- & Hin). apply filter_In in Hin as [_ Hne].
    split; [|apply strip_idempotent].
    intros E. rewrite E in Hne. discriminate.
  - intros H. unfold BoosterGenerator._extract_sections.
    rewrite (re_split_no_match _ content H []). simpl.
    destruct (is_empty (strip content)); reflexivity.
Qed.

End FenceFacts.

(** ** Runs of the generators *)

Module RangeMembers.

Open Scope Z_scope.

Lemma range_In (lo hi a : Z) : In a (range lo hi) <-> lo <= a < hi.
Proof.
  unfold range. rewrite in_map_iff. split.
  - intros (i & <- & Hi). apply in_seq in Hi. lia.
  - intros H. exists (Z.to_nat (a - lo)). split; [lia|]. apply in_seq. lia.
Qed.

End RangeMembers.

Module ChapterRunFacts.

Import Curriculum ChapterGenerator.
Open Scope Z_scope.

Section Generate.

Variable provider : nat -> LLMClient.Request -> LLMClient.ProviderOutcome.
Variable random : nat -> Q.
Variable get_chapter_generation_prompt : ChapterDefinition -> str.
Variable system : str.
Variable self : ChapterGenerator.

Let loop := generate_chapter_from provider random system self.

(** What holds of every result the loop returns. *)
Definition result_ok (chapter : ChapterDefinition) (attempts : list Z)
  (r : ChapterGenerationResult) : Prop :=
  In (generation_attempts r) attempts
  /\ chapter_number r = number chapter
  /\ chapter_title r = title chapter
  /\ word_count r = _count_words (content r)
  /\ validation_passed r = _is_word_count_valid (word_count r)
  /\ (enforce_word_count self = true -> validation_passed r = false ->
      max_generation_attempts self <= generation_attempts r).

Lemma chapter_result_ok_later (chapter : ChapterDefinition) (a : Z) (attempts : list Z)
  (r : ChapterGenerationResult) :
  result_ok chapter attempts r -> result_ok chapter (a :: attempts) r.
Proof. unfold result_ok. intros (H & Hrest). split; [now right | exact Hrest]. Qed.

Lemma chapter_loop_result_ok (attempts : list Z) (chapter : ChapterDefinition) (model : str) :
  forall user_prompt st r st',
    loop attempts chapter model user_prompt st = (inr r, st') ->
    result_ok chapter attempts r.
Proof.
  induction attempts as [|attempt rest IH]; intros user_prompt st r st'.
  - discriminate.
  - destruct (LLMClient.generate_with_rate_limit_buffer provider random (llm_client self)
                (LLMClient.mkRequest user_prompt (Some system) model 4096) st)
      as [[e|result] st1] eqn:Hcall.
    + unfold loop. cbn [generate_chapter_from]. rewrite Hcall.
      destruct (caught_by e [GenerationError]); [|discriminate].
      destruct (max_generation_attempts self <=? attempt); [discriminate|].
      intros H. apply chapter_result_ok_later. eapply IH, H.
    + unfold loop.
      rewrite (ChapterFacts.loop_step provider random system self attempt rest chapter
                 model user_prompt st st1 result Hcall).
      cbv zeta.
      destruct (enforce_word_count self) eqn:Henf;
        destruct (_is_word_count_valid (_count_words (LLMClient.content result))) eqn:Hv;
        destruct (Z.ltb_spec attempt (max_generation_attempts self)) as [Hlt|Hge];
        cbn [andb negb];
        try (intros H; apply chapter_result_ok_later; eapply IH, H);
        intros [= <- <-]; unfold result_ok, ChapterFacts.accepted;
        cbn [generation_attempts chapter_number chapter_title word_count content
               validation_passed];
        repeat split; try (now left); try congruence; try lia.
Qed.

(** The requests one run of the loop adds to the log: each carries the
    prompt the loop was started with, possibly with text appended, and
    the same system prompt, model and token limit. *)
Definition requests_from (model user_prompt : str) (cap : nat)
  (st st' : LLMClient.State) : Prop :=
  exists reqs,
    LLMClient.sent st' = LLMClient.sent st ++ reqs
    /\ (length reqs <= cap)%nat
    /\ Forall (fun req =>
                 exists suffix,
                   req = LLMClient.mkRequest (user_prompt ++ suffix) (Some system)
                           model 4096) reqs.

Lemma requests_step (model p emphasis : str) (n cap : nat) (st st1 st' : LLMClient.State) :
  LLMClient.sent st1
  = LLMClient.sent st ++ repeat (LLMClient.mkRequest p (Some system) model 4096) n ->
  (n <= Z.to_nat (LLMClient.max_retries (llm_client self)))%nat ->
  requests_from model (p ++ emphasis) cap st1 st' ->
  requests_from model p (Z.to_nat (LLMClient.max_retries (llm_client self)) + cap) st st'.
Proof.
  intros H1 Hn (reqs & H2 & Hlen & Hall).
  exists (repeat (LLMClient.mkRequest p (Some system) model 4096) n ++ reqs).
  split; [now rewrite H2, H1, app_assoc|]. split.
  - rewrite length_app, repeat_length. lia.
  - apply Forall_app. split.
    + apply Forall_forall. intros req Hin. apply repeat_spec in Hin as ->.
      exists []. now rewrite app_nil_r.
    + eapply Forall_impl; [|exact Hall]. intros req [suffix ->].
      exists (emphasis ++ suffix). now rewrite app_assoc.
Qed.

Lemma requests_last (model p : str) (n cap : nat) (st st1 : LLMClient.State) :
  LLMClient.sent st1
  = LLMClient.sent st ++ repeat (LLMClient.mkRequest p (Some system) model 4096) n ->
  (n <= Z.to_nat (LLMClient.max_retries (llm_client self)))%nat ->
  requests_from model p (Z.to_nat (LLMClient.max_retries (llm_client self)) + cap) st st1.
Proof.
  intros H1 Hn.
  apply (requests_step model p [] n cap st st1 st1 H1 Hn).
  exists []. rewrite app_nil_r. repeat split; [simpl; lia | constructor].
Qed.

Lemma loop_requests (attempts : list Z) (chapter : ChapterDefinition) (model : str) :
  forall user_prompt st res st',
    loop attempts chapter model user_prompt st = (res, st') ->
    requests_from model user_prompt
      (length attempts * Z.to_nat (LLMClient.max_retries (llm_client self))) st st'.
Proof.
  induction attempts as [|attempt rest IH]; intros user_prompt st res st'.
  - intros [= <- <-]. exists []. rewrite app_nil_r. repeat split; [simpl; lia | constructor].
  - destruct (LLMClient.generate_with_rate_limit_buffer provider random (llm_client self)
                (LLMClient.mkRequest user_prompt (Some system) model 4096) st)
      as [[e|result] st1] eqn:Hcall;
      pose proof (ClientRunFacts.buffer_bounded provider random (llm_client self)
                    _ _ _ _ Hcall) as (n & Hsent & Hn);
      cbn [length Nat.mul].
    + unfold loop. cbn [generate_chapter_from]. rewrite Hcall.
      destruct (caught_by e [GenerationError]);
        [destruct (max_generation_attempts self <=? attempt)|];
        try (intros [= <- <-]; now apply (requests_last model user_prompt n)).
      intros H. apply IH in H.
      apply (requests_step model user_prompt [] n _ st st1 st' Hsent Hn).
      now rewrite app_nil_r.
    + unfold loop.
      rewrite (ChapterFacts.loop_step provider random system self attempt rest chapter
                 model user_prompt st st1 result Hcall).
      cbv zeta.
      destruct (enforce_word_count self
                && negb (_is_word_count_valid (_count_words (LLMClient.content result)))
                && (attempt <? max_generation_attempts self)).
      * intros H. apply IH in H. unfold _add_word_count_emphasis in H.
        eapply requests_step; eassumption.
      * intros [= <- <-]. now apply (requests_last model user_prompt n).
Qed.

Lemma generate_chapter_ok (chapter : ChapterDefinition) (st : LLMClient.State)
  (r : ChapterGenerationResult) (st' : LLMClient.State) :
  generate_chapter provider random get_chapter_generation_prompt system self chapter st
  = (inr r, st') ->
  result_ok chapter (range 1 (max_generation_attempts self + 1)) r.
Proof.
  unfold generate_chapter.
  destruct (LLMClient.get_model_for_task (lit "chapter")) as [e|model]; [discriminate|].
  apply chapter_loop_result_ok.
Qed.

End Generate.

(** A chapter that [generate_chapter] returns was produced on an attempt
    between 1 and [max_generation_attempts], carries the number and
    title of its definition and the whitespace word count of its text,
    and has [validation_passed] exactly when that count lies in
    [800, 1200]; with enforcement on, a chapter outside the range is
    only ever returned from the last attempt. *)
Theorem generate_chapter_result_invariants
  (provider : nat -> LLMClient.Request -> LLMClient.ProviderOutcome) (random : nat -> Q)
  (get_chapter_generation_prompt : ChapterDefinition -> str) (system : str)
  (self : ChapterGenerator) (chapter : ChapterDefinition) (st : LLMClient.State) :
  match fst (generate_chapter provider random get_chapter_generation_prompt system self
               chapter st) with
  | inl _ => True
  | inr r =>
      1 <= generation_attempts r <= max_generation_attempts self
      /\ chapter_number r = number chapter
      /\ chapter_title r = title chapter
      /\ word_count r = _count_words (content r)
      /\ validation_passed r = (800 <=? word_count r) && (word_count r <=? 1200)
      /\ (enforce_word_count self = true -> validation_passed r = false ->
          generation_attempts r = max_generation_attempts self)
  end.
Proof.
  unfold generate_chapter.
  destruct (LLMClient.get_model_for_task (lit "chapter")) as [e|model]; [exact I|].
  destruct (generate_chapter_from provider random system self
              (range 1 (max_generation_attempts self + 1)) chapter model
              (get_chapter_generation_prompt chapter) st) as [[e|r] st'] eqn:E;
    [exact I|].
  apply chapter_loop_result_ok in E as (Hin & H1 & H2 & H3 & H4 & H5). cbn [fst].
  apply RangeMembers.range_In in Hin.
  repeat split; try assumption; try lia.
  intros Henf Hv. specialize (H5 Henf Hv). lia.
Qed.

(** One call of [generate_chapter] sends at most
    [max_generation_attempts * max_retries] requests.  Each of them
    carries the chapter prompt, possibly with emphasis appended after
    it, the chapter system prompt, the chapter model and a limit of 4096
    tokens. *)
Theorem generate_chapter_request_budget
  (provider : nat -> LLMClient.Request -> LLMClient.ProviderOutcome) (random : nat -> Q)
  (get_chapter_generation_prompt : ChapterDefinition -> str) (system : str)
  (self : ChapterGenerator) (chapter : ChapterDefinition) (st : LLMClient.State) :
  let st' := snd (generate_chapter provider random get_chapter_generation_prompt system
                    self chapter st) in
  exists reqs,
    LLMClient.sent st' = LLMClient.sent st ++ reqs
    /\ (length reqs
        <= Z.to_nat (max_generation_attempts self)
           * Z.to_nat (LLMClient.max_retries (llm_client self)))%nat
    /\ Forall (fun req =>
                 exists emphasis,
                   req = LLMClient.mkRequest
                           (get_chapter_generation_prompt chapter ++ emphasis)
                           (Some system) LLMClient.MODEL_SONNET 4096) reqs.
Proof.
  intros st'. subst st'. unfold generate_chapter.
  change (LLMClient.get_model_for_task (lit "chapter")) with (@inr exn str LLMClient.MODEL_SONNET).
  cbv iota beta.
  destruct (generate_chapter_from provider random system self
              (range 1 (max_generation_attempts self + 1)) chapter LLMClient.MODEL_SONNET
              (get_chapter_generation_prompt chapter) st) as [res st'] eqn:E.
  apply loop_requests in E. cbn [snd].
  rewrite RangeFacts.range_length in E.
  replace (max_generation_attempts self + 1 - 1) with (max_generation_attempts self)
    in E by lia.
  exact E.
Qed.

End ChapterRunFacts.

(** ** Runs of the summary, quiz and booster generators *)

Module SummaryRunFacts.

Import SummaryGenerator.
Open Scope Z_scope.

(** Splits the goal along every test the loop body makes. *)
Ltac split_branches :=
  repeat match goal with
         | |- context [match ?x with inl _ => _ | inr _ => _ end] => destruct x eqn:?
         | |- context [let '(_, _) := ?x in _] => destruct x eqn:?
         | |- context [match ?x with (_, _) => _ end] => destruct x eqn:?
         | |- context [if ?c then _ else _] => destruct c eqn:?
         end.

Section Generate.

Variable provider : nat -> LLMClient.Request -> LLMClient.ProviderOutcome.
Variable random : nat -> Q.
Variable json_loads : str -> option json.
Variable system : str.
Variable self : SummaryGenerator.

Let loop := generate_summary_from provider random json_loads system self.

Definition result_ok (title : str) (number : Z) (attempts : list Z)
  (r : SummaryGenerationResult) : Prop :=
  In (generation_attempts r) attempts
  /\ chapter_number r = number
  /\ chapter_title r = title
  /\ validation_passed r = Validator.valid (Validator.validate_summary_default (takeaways r))
  /\ (enforce_validation self = true -> validation_passed r = false ->
      max_generation_attempts self <= generation_attempts r).

Lemma summary_result_ok_later (title : str) (number a : Z) (attempts : list Z)
  (r : SummaryGenerationResult) :
  result_ok title number attempts r -> result_ok title number (a :: attempts) r.
Proof. unfold result_ok. intros (H & Hrest). split; [now right | exact Hrest]. Qed.

Lemma summary_loop_result_ok (attempts : list Z) (title : str) (number : Z) (model : str) :
  forall user_prompt st r st',
    loop attempts title number model user_prompt st = (inr r, st') ->
    result_ok title number attempts r.
Proof.
  induction attempts as [|attempt rest IH]; intros user_prompt st r st'.
  - discriminate.
  - unfold loop. cbn [generate_summary_from]. cbv zeta.
    split_branches;
      try discriminate;
      try (intros H; apply summary_result_ok_later; eapply IH, H).
    + intros [= <- <-]. unfold result_ok.
      cbn [generation_attempts chapter_number chapter_title validation_passed takeaways].
      repeat split; try (now left).
      intros Henf Hv.
      match goal with
      | H : (attempt <? _) = false |- _ => apply Z.ltb_ge in H; exact H
      end.
    + intros [= <- <-]. unfold result_ok.
      cbn [generation_attempts chapter_number chapter_title validation_passed takeaways].
      repeat split; try (now left).
      intros Henf Hv. exfalso.
      match goal with
      | H : _ && negb _ = false |- _ => rewrite Henf, Hv in H; discriminate H
      end.
Qed.

End Generate.

(** A summary that [generate_summary] returns was produced on an attempt
    between 1 and [max_generation_attempts] and has [validation_passed]
    exactly when it holds 3 to 5 takeaways, each of at least 50
    characters and not blank; with enforcement on, a summary that fails
    validation is only ever returned from the last attempt. *)
Theorem generate_summary_result_invariants
  (provider : nat -> LLMClient.Request -> LLMClient.ProviderOutcome) (random : nat -> Q)
  (json_loads : str -> option json) (get_summary_generation_prompt : str -> str -> str)
  (system : str) (self : SummaryGenerator) (content title : str) (number : Z)
  (st : LLMClient.State) :
  match fst (generate_summary provider random json_loads get_summary_generation_prompt
               system self content title number st) with
  | inl _ => True
  | inr r =>
      1 <= generation_attempts r <= max_generation_attempts self
      /\ chapter_number r = number
      /\ chapter_title r = title
      /\ validation_passed r
         = (3 <=? Z.of_nat (length (takeaways r))) && (Z.of_nat (length (takeaways r)) <=? 5)
           && forallb ValidityFacts.conforming_takeaway (takeaways r)
      /\ (enforce_validation self = true -> validation_passed r = false ->
          generation_attempts r = max_generation_attempts self)
  end.
Proof.
  unfold generate_summary.
  destruct (LLMClient.get_model_for_task (lit "summary")) as [e|model]; [exact I|].
  destruct (generate_summary_from provider random json_loads system self
              (range 1 (max_generation_attempts self + 1)) title number model
              (get_summary_generation_prompt content title) st) as [[e|r] st'] eqn:E;
    [exact I|].
  apply summary_loop_result_ok in E as (Hin & H1 & H2 & H3 & H4). cbn [fst].
  apply RangeMembers.range_In in Hin.
  repeat split; try assumption; try lia.
  - rewrite H3. apply ValidityFacts.summary_valid_eq.
  - intros Henf Hv. specialize (H4 Henf Hv). lia.
Qed.

End SummaryRunFacts.

Module QuizRunFacts.

Import QuizGenerator.
Open Scope Z_scope.

Lemma as_questions_length (items : list json) (typed : list Validator.Question) :
  as_questions items = inr typed -> length typed = length items.
Proof.
  revert typed. induction items as [|item items IH]; intros typed; simpl.
  - now intros [= <-].
  - destruct (as_question item) as [e|q]; [discriminate|].
    destruct (as_questions items) as [e|qs]; [discriminate|].
    intros [= <-]. simpl. f_equal. now apply IH.
Qed.

Lemma init_num_questions (client : LLMClient.Client) (max_attempts : Z) (enforce : bool)
  (n : Z) :
  5 <= num_questions (init client max_attempts enforce n) <= 7.
Proof. unfold init. cbn [num_questions]. lia. Qed.

Section Generate.

Variable provider : nat -> LLMClient.Request -> LLMClient.ProviderOutcome.
Variable random : nat -> Q.
Variable json_loads : str -> option json.
Variable system : str.
Variable self : QuizGenerator.

Let loop := generate_quiz_from provider random json_loads system self.

Definition result_ok (title : str) (number : Z) (attempts : list Z)
  (r : QuizGenerationResult) : Prop :=
  In (generation_attempts r) attempts
  /\ chapter_number r = number
  /\ chapter_title r = title
  /\ (exists typed,
         as_questions (questions r) = inr typed
         /\ validation_passed r
            = Validator.valid
                (Validator.validate_quiz typed (num_questions self) (num_questions self)))
  /\ (enforce_validation self = true -> validation_passed r = false ->
      max_generation_attempts self <= generation_attempts r).

Lemma quiz_result_ok_later (title : str) (number a : Z) (attempts : list Z)
  (r : QuizGenerationResult) :
  result_ok title number attempts r -> result_ok title number (a :: attempts) r.
Proof. unfold result_ok. intros (H & Hrest). split; [now right | exact Hrest]. Qed.

Lemma quiz_loop_result_ok (attempts : list Z) (title : str) (number : Z) (model : str) :
  forall user_prompt st r st',
    loop attempts title number model user_prompt st = (inr r, st') ->
    result_ok title number attempts r.
Proof.
  induction attempts as [|attempt rest IH]; intros user_prompt st r st'.
  - discriminate.
  - unfold loop. cbn [generate_quiz_from]. cbv zeta.
    SummaryRunFacts.split_branches;
      try discriminate;
      try (intros H; apply quiz_result_ok_later; eapply IH, H).
    + intros [= <- <-]. unfold result_ok.
      cbn [generation_attempts chapter_number chapter_title validation_passed questions].
      repeat split; try (now left).
      * eexists. split; [eassumption | reflexivity].
      * intros Henf Hv.
        match goal with
        | H : (attempt <? _) = false |- _ => apply Z.ltb_ge in H; exact H
        end.
    + intros [= <- <-]. unfold result_ok.
      cbn [generation_attempts chapter_number chapter_title validation_passed questions].
      repeat split; try (now left).
      * eexists. split; [eassumption | reflexivity].
      * intros Henf Hv. exfalso.
        match goal with
        | H : _ && negb _ = false |- _ => rewrite Henf, Hv in H; discriminate H
        end.
Qed.

End Generate.

(** A quiz that [generate_quiz] returns was produced on an attempt
    between 1 and [max_generation_attempts]; it has [validation_passed]
    exactly when it holds [num_questions] questions, each with its
    required fields, four non-blank options, an index from 0 to 3 and a
    non-blank text; with enforcement on, a quiz that fails validation is
    only ever returned from the last attempt.  For a generator built by
    its constructor, a quiz that passed validation has 5 to 7
    questions. *)
Theorem generate_quiz_result_invariants
  (provider : nat -> LLMClient.Request -> LLMClient.ProviderOutcome) (random : nat -> Q)
  (json_loads : str -> option json) (get_quiz_generation_prompt : str -> str -> Z -> str)
  (system : str) (client : LLMClient.Client) (max_attempts : Z) (enforce : bool)
  (requested : Z) (content title : str) (number : Z) (st : LLMClient.State) :
  let self := init client max_attempts enforce requested in
  match fst (generate_quiz provider random json_loads get_quiz_generation_prompt
               system self content title number st) with
  | inl _ => True
  | inr r =>
      1 <= generation_attempts r <= max_attempts
      /\ chapter_number r = number
      /\ chapter_title r = title
      /\ (exists typed,
             as_questions (questions r) = inr typed
             /\ length typed = length (questions r)
             /\ validation_passed r
                = (Z.of_nat (length typed) =? num_questions self)
                  && forallb ValidityFacts.well_formed typed)
      /\ (validation_passed r = true -> 5 <= Z.of_nat (length (questions r)) <= 7)
      /\ (enforce = true -> validation_passed r = false ->
          generation_attempts r = max_attempts)
  end.
Proof.
  intros self. unfold generate_quiz.
  destruct (LLMClient.get_model_for_task (lit "quiz")) as [e|model]; [exact I|].
  destruct (generate_quiz_from provider random json_loads system self
              (range 1 (max_generation_attempts self + 1)) title number model
              (get_quiz_generation_prompt content title (num_questions self)) st)
    as [[e|r] st'] eqn:E; [exact I|].
  apply quiz_loop_result_ok in E as (Hin & H1 & H2 & (typed & Ht & Hv) & H4). cbn [fst].
  apply RangeMembers.range_In in Hin.
  change (max_generation_attempts self) with max_attempts in *.
  change (enforce_validation self) with enforce in *.
  pose proof (as_questions_length _ _ Ht) as Hlen.
  assert (Hvalid : validation_passed r
                   = (Z.of_nat (length typed) =? num_questions self)
                     && forallb ValidityFacts.well_formed typed).
  { rewrite Hv, ValidityFacts.quiz_valid_eq. f_equal.
    destruct (Z.leb_spec (num_questions self) (Z.of_nat (length typed)));
      destruct (Z.leb_spec (Z.of_nat (length typed)) (num_questions self));
      destruct (Z.eqb_spec (Z.of_nat (length typed)) (num_questions self));
      try reflexivity; lia. }
  repeat split; try assumption; try lia.
  - exists typed. repeat split; assumption.
  - rewrite Hvalid in H. apply andb_true_iff in H as [H _]. apply Z.eqb_eq in H.
    pose proof (init_num_questions client max_attempts enforce requested). fold self in H0.
    lia.
  - rewrite Hvalid in H. apply andb_true_iff in H as [H _]. apply Z.eqb_eq in H.
    pose proof (init_num_questions client max_attempts enforce requested). fold self in H0.
    lia.
  - intros Henf Hf. specialize (H4 Henf Hf). lia.
Qed.

End QuizRunFacts.

Module BoosterRunFacts.

Import BoosterGenerator.
Open Scope Z_scope.




Section Generate.

Variable provider : nat -> LLMClient.Request -> LLMClient.ProviderOutcome.
Variable random : nat -> Q.
Variable json_loads : str -> option json.
Variable get_booster_generation_prompt : str -> str -> str -> str -> Z -> str.
Variable system : str.
Variable self : BoosterGenerator.

Let generate_boosters :=
  generate_boosters provider random json_loads get_booster_generation_prompt system self.
Let request (content title : str) :=
  LLMClient.mkRequest (attempt_prompt get_booster_generation_prompt self content title)
    (Some system) LLMClient.MODEL_SONNET 1024.


End Generate.

End BoosterRunFacts.

(** ** What a batch run changes *)

Module ServiceRunFacts.

Import Curriculum GenerationJob GenerationService.
Open Scope Z_scope.

(** A row that meets the three checks of [create_chapter]. *)
Definition compliant (c : Chapter) : bool :=
  ((800 <=? word_count c) && (word_count c <=? 1200))
  && ((5 <=? reading_time_minutes c) && (reading_time_minutes c <=? 7))
  && ((1 <=? chapter_number c) && (chapter_number c <=? 8)).

Lemma compliant_no_errors (c : Chapter) :
  ChapterService.compliance_errors c = [] <-> compliant c = true.
Proof.
  unfold ChapterService.compliance_errors, compliant.
  destruct ((800 <=? word_count c) && (word_count c <=? 1200));
    destruct ((5 <=? reading_time_minutes c) && (reading_time_minutes c <=? 7));
    destruct ((1 <=? chapter_number c) && (chapter_number c <=? 8));
    simpl; split; intros H; try reflexivity; discriminate H.
Qed.

(** The job after one progress update. *)
Definition advanced (j : GenerationJob) (tokens_used : Z) : GenerationJob :=
  mkGenerationJob (status j) (chapters_completed j + 1) (chapters_total j)
    (errors j) (token_usage j + tokens_used) (model_used j) (completed_at j).

Definition paused (w : World) : World :=
  mkWorld (llm w) (job w) (chapters w) (commits w) (S (pauses w)).

(** A change of the state that is neither a progress update nor a
    pacing delay. *)
Inductive Change : World -> World -> Prop :=
| change_llm (w : World) (st : LLMClient.State) : Change w (with_llm w st)
| change_commit (w : World) :
    Change w (mkWorld (llm w) (job w) (chapters w) (S (commits w)) (pauses w))
| change_job (w : World) (j j' : GenerationJob) :
    job w = Some j ->
    chapters_completed j' = chapters_completed j ->
    chapters_total j' = chapters_total j ->
    Change w (with_job w j')
| change_row (w : World) (row : Chapter) :
    compliant row = true -> Change w (with_chapters w (chapters w ++ [row]))
| change_update (w : World) (id : nat) (f : Chapter -> Chapter) :
    (forall c, compliant (f c) = compliant c) ->
    Change w (with_chapters w (update_nth id f (chapters w))).

(** [Run n p w w']: the state [w'] is reached from [w] by [n] progress
    updates, [p] pacing delays and other changes. *)
Inductive Run : nat -> nat -> World -> World -> Prop :=
| run_nil (w : World) : Run 0 0 w w
| run_change (n p : nat) (w w1 w2 : World) :
    Change w w1 -> Run n p w1 w2 -> Run n p w w2
| run_progress (n p : nat) (w : World) (j : GenerationJob) (tokens_used : Z) (w2 : World) :
    job w = Some j -> Run n p (with_job w (advanced j tokens_used)) w2 -> Run (S n) p w w2
| run_pause (n p : nat) (w w2 : World) : Run n p (paused w) w2 -> Run n (S p) w w2.

Lemma run_trans (n p n' p' : nat) (a b c : World) :
  Run n p a b -> Run n' p' b c -> Run (n + n') (p + p') a c.
Proof.
  induction 1; intros H'; simpl.
  - exact H'.
  - eapply run_change; eauto.
  - eapply run_progress; eauto.
  - replace (S p + p')%nat with (S (p + p')) by lia. apply run_pause; auto.
Qed.

Lemma run_then (n p : nat) (a b c : World) : Run 0 0 a b -> Run n p b c -> Run n p a c.
Proof. intros H1 H2. exact (run_trans 0 0 n p a b c H1 H2). Qed.

Lemma run_one (a b : World) : Change a b -> Run 0 0 a b.
Proof. intros H. eapply run_change; [exact H | apply run_nil]. Qed.

(** A run of at most [n] progress updates and at most [p] delays. *)
Definition RunWithin (n p : nat) (w w' : World) : Prop :=
  exists n' p', (n' <= n)%nat /\ (p' <= p)%nat /\ Run n' p' w w'.

Lemma within_exact (n p : nat) (w w' : World) : Run n p w w' -> RunWithin n p w w'.
Proof. intros H. exists n, p. repeat split; auto. Qed.

Lemma within_trans (n p n' p' : nat) (a b c : World) :
  RunWithin n p a b -> RunWithin n' p' b c -> RunWithin (n + n') (p + p') a c.
Proof.
  intros (n1 & p1 & Hn1 & Hp1 & H1) (n2 & p2 & Hn2 & Hp2 & H2).
  exists (n1 + n2)%nat, (p1 + p2)%nat. repeat split; try lia.
  eapply run_trans; eassumption.
Qed.

Lemma within_weaken (n p n' p' : nat) (a b : World) :
  (n <= n')%nat -> (p <= p')%nat -> RunWithin n p a b -> RunWithin n' p' a b.
Proof.
  intros Hn Hp (n1 & p1 & H1 & H2 & H). exists n1, p1. repeat split; try lia. exact H.
Qed.

(** *** What a run preserves *)

Lemma update_nth_Forall {A} (P : A -> Prop) (f : A -> A) (l : list A) :
  (forall x, P x -> P (f x)) -> Forall P l -> forall n, Forall P (update_nth n f l).
Proof.
  intros Hf H. induction H as [|x l Hx Hl IH]; intros [|n]; simpl;
    constructor; auto.
Qed.

Lemma change_rows (w w' : World) :
  Change w w' ->
  Forall (fun c => compliant c = true) (chapters w) ->
  Forall (fun c => compliant c = true) (chapters w').
Proof.
  intros [w0 st|w0|w0 j j' _ _ _|w0 row Hrow|w0 id f Hf] H; cbn [chapters with_llm
    with_job with_chapters]; try exact H.
  - apply Forall_app. split; [exact H | now constructor].
  - apply update_nth_Forall; [|exact H]. intros c Hc. now rewrite Hf.
Qed.

Lemma run_rows (n p : nat) (w w' : World) :
  Run n p w w' ->
  Forall (fun c => compliant c = true) (chapters w) ->
  Forall (fun c => compliant c = true) (chapters w').
Proof.
  induction 1 as [w|n p w w1 w2 Hc _ IH|n p w j t w2 _ _ IH|n p w w2 _ IH]; intros H.
  - exact H.
  - apply IH. eapply change_rows; eassumption.
  - apply IH. exact H.
  - apply IH. exact H.
Qed.


Lemma run_progress_count (n p : nat) (w w' : World) :
  Run n p w w' ->
  match job w with
  | Some j =>
      exists j', job w' = Some j'
                 /\ chapters_completed j' = chapters_completed j + Z.of_nat n
                 /\ chapters_total j' = chapters_total j
  | None => job w' = None /\ n = 0%nat
  end.
Proof.
  induction 1 as [w|n p w w1 w2 Hc _ IH|n p w j t w2 Hj _ IH|n p w w2 _ IH].
  - destruct (job w) as [j|]; [exists j; repeat split; lia | auto].
  - destruct Hc as [w0 st|w0|w0 j j' Hj Hc Ht|w0 row Hrow|w0 id f Hf];
      cbn [job with_llm with_job with_chapters] in IH; try exact IH.
    rewrite Hj. destruct IH as (j2 & H1 & H2 & H3). exists j2. repeat split; congruence.
  - rewrite Hj. cbn [job with_job] in IH. destruct IH as (j2 & H1 & H2 & H3).
    exists j2. split; [exact H1|]. cbn [chapters_completed chapters_total advanced] in *.
    split; lia.
  - exact IH.
Qed.

Section Service.

Variable provider : nat -> LLMClient.Request -> LLMClient.ProviderOutcome.
Variable random : nat -> Q.
Variable md_parse : str -> Validator.MdOutcome.
Variable prompt : ChapterDefinition -> str.
Variable system : str.
Variable commit_fails : nat -> bool.
Variable api_key : bool.
Variable summary_task : ChapterDefinition -> result Z.
Variable schedule : list ChapterDefinition -> list ChapterDefinition.

Let commit := commit commit_fails.
Let chapter_body :=
  chapter_body provider random md_parse prompt system commit_fails.
Let chapter_loop :=
  chapter_loop provider random md_parse prompt system commit_fails.
Let gather := gather commit_fails summary_task.
Let _execute_batch_generation :=
  _execute_batch_generation provider random md_parse prompt system commit_fails
    api_key summary_task schedule.

Lemma commit_run (w : World) : Run 0 0 w (snd (commit w)).
Proof.
  unfold commit, GenerationService.commit.
  destruct (commit_fails (commits w)); cbn [snd]; apply run_one, change_commit.
Qed.

Lemma job_change_run (w : World) (j j' : GenerationJob) :
  job w = Some j ->
  chapters_completed j' = chapters_completed j ->
  chapters_total j' = chapters_total j ->
  Run 0 0 w (snd (commit (with_job w j'))).
Proof.
  intros Hj H1 H2. eapply run_then; [|apply commit_run].
  apply run_one. eapply change_job; eassumption.
Qed.

Lemma update_job_status_run (s : JobStatus) (w : World) :
  Run 0 0 w (snd (_update_job_status commit_fails s w)).
Proof.
  unfold _update_job_status, _get_job. destruct (job w) as [j|] eqn:Hj;
    [|apply run_nil].
  now apply (job_change_run w j).
Qed.

Lemma add_job_error_run (msg : str) (w : World) :
  Run 0 0 w (snd (_add_job_error commit_fails msg w)).
Proof.
  unfold _add_job_error, _get_job. destruct (job w) as [j|] eqn:Hj; [|apply run_nil].
  now apply (job_change_run w j).
Qed.

Lemma complete_job_run (w : World) : Run 0 0 w (snd (_complete_job commit_fails w)).
Proof.
  unfold _complete_job, _get_job. destruct (job w) as [j|] eqn:Hj; [|apply run_nil].
  now apply (job_change_run w j).
Qed.

Lemma fail_job_run (msg : str) (w : World) :
  Run 0 0 w (snd (_fail_job commit_fails msg w)).
Proof.
  unfold _fail_job, _get_job. destruct (job w) as [j|] eqn:Hj; [|apply run_nil].
  now apply (job_change_run w j).
Qed.

Lemma increment_run (tokens_used : Z) (w : World) :
  RunWithin 1 0 w (snd (_increment_job_progress commit_fails tokens_used w)).
Proof.
  unfold _increment_job_progress, _get_job. destruct (job w) as [j|] eqn:Hj.
  - apply within_exact. eapply run_progress; [exact Hj|]. apply commit_run.
  - exists 0%nat, 0%nat. repeat split; try lia. apply run_nil.
Qed.

Lemma create_chapter_run n t s wc rt stat (w : World) :
  Run 0 0 w (snd (create_chapter commit_fails n t s wc rt stat w)).
Proof.
  unfold create_chapter.
  destruct ((800 <=? wc) && (wc <=? 1200)) eqn:E1; cbn [negb]; [|apply run_nil].
  destruct ((5 <=? rt) && (rt <=? 7)) eqn:E2; cbn [negb]; [|apply run_nil].
  destruct ((1 <=? n) && (n <=? 8)) eqn:E3; cbn [negb]; [|apply run_nil].
  unfold GenerationService.commit. cbn [commits with_chapters].
  destruct (commit_fails (commits w)); cbn [snd].
  - apply run_one. apply change_commit.
  - eapply run_change; [apply (change_row w (mkChapter n t s wc rt stat []))|].
    + unfold compliant. cbn [word_count reading_time_minutes chapter_number].
      now rewrite E1, E2, E3.
    + apply run_one. apply change_commit.
Qed.

Lemma update_chapter_status_run id stat errs (w : World) :
  Run 0 0 w (snd (update_chapter_status commit_fails id stat errs w)).
Proof.
  unfold update_chapter_status. destruct (nth_error (chapters w) id); [|apply run_nil].
  eapply run_then; [|apply commit_run].
  apply run_one. apply change_update. intros row. reflexivity.
Qed.

Lemma chapter_body_run g (i total : nat) ch (w : World) :
  RunWithin 1 (if (i <? total)%nat then 1 else 0) w (snd (chapter_body g i total ch w)).
Proof.
  unfold chapter_body, GenerationService.chapter_body.
  destruct (ChapterGenerator.generate_chapter _ _ _ _ _ _ _) as [[e|r] st].
  - cbn [snd]. apply (within_weaken 0 0); try lia.
    apply within_exact, run_one, change_llm.
  - assert (H0 : Run 0 0 w (with_llm w st)) by apply run_one, change_llm.
    set (w0 := with_llm w st) in *.
    match goal with
    | |- context [create_chapter commit_fails ?n ?t ?s ?wc ?rt ?stat w0] =>
        pose proof (create_chapter_run n t s wc rt stat w0) as Hc;
        destruct (create_chapter commit_fails n t s wc rt stat w0) as [[e|id] w1]
    end; cbn [snd] in Hc.
    + cbn [snd]. apply (within_weaken 0 0); try lia.
      apply within_exact. eapply run_then; eassumption.
    + assert (H1 : Run 0 0 w w1) by (eapply run_then; eassumption).
      assert (Hinc : forall w2, Run 0 0 w w2 ->
                RunWithin 1 (if (i <? total)%nat then 1 else 0) w
                  (snd match GenerationService._increment_job_progress commit_fails
                               (ChapterGenerator.tokens_used r) w2 with
                       | (inl e, w) => (inl e, w)
                       | (inr _, w) =>
                           if (i <? total)%nat
                           then (ret tt, mkWorld (llm w) (job w) (chapters w) (commits w)
                                           (S (pauses w)))
                           else (ret tt, w)
                       end)).
      { intros w2 H2.
        pose proof (increment_run (ChapterGenerator.tokens_used r) w2) as Hi.
        destruct (GenerationService._increment_job_progress _ _ w2) as [[e|u] w3];
          cbn [snd] in Hi |- *.
        - apply (within_weaken 1 0); try lia.
          apply (within_trans 0 0 1 0 w w2 w3); [now apply within_exact | exact Hi].
        - destruct (i <? total)%nat; cbn [snd].
          + apply (within_trans 1 0 0 1 w w3); [|apply within_exact, run_pause, run_nil].
            apply (within_trans 0 0 1 0 w w2 w3); [now apply within_exact | exact Hi].
          + apply (within_trans 0 0 1 0 w w2 w3); [now apply within_exact | exact Hi]. }
      destruct (negb (Validator.valid _)).
      * match goal with
        | |- context [update_chapter_status commit_fails ?a ?b ?c w1] =>
            pose proof (update_chapter_status_run a b c w1) as Hu;
            destruct (update_chapter_status commit_fails a b c w1) as [[e|u] w2]
        end; cbn [snd] in Hu.
        -- cbn [snd]. apply (within_weaken 0 0); try lia.
           apply within_exact. eapply run_then; eassumption.
        -- apply Hinc. eapply run_then; eassumption.
      * apply Hinc. exact H1.
Qed.

(** The units after which the loop may pause. *)
Definition pausing (total : nat) (units : list (nat * ChapterDefinition)) : nat :=
  length (filter (fun u => (fst u <? total)%nat) units).

Lemma chapter_loop_run g (total : nat) (units : list (nat * ChapterDefinition)) :
  forall w, RunWithin (length units) (pausing total units) w
              (snd (chapter_loop g total units w)).
Proof.
  induction units as [|[i ch] rest IH]; intros w;
    unfold chapter_loop; cbn [GenerationService.chapter_loop].
  - cbn [snd]. apply within_exact, run_nil.
  - fold chapter_body. fold chapter_loop.
    pose proof (chapter_body_run g i total ch w) as Hb.
    assert (Hcount : pausing total ((i, ch) :: rest)
                     = ((if (i <? total)%nat then 1 else 0) + pausing total rest)%nat).
    { unfold pausing. cbn [filter fst]. destruct (i <? total)%nat; reflexivity. }
    rewrite Hcount. cbn [length].
    destruct (chapter_body g i total ch w) as [[e|u] w1]; cbn [snd] in Hb.
    + match goal with
      | |- context [GenerationService._add_job_error commit_fails ?m w1] =>
          pose proof (add_job_error_run m w1) as Ha;
          destruct (GenerationService._add_job_error commit_fails m w1) as [[e'|u] w2]
      end; cbn [snd] in Ha.
      * cbn [snd]. eapply within_weaken; [| |apply (within_trans _ _ 0 0 w w1 w2 Hb);
          now apply within_exact]; lia.
      * apply (within_trans 1 _ _ _ w w2); [|apply IH].
        replace 1%nat with (1 + 0)%nat at 1 by lia.
        replace (if (i <? total)%nat then 1 else 0)%nat
          with ((if (i <? total)%nat then 1 else 0) + 0)%nat by lia.
        apply (within_trans _ _ 0 0 w w1 w2 Hb). now apply within_exact.
    + apply (within_trans 1 _ _ _ w w1); [exact Hb | apply IH].
Qed.

Lemma gather_run (tasks : list ChapterDefinition) :
  forall w, RunWithin (length tasks) 0 w (snd (gather tasks w)).
Proof.
  induction tasks as [|ch rest IH]; intros w; unfold gather;
    cbn [GenerationService.gather].
  - apply within_exact, run_nil.
  - fold gather. unfold _generate_single_summary.
    destruct (summary_task ch) as [e|tokens].
    + specialize (IH w). destruct (gather rest w) as [failed w1]. cbn [snd] in *.
      eapply within_weaken; [| |exact IH]; simpl; lia.
    + pose proof (increment_run tokens w) as Hi.
      destruct (GenerationService._increment_job_progress commit_fails tokens w)
        as [[e|u] w1]; cbn [snd] in Hi.
      * specialize (IH w1). destruct (gather rest w1) as [failed w2]. cbn [snd] in *.
        apply (within_trans 1 0 (length rest) 0 w w1 w2 Hi IH).
      * apply (within_trans 1 0 (length rest) 0 w w1 _ Hi (IH w1)).
Qed.

Lemma summaries_run (curriculum : list ChapterDefinition) (w : World) :
  RunWithin (length (schedule curriculum)) 0 w
    (snd (_generate_summaries_for_chapters commit_fails summary_task schedule
            curriculum w)).
Proof.
  unfold _generate_summaries_for_chapters. fold gather.
  pose proof (gather_run (schedule curriculum) w) as Hg.
  destruct (gather (schedule curriculum) w) as [failed w1]. cbn [snd] in Hg.
  destruct (0 <? failed)%nat; [|exact Hg].
  replace (length (schedule curriculum))
    with (length (schedule curriculum) + 0)%nat by lia.
  apply (within_trans _ 0 0 0 w w1 _ Hg). apply within_exact, add_job_error_run.
Qed.

Lemma pausing_enumerate (curriculum : list ChapterDefinition) :
  pausing (length curriculum) (enumerate 1 curriculum) = Nat.pred (length curriculum).
Proof.
  unfold pausing, enumerate.
  assert (H : forall (l : list ChapterDefinition) (start total : nat),
             (start + length l = S total)%nat ->
             length (filter (fun u : nat * ChapterDefinition => (fst u <? total)%nat)
                       (combine (seq start (length l)) l))
             = Nat.pred (length l)).
  { induction l as [|x l IH]; intros start total Hl; [reflexivity|].
    cbn [length seq combine filter fst].
    destruct (Nat.ltb_spec start total).
    - cbn [length]. rewrite (IH (S start) total) by (simpl in Hl; lia).
      destruct l; simpl in *; lia.
    - destruct l; simpl in *; [reflexivity | lia]. }
  apply H. lia.
Qed.

Lemma batch_run (curriculum : list ChapterDefinition) (w : World) :
  RunWithin (length curriculum + length (schedule curriculum))
    (Nat.pred (length curriculum)) w
    (snd (_execute_batch_generation curriculum w)).
Proof.
  unfold _execute_batch_generation, GenerationService._execute_batch_generation.
  assert (Hbody : RunWithin (length curriculum + length (schedule curriculum))
                    (Nat.pred (length curriculum)) w
                    (snd (batch_body provider random md_parse prompt system commit_fails
                            api_key summary_task schedule curriculum w))).
  { unfold batch_body.
    pose proof (update_job_status_run IN_PROGRESS w) as H1.
    destruct (_update_job_status commit_fails IN_PROGRESS w) as [[e|u] w1];
      cbn [snd] in H1.
    - cbn [snd]. eapply within_weaken; [| |apply within_exact, H1]; lia.
    - destruct api_key; cbn [negb].
      + fold chapter_loop.
        assert (H2 : Run 0 0 w (with_llm w1 LLMClient.initial_state)).
        { eapply run_then; [exact H1|]. apply run_one, change_llm. }
        pose proof (chapter_loop_run ChapterGenerator.with_defaults (length curriculum)
                      (enumerate 1 curriculum) (with_llm w1 LLMClient.initial_state))
          as H3.
        rewrite pausing_enumerate in H3.
        assert (Hlen : length (enumerate 1 curriculum) = length curriculum).
        { unfold enumerate. rewrite length_combine, length_seq. lia. }
        rewrite Hlen in H3.
        destruct (chapter_loop ChapterGenerator.with_defaults (length curriculum)
                    (enumerate 1 curriculum) (with_llm w1 LLMClient.initial_state))
          as [[escaped|u'] w2]; cbn [snd] in H3.
        * cbn [snd]. eapply within_weaken;
            [| |apply (within_trans 0 0 _ _ w _ w2 (within_exact _ _ _ _ H2) H3)];
            simpl; lia.
        * pose proof (summaries_run curriculum w2) as H5.
          assert (H6 : RunWithin (length curriculum) (Nat.pred (length curriculum)) w w2).
          { apply (within_trans 0 0 _ _ w _ w2 (within_exact _ _ _ _ H2) H3). }
          destruct (_generate_summaries_for_chapters commit_fails summary_task schedule
                      curriculum w2) as [[e|u''] w3]; cbn [snd] in H5.
          -- pose proof (add_job_error_run (lit "Summary generation failed: " ++ message e)
                           w3) as H7.
             destruct (_add_job_error commit_fails
                         (lit "Summary generation failed: " ++ message e) w3)
               as [[e'|u3] w4]; cbn [snd] in H7.
             ++ cbn [snd].
                replace (Nat.pred (length curriculum))
                  with (Nat.pred (length curriculum) + 0 + 0)%nat by lia.
                replace (length curriculum + length (schedule curriculum))%nat
                  with (length curriculum + length (schedule curriculum) + 0)%nat by lia.
                apply (within_trans _ _ 0 0 w w3 w4); [|now apply within_exact].
                apply (within_trans _ _ _ 0 w w2 w3 H6 H5).
             ++ pose proof (complete_job_run w4) as H8.
                destruct (_complete_job commit_fails w4) as [[e4|u4] w5]; cbn [snd] in *;
                  replace (Nat.pred (length curriculum))
                    with (Nat.pred (length curriculum) + 0 + 0)%nat by lia;
                  replace (length curriculum + length (schedule curriculum))%nat
                    with (length curriculum + length (schedule curriculum) + 0)%nat
                    by lia;
                  (apply (within_trans _ _ 0 0 w w3 w5);
                   [apply (within_trans _ _ _ 0 w w2 w3 H6 H5)
                   |apply within_exact; eapply run_then; eassumption]).
          -- pose proof (complete_job_run w3) as H8.
             destruct (_complete_job commit_fails w3) as [[e4|u4] w5]; cbn [snd] in *;
               replace (Nat.pred (length curriculum))
                 with (Nat.pred (length curriculum) + 0 + 0)%nat by lia;
               replace (length curriculum + length (schedule curriculum))%nat
                 with (length curriculum + length (schedule curriculum) + 0)%nat
                 by lia;
               (apply (within_trans _ _ 0 0 w w3 w5);
                [apply (within_trans _ _ _ 0 w w2 w3 H6 H5)
                |now apply within_exact]).
      + cbn [snd]. eapply within_weaken; [| |apply within_exact, H1]; lia. }
  destruct (batch_body provider random md_parse prompt system commit_fails api_key
              summary_task schedule curriculum w) as [[[site e]|u] w1]; cbn [snd] in *.
  - replace (Nat.pred (length curriculum))
      with (Nat.pred (length curriculum) + 0)%nat by lia.
    replace (length curriculum + length (schedule curriculum))%nat
      with (length curriculum + length (schedule curriculum) + 0)%nat by lia.
    apply (within_trans _ _ 0 0 w w1 _ Hbody). apply within_exact, fail_job_run.
  - exact Hbody.
Qed.

Lemma rows_compliant_iff (w : World) :
  Forall (fun c => compliant c = true) (chapters w)
  <-> (forall id, (id < ChapterService.count_chapters w)%nat ->
                  ChapterService.validate_constitution_compliance id w = inr []).
Proof.
  unfold ChapterService.validate_constitution_compliance, ChapterService.get_chapter_by_id,
    ChapterService.count_chapters.
  rewrite Forall_forall. split.
  - intros H id Hid. destruct (nth_error (chapters w) id) as [c|] eqn:E.
    + unfold ret. f_equal. apply compliant_no_errors, H. eapply nth_error_In, E.
    + apply nth_error_None in E. lia.
  - intros H c Hc. apply In_nth_error in Hc as [id E].
    assert (Hid : (id < length (chapters w))%nat)
      by (apply nth_error_Some; congruence).
    specialize (H id Hid). rewrite E in H. unfold ret in H.
    apply compliant_no_errors. congruence.
Qed.

(** Every row of the chapter table passes
    [validate_constitution_compliance] after a batch run if every row
    did before it; so does every row after a run started by
    [start_batch_generation]: what the batch stores has 800 to 1200
    words, 5 to 7 minutes of reading time and a number from 1 to 8. *)
Theorem batch_rows_pass_compliance_check
  (curriculum : list ChapterDefinition) (model_override : option str) :
  (forall w,
      (forall id, (id < ChapterService.count_chapters w)%nat ->
                  ChapterService.validate_constitution_compliance id w = inr []) ->
      let w' := snd (_execute_batch_generation curriculum w) in
      forall id, (id < ChapterService.count_chapters w')%nat ->
                 ChapterService.validate_constitution_compliance id w' = inr [])
  /\ match start_batch_generation provider random md_parse prompt system commit_fails
             api_key summary_task schedule curriculum model_override with
     | inl _ => True
     | inr (_, w') =>
         forall id, (id < ChapterService.count_chapters w')%nat ->
                    ChapterService.validate_constitution_compliance id w' = inr []
     end.
Proof.
  split.
  - intros w H w'. apply rows_compliant_iff. apply rows_compliant_iff in H.
    destruct (batch_run curriculum w) as (n & p & _ & _ & Hrun).
    eapply run_rows; eassumption.
  - unfold start_batch_generation, GenerationService.commit. cbn [commits].
    destruct (commit_fails 0); [exact I|]. unfold ret.
    match goal with
    | |- context [GenerationService._execute_batch_generation _ _ _ _ _ _ _ _ _ _ ?w0] =>
        pose proof (batch_run curriculum w0) as (n & p & _ & _ & Hrun);
        fold _execute_batch_generation;
        destruct (_execute_batch_generation curriculum w0) as [out w'] eqn:E
    end.
    cbn [snd] in Hrun. apply rows_compliant_iff.
    eapply run_rows; [exact Hrun|]. constructor.
Qed.

(** When every summary task is scheduled once, a run started by
    [start_batch_generation] ends with [chapters_completed] between 0
    and twice [chapters_total], the total being the length of the
    curriculum: each unit can be counted once by its chapter and once by
    its summary. *)
Theorem batch_progress_at_most_twice_total
  (curriculum : list ChapterDefinition) (model_override : option str) :
  (forall l, length (schedule l) = length l) ->
  match start_batch_generation provider random md_parse prompt system commit_fails
          api_key summary_task schedule curriculum model_override with
  | inl _ => True
  | inr (_, w') =>
      exists j',
        job w' = Some j'
        /\ chapters_total j' = Z.of_nat (length curriculum)
        /\ 0 <= chapters_completed j' <= 2 * chapters_total j'
  end.
Proof.
  intros Hsched.
  unfold start_batch_generation, GenerationService.commit. cbn [commits].
  destruct (commit_fails 0); [exact I|]. unfold ret.
  match goal with
  | |- context [GenerationService._execute_batch_generation _ _ _ _ _ _ _ _ _ _ ?w0] =>
      pose proof (batch_run curriculum w0) as (n & p & Hn & _ & Hrun);
      fold _execute_batch_generation;
      destruct (_execute_batch_generation curriculum w0) as [out w'] eqn:E
  end.
  cbn [snd] in Hrun. apply run_progress_count in Hrun. cbn [job] in Hrun.
  destruct Hrun as (j' & Hj & Hc & Ht). exists j'.
  unfold new_job in Hc, Ht. cbn [chapters_completed chapters_total] in Hc, Ht.
  rewrite Hsched in Hn. repeat split; try assumption; lia.
Qed.


Lemma reading_time_metric (content : str) :
  metrics_get "reading_time_minutes"%string 6
    (Validator.metrics (Validator.validate_chapter md_parse content))
  = Validator._calculate_reading_time (Z.of_nat (Validator._count_words content)).
Proof. reflexivity. Qed.

(** A chapter the generator returned is not stored when its whitespace
    word count is outside [800, 1200] (the generator accepted it anyway
    on its last attempt), when the validator counts fewer than 901 or
    more than 1499 words in it (the reading time is then outside 5 to 7
    minutes), or when its number is not between 1 and 8: the body of the
    loop raises [ValueError] before it adds a row, updates the progress
    or commits. *)
Theorem rejected_chapter_is_not_stored
  (g : ChapterGenerator.ChapterGenerator) (i total : nat) (ch : ChapterDefinition)
  (w : World) (r : ChapterGenerator.ChapterGenerationResult) (st : LLMClient.State) :
  ChapterGenerator.generate_chapter provider random prompt system g ch (llm w)
  = (inr r, st) ->
  ChapterGenerator.validation_passed r = false
  \/ ~ 901 <= Z.of_nat (Validator._count_words (ChapterGenerator.content r)) <= 1499
  \/ ~ 1 <= number ch <= 8 ->
  exists e,
    chapter_body g i total ch w = (inl e, with_llm w st) /\ cls e = ValueError.
Proof.
  intros Hgen Hbad.
  pose proof (ChapterRunFacts.generate_chapter_ok provider random prompt system g ch
                (llm w) r st Hgen) as (_ & _ & _ & _ & Hv & _).
  unfold chapter_body, GenerationService.chapter_body. rewrite Hgen.
  rewrite reading_time_metric. unfold create_chapter.
  unfold ChapterGenerator._is_word_count_valid in Hv.
  destruct ((800 <=? ChapterGenerator.word_count r)
            && (ChapterGenerator.word_count r <=? 1200)) eqn:E1; cbn [negb].
  - destruct ((5 <=? Validator._calculate_reading_time
                       (Z.of_nat (Validator._count_words (ChapterGenerator.content r))))
              && (Validator._calculate_reading_time
                    (Z.of_nat (Validator._count_words (ChapterGenerator.content r)))
                  <=? 7)) eqn:E2; cbn [negb].
    + destruct ((1 <=? number ch) && (number ch <=? 8)) eqn:E3; cbn [negb].
      * exfalso. destruct Hbad as [Hb|[Hb|Hb]].
        -- congruence.
        -- apply Hb. apply ValidityFacts.reading_time_window.
           apply andb_true_iff in E2 as [H1 H2]. apply Z.leb_le in H1, H2. lia.
        -- apply Hb. apply andb_true_iff in E3 as [H1 H2]. apply Z.leb_le in H1, H2. lia.
      * eexists. split; reflexivity.
    + eexists. split; reflexivity.
  - eexists. split; reflexivity.
Qed.

End Service.

(** *** Cancelling a job *)

(** The job [cancel_job] leaves behind. *)
Definition cancelled (j : GenerationJob) : GenerationJob :=
  add_error (set_completed_at (set_status j FAILED)) (lit "Job cancelled by user").

(** [cancel_job] returns [False] and changes nothing when there is no
    job or the job is complete.  Otherwise it marks the job failed, with
    its completion time and the error record of the cancellation, and
    leaves its progress and the chapter rows as they were; a second call
    then returns [False].  The batch task is not stopped: when it
    completes the job afterwards, the cancelled job is marked
    completed. *)
Theorem cancel_job_marks_failed_once (commit_fails : nat -> bool) (w : World) :
  match JobControl.cancel_job commit_fails w with
  | (inr false, w') =>
      w' = w /\ (job w = None \/ exists j, job w = Some j /\ is_complete j = true)
  | (inr true, w') =>
      exists j,
        job w = Some j /\ is_complete j = false
        /\ job w' = Some (cancelled j)
        /\ status (cancelled j) = FAILED
        /\ chapters_completed (cancelled j) = chapters_completed j
        /\ chapters w' = chapters w
        /\ JobControl.cancel_job commit_fails w' = (inr false, w')
        /\ (exists j'', job (snd (_complete_job commit_fails w')) = Some j''
                        /\ status j'' = COMPLETED
                        /\ In (lit "Job cancelled by user") (errors j''))
  | (inl e, w') =>
      cls e = SQLAlchemyError
      /\ exists j, job w = Some j /\ is_complete j = false /\ job w' = Some (cancelled j)
  end.
Proof.
  unfold JobControl.cancel_job, _get_job.
  destruct (job w) as [j|] eqn:Hj; [|split; [reflexivity | now left]].
  destruct (is_complete j) eqn:Hc; [split; [reflexivity | right; now exists j]|].
  unfold GenerationService.commit. cbn [commits with_job].
  destruct (commit_fails (commits w)).
  - split; [reflexivity|]. exists j. repeat split; auto.
  - exists j. split; [reflexivity|]. split; [exact Hc|]. split; [reflexivity|].
    split; [reflexivity|]. split; [reflexivity|]. split; [reflexivity|]. split.
    + reflexivity.
    + unfold _complete_job, _get_job, GenerationService.commit. cbn [job commits with_job].
      destruct (commit_fails (S (commits w))); cbn [snd job];
        (eexists; split; [reflexivity|]; split; [reflexivity|];
         cbn; apply in_or_app; right; now left).
Qed.

End ServiceRunFacts.

(** ** The curriculum and its lookups *)

Module CurriculumFacts.

Import Curriculum CurriculumData.
Open Scope Z_scope.

Lemma app_nil_inv {A} (a b : list A) : a ++ b = [] -> a = [] /\ b = [].
Proof. destruct a; [auto | discriminate]. Qed.

Lemma flat_map_nil {A B} (f : A -> list B) (l : list A) :
  flat_map f l = [] <-> Forall (fun x => f x = []) l.
Proof.
  induction l as [|x l IH]; simpl.
  - split; [constructor | reflexivity].
  - split.
    + intros H. apply app_nil_inv in H as [Hx Hl]. constructor; [exact Hx | now apply IH].
    + intros H. inversion H as [|? ? Hx Hl]; subst. rewrite Hx. now apply IH.
Qed.

Lemma word_count_target_errors_nil (ch : ChapterDefinition) :
  word_count_target_errors ch = [] <-> 800 <= word_count_target ch <= 1200.
Proof.
  unfold word_count_target_errors.
  destruct (Z.leb_spec 800 (word_count_target ch));
    destruct (Z.leb_spec (word_count_target ch) 1200); simpl;
    split; try lia; try reflexivity; discriminate.
Qed.

Lemma objective_count_errors_nil (ch : ChapterDefinition) :
  objective_count_errors ch = [] <-> (3 <= length (learning_objectives ch) <= 5)%nat.
Proof.
  unfold objective_count_errors. cbv zeta.
  destruct (Z.leb_spec 3 (Z.of_nat (length (learning_objectives ch))));
    destruct (Z.leb_spec (Z.of_nat (length (learning_objectives ch))) 5); simpl;
    split; try lia; try reflexivity; discriminate.
Qed.

Lemma range_nth (lo hi : Z) (i : nat) (x : Z) :
  nth_error (range lo hi) i = Some x -> x = lo + Z.of_nat i.
Proof.
  unfold range. intros H.
  destruct (nth_error (seq 0 (Z.to_nat (hi - lo))) i) as [j|] eqn:E.
  - pose proof (map_nth_error (fun i => lo + Z.of_nat i) _ _ E) as H'.
    rewrite H' in H. injection H as <-.
    assert (Hlt : (i < length (seq 0 (Z.to_nat (hi - lo))))%nat).
    { apply nth_error_Some. congruence. }
    rewrite length_seq in Hlt.
    apply nth_error_nth with (d := 0%nat) in E. rewrite seq_nth in E by exact Hlt.
    simpl in E. now subst.
  - apply nth_error_None in E. rewrite <- (length_map (fun i => lo + Z.of_nat i)) in E.
    apply nth_error_None in E. fold (range lo hi) in E. unfold range in E. congruence.
Qed.

Lemma range_NoDup (lo hi : Z) : NoDup (range lo hi).
Proof.
  unfold range. generalize (seq_NoDup (Z.to_nat (hi - lo)) 0).
  induction (seq 0 (Z.to_nat (hi - lo))) as [|i l IH]; intros H; [constructor|].
  inversion H as [|? ? Hi Hl]; subst. simpl. constructor; [|now apply IH].
  rewrite in_map_iff. intros (j & Hj & Hin).
  assert (j = i) by lia. now subst.
Qed.

(** The chapters are numbered from [start] on. *)
Definition numbered_from (start : Z) (l : list ChapterDefinition) : Prop :=
  forall i ch, nth_error l i = Some ch -> number ch = start + Z.of_nat i.

Lemma sequential_numbered (C : list ChapterDefinition) :
  map number C = range 1 (Z.of_nat (length C) + 1) -> numbered_from 1 C.
Proof.
  intros H i ch Hi.
  apply (map_nth_error number) in Hi. rewrite H in Hi.
  now apply range_nth in Hi.
Qed.

Lemma find_number_numbered (l : list ChapterDefinition) :
  forall start n,
    numbered_from start l ->
    (start <= n < start + Z.of_nat (length l) ->
     exists ch, find_number l n = Some ch
                /\ nth_error l (Z.to_nat (n - start)) = Some ch
                /\ number ch = n)
    /\ (~ start <= n < start + Z.of_nat (length l) -> find_number l n = None).
Proof.
  induction l as [|x l IH]; intros start n Hnum.
  - simpl. split; [lia | reflexivity].
  - assert (Hx : number x = start) by (rewrite (Hnum 0%nat x eq_refl); lia).
    assert (Hl : numbered_from (start + 1) l).
    { intros i ch Hi. rewrite (Hnum (S i) ch Hi). lia. }
    destruct (IH (start + 1) n Hl) as [Hin Hout].
    simpl find_number. rewrite Hx. simpl length.
    destruct (Z.eqb_spec start n) as [<-|Hne].
    + split; [|lia]. intros _. exists x. rewrite Z.sub_diag. simpl. auto.
    + split.
      * intros Hr. destruct Hin as (ch & Hf & Hn & Hc); [lia|].
        exists ch. split; [exact Hf|]. split; [|exact Hc].
        replace (Z.to_nat (n - start)) with (S (Z.to_nat (n - (start + 1)))) by lia.
        exact Hn.
      * intros Hr. apply Hout. lia.
Qed.

Lemma find_slug_sound (l : list ChapterDefinition) (s : str) (ch : ChapterDefinition) :
  find_slug l s = Some ch -> In ch l /\ slug ch = s.
Proof.
  induction l as [|x l IH]; simpl; [discriminate|].
  destruct (PyStr.eqb (slug x) s) eqn:E.
  - intros [= <-]. apply PyStrFacts.eqb_eq in E. auto.
  - intros H. destruct (IH H). auto.
Qed.

Lemma find_slug_absent (l : list ChapterDefinition) (s : str) :
  ~ In s (map slug l) -> find_slug l s = None.
Proof.
  induction l as [|x l IH]; simpl; [reflexivity|].
  intros H. destruct (PyStr.eqb (slug x) s) eqn:E.
  - apply PyStrFacts.eqb_eq in E. tauto.
  - apply IH. tauto.
Qed.

Lemma find_slug_member (l : list ChapterDefinition) (ch : ChapterDefinition) :
  NoDup (map slug l) -> In ch l -> find_slug l (slug ch) = Some ch.
Proof.
  induction l as [|x l IH]; simpl; [tauto|].
  intros Hnd [->|Hin].
  - now rewrite PyStrFacts.eqb_refl.
  - inversion Hnd as [|? ? Hx Hl]; subst.
    destruct (PyStr.eqb (slug x) (slug ch)) eqn:E.
    + apply PyStrFacts.eqb_eq in E. exfalso. apply Hx. rewrite E. now apply in_map.
    + now apply IH.
Qed.

(** What an empty list of validation errors says. *)
Lemma validate_curriculum_nil (C : list ChapterDefinition) :
  validate_curriculum C = [] <->
  map number C = range 1 (Z.of_nat (length C) + 1)
  /\ NoDup (map slug C)
  /\ Forall (fun ch => 800 <= word_count_target ch <= 1200) C
  /\ Forall (fun ch => (3 <= length (learning_objectives ch) <= 5)%nat) C.
Proof.
  unfold validate_curriculum. cbv zeta.
  assert (Hw : flat_map word_count_target_errors C = [] <->
               Forall (fun ch => 800 <= word_count_target ch <= 1200) C).
  { rewrite flat_map_nil, !Forall_forall.
    split; intros H x Hx; apply word_count_target_errors_nil; now apply H. }
  assert (Ho : flat_map objective_count_errors C = [] <->
               Forall (fun ch => (3 <= length (learning_objectives ch) <= 5)%nat) C).
  { rewrite flat_map_nil, !Forall_forall.
    split; intros H x Hx; apply objective_count_errors_nil; now apply H. }
  split.
  - intros H.
    apply app_nil_inv in H as [H Hobj]. apply app_nil_inv in H as [H Hwct].
    destruct (list_eq_dec Z.eq_dec (map number C) (range 1 (Z.of_nat (length C) + 1)))
      as [Hseq|Hseq]; [|apply app_nil_inv in H as [_ H]; discriminate].
    destruct (length (map slug C) =? length (nodup Validator.str_eq_dec (map slug C)))%nat
      eqn:Es; simpl in H;
      [|apply app_nil_inv in H as [_ H]; discriminate].
    apply Nat.eqb_eq in Es. symmetry in Es. apply ValidityFacts.nodup_length_iff in Es.
    split; [exact Hseq|]. split; [exact Es|]. split; [now apply Hw | now apply Ho].
  - intros (Hseq & Hnd & Hwct & Hobj).
    apply Hw in Hwct. apply Ho in Hobj. rewrite Hwct, Hobj.
    assert (Hn : NoDup (map number C)) by (rewrite Hseq; apply range_NoDup).
    apply (ValidityFacts.nodup_length_iff Z.eq_dec) in Hn.
    apply (ValidityFacts.nodup_length_iff Validator.str_eq_dec) in Hnd.
    rewrite Hn, Hnd, !Nat.eqb_refl. simpl.
    destruct (list_eq_dec Z.eq_dec _ _) as [_|Hne]; [reflexivity | contradiction].
Qed.

Lemma get_chapter_by_number_valid (C : list ChapterDefinition) (n : Z) :
  validate_curriculum C = [] ->
  (1 <= n <= Z.of_nat (length C) ->
   exists ch, get_chapter_by_number C n = inr ch
              /\ nth_error C (Z.to_nat (n - 1)) = Some ch
              /\ number ch = n)
  /\ (~ 1 <= n <= Z.of_nat (length C) ->
      get_chapter_by_number C n
      = raise ValueError
          (lit "Invalid chapter number: " ++ of_Z n ++ lit " (valid: 1-8)")).
Proof.
  intros H. apply validate_curriculum_nil in H as (Hseq & _).
  destruct (find_number_numbered C 1 n (sequential_numbered C Hseq)) as [Hin Hout].
  unfold get_chapter_by_number. split.
  - intros Hr. destruct Hin as (ch & Hf & Hn & Hc); [lia|].
    exists ch. now rewrite Hf.
  - intros Hr. rewrite Hout by lia. reflexivity.
Qed.

Lemma shipped_curriculum_valid : validate_curriculum CURRICULUM = [].
Proof. vm_compute. reflexivity. Qed.

(** [validate_curriculum] returns no error exactly when the chapters are
    numbered 1, 2, ... in order, the slugs are pairwise distinct, every
    word count target lies in [800, 1200] and every chapter has three to
    five learning objectives.  The curriculum of the module is such a
    list and each of its chapters passes the constructor's check, so
    importing the module does not raise. *)
Theorem validate_curriculum_accepts_iff (C : list ChapterDefinition) :
  (validate_curriculum C = [] <->
   map number C = range 1 (Z.of_nat (length C) + 1)
   /\ NoDup (map slug C)
   /\ Forall (fun ch => 800 <= word_count_target ch <= 1200) C
   /\ Forall (fun ch => (3 <= length (learning_objectives ch) <= 5)%nat) C)
  /\ validate_curriculum CURRICULUM = []
  /\ Forall (fun ch => __post_init__ ch = ret tt) CURRICULUM.
Proof.
  split; [apply validate_curriculum_nil|].
  split; [apply shipped_curriculum_valid|].
  repeat constructor.
Qed.

(** On a curriculum that [validate_curriculum] accepts,
    [get_chapter_by_number n] returns, for [n] between 1 and the number
    of chapters, the chapter at position [n - 1], whose number is [n],
    and raises [ValueError] for any other [n].  Looking a chapter up by
    its own slug or by its own number returns that chapter; a chapter
    returned by [get_chapter_by_slug] belongs to the curriculum and has
    the slug asked for; a slug that no chapter has raises
    [ValueError]. *)
Theorem lookups_return_the_chapter_asked_for (C : list ChapterDefinition)
  (Hvalid : validate_curriculum C = []) :
  (forall n, 1 <= n <= Z.of_nat (length C) ->
     exists ch, get_chapter_by_number C n = inr ch
                /\ nth_error C (Z.to_nat (n - 1)) = Some ch
                /\ number ch = n)
  /\ (forall n, ~ 1 <= n <= Z.of_nat (length C) ->
        exists e, get_chapter_by_number C n = inl e /\ cls e = ValueError)
  /\ (forall ch, In ch C ->
        get_chapter_by_slug C (slug ch) = inr ch
        /\ get_chapter_by_number C (number ch) = inr ch)
  /\ (forall s ch, get_chapter_by_slug C s = inr ch -> In ch C /\ slug ch = s)
  /\ (forall s, ~ In s (map slug C) ->
        exists e, get_chapter_by_slug C s = inl e /\ cls e = ValueError).
Proof.
  pose proof Hvalid as Hv. apply validate_curriculum_nil in Hv as (Hseq & Hnd & _).
  split; [|split; [|split; [|split]]].
  - intros n. apply (get_chapter_by_number_valid C n Hvalid).
  - intros n Hr. destruct (get_chapter_by_number_valid C n Hvalid) as [_ Hout].
    eexists. split; [apply (Hout Hr) | reflexivity].
  - intros ch Hin. split.
    + unfold get_chapter_by_slug. now rewrite (find_slug_member C ch Hnd Hin).
    + apply In_nth_error in Hin as [i Hi].
      assert (Hlt : (i < length C)%nat) by (apply nth_error_Some; congruence).
      pose proof (sequential_numbered C Hseq i ch Hi) as Hn.
      destruct (get_chapter_by_number_valid C (number ch) Hvalid) as [Hin _].
      destruct Hin as (ch' & Hg & Hnth & _); [lia|].
      rewrite Hg. f_equal.
      replace (Z.to_nat (number ch - 1)) with i in Hnth by lia. congruence.
  - intros s ch. unfold get_chapter_by_slug.
    destruct (find_slug C s) as [ch'|] eqn:E; [|discriminate].
    intros [= <-]. now apply find_slug_sound.
  - intros s Hs. unfold get_chapter_by_slug. rewrite (find_slug_absent C s Hs).
    eexists. split; reflexivity.
Qed.

End CurriculumFacts.

(** ** generate_chapter_by_number *)

Module ChapterByNumberFacts.

Import Curriculum ChapterGenerator ChapterGeneratorApi.
Open Scope Z_scope.

(** [generate_chapter_by_number] looks the chapter up before anything
    else: for a number outside 1..8 it raises [ValueError] and sends no
    request, whether a client was given or not.  A chapter it returns
    carries the number asked for, which lies in 1..8, and was produced
    on one of the attempts 1, 2, 3. *)
Theorem generate_chapter_by_number_checks_number_first
  (provider : nat -> LLMClient.Request -> LLMClient.ProviderOutcome) (random : nat -> Q)
  (get_chapter_generation_prompt : ChapterDefinition -> str) (system : str)
  (env_key : option str) (chapter_number : Z)
  (llm_client : option (LLMClient.Client * LLMClient.State)) :
  let out :=
    generate_chapter_by_number provider random get_chapter_generation_prompt system
      env_key chapter_number llm_client in
  (~ 1 <= chapter_number <= 8 ->
   (exists e, fst out = inl e /\ cls e = ValueError)
   /\ snd out = match llm_client with
                | Some (_, st) => st
                | None => LLMClient.initial_state
                end)
  /\ (forall r, fst out = inr r ->
        1 <= chapter_number <= 8
        /\ ChapterGenerator.chapter_number r = chapter_number
        /\ 1 <= generation_attempts r <= 3).
Proof.
  cbv zeta. unfold generate_chapter_by_number.
  destruct (CurriculumFacts.get_chapter_by_number_valid CurriculumData.CURRICULUM
              chapter_number CurriculumFacts.shipped_curriculum_valid) as [Hin Hout].
  change (Z.of_nat (length CurriculumData.CURRICULUM)) with 8 in Hin, Hout.
  split.
  - intros Hr. rewrite (Hout Hr). simpl. split; [|reflexivity].
    eexists. split; reflexivity.
  - intros r.
    destruct (Z_le_dec 1 chapter_number) as [H1|H1];
      [destruct (Z_le_dec chapter_number 8) as [H8|H8]|].
    + destruct Hin as (ch & Hg & _ & Hn); [lia|]. rewrite Hg.
      destruct (match llm_client with
                | Some c => ret c
                | None => _
                end) as [e|[client st]]; [discriminate|].
      destruct (generate_chapter _ _ _ _ _ _ _) as [[e|r'] st'] eqn:Hgen; [discriminate|].
      simpl. intros [= ->].
      apply ChapterRunFacts.generate_chapter_ok in Hgen.
      destruct Hgen as (Hatt & Hnum & _).
      apply RangeMembers.range_In in Hatt. simpl in Hatt.
      split; [lia|]. split; [congruence | lia].
    + rewrite Hout by lia. discriminate.
    + rewrite Hout by lia. discriminate.
Qed.

End ChapterByNumberFacts.

(** ** Chapter files *)

Module WriterFacts.

Import MarkdownWriter.
Open Scope Z_scope.

Lemma format_02d_digit (n : Z) :
  1 <= n <= 8 -> format_02d n = [48%N; (48 + Z.to_N n)%N].
Proof.
  intros H.
  assert (Hn : n = 1 \/ n = 2 \/ n = 3 \/ n = 4 \/ n = 5 \/ n = 6 \/ n = 7 \/ n = 8)
    by lia.
  destruct Hn as [->|[->|[->|[->|[->|[->|[->| ->]]]]]]]; reflexivity.
Qed.

Lemma two_chars_inv (a b c d : char) (r r' : str) :
  [a; b] ++ r = [c; d] ++ r' -> b = d /\ r = r'.
Proof. simpl. intros [= _ -> ->]. auto. Qed.

(** Two chapters with numbers in 1..8 get the same file name only when
    they have the same number and the same slug: [write_chapter] never
    puts two different chapters in one file. *)
Lemma chapter_filename_injective (n m : Z) (s t : str)
  (Hn : 1 <= n <= 8) (Hm : 1 <= m <= 8) :
  chapter_filename n s = chapter_filename m t -> n = m /\ s = t.
Proof.
  unfold chapter_filename.
  rewrite (format_02d_digit n Hn), (format_02d_digit m Hm).
  intros H. apply app_inv_head in H. apply two_chars_inv in H as [Hd Hs].
  split; [lia|]. apply app_inv_head in Hs. now apply app_inv_tail in Hs.
Qed.

Section Writer.

Variable Path : Type.
Variable path_eqb : Path -> Path -> bool.
Variable joinpath : str -> str -> Path.
Variable unwritable : Path -> bool.
Variable today : str.
Variable sha256 : str -> str.
Variable lower : str -> str.
Variable path_str : Path -> str.
Variable docs_directory : str.

Hypothesis path_eqb_eq : forall p q, path_eqb p q = true <-> p = q.

Let path := get_chapter_file_path Path joinpath docs_directory.
Let write_chapter := write_chapter Path path_eqb joinpath unwritable sha256 lower
                       docs_directory.
Let append_summary_to_chapter :=
  append_summary_to_chapter Path path_eqb joinpath unwritable today sha256 path_str
    docs_directory.




End Writer.

End WriterFacts.

(** ** The summary task and the chapter files *)

Module SummaryTaskFacts.

Import Curriculum GenerationJob GenerationService MarkdownWriter SummaryTask.
Open Scope Z_scope.

Section Task.

Variable provider : nat -> LLMClient.Request -> LLMClient.ProviderOutcome.
Variable random : nat -> Q.
Variable json_loads : str -> option json.
Variable get_summary_generation_prompt : str -> str -> str.
Variable system : str.
Variable Path : Type.
Variable path_eqb : Path -> Path -> bool.
Variable joinpath : str -> str -> Path.
Variable unwritable : Path -> bool.
Variable today : str.
Variable sha256 : str -> str.
Variable path_str : Path -> str.
Variable llm_client : LLMClient.Client.
Variable commit_fails : nat -> bool.
Variable schedule : list ChapterDefinition -> list ChapterDefinition.

Let path (ch : ChapterDefinition) : Path :=
  get_chapter_file_path Path joinpath docs_directory (number ch) (slug ch).

Let summary_task_of :=
  summary_task_of provider random json_loads get_summary_generation_prompt system
    Path path_eqb joinpath unwritable today sha256 path_str llm_client.

Lemma missing_file_fails (ch : ChapterDefinition) (fs : Files Path)
  (st : LLMClient.State) :
  fs (path ch) = None ->
  summary_task_of ch fs st
  = (raise FileNotFoundError
       (lit "Chapter file not found: " ++ path_str (path ch)
        ++ lit ". Chapter must be generated before summary."), (fs, st)).
Proof.
  intros H. unfold summary_task_of, SummaryTask.summary_task_of. cbv zeta.
  fold (path ch). now rewrite H.
Qed.

Lemma gather_all_fail (summary_task : ChapterDefinition -> result Z)
  (tasks : list ChapterDefinition) (w : World) :
  (forall ch, In ch tasks -> exists e, summary_task ch = inl e) ->
  gather commit_fails summary_task tasks w = (length tasks, w).
Proof.
  induction tasks as [|ch rest IH]; intros H; [reflexivity|].
  cbn [gather]. unfold _generate_single_summary.
  destruct (H ch (or_introl eq_refl)) as [e ->].
  rewrite IH; [reflexivity|]. intros c Hc. apply H. now right.
Qed.


(** When none of the chapter files exists, the summary stage sends no
    request: every task fails, and the stage records the one error
    [Failed to generate summaries for N chapters], with [N] the number
    of chapters.  The job's progress counter, its token usage and its
    status are left as they were. *)
Theorem summaries_fail_without_chapter_files
  (curriculum : list ChapterDefinition) (fs : Files Path) (st : LLMClient.State)
  (w : World)
  (Hfiles : forall ch, In ch curriculum ->
     chapter_file_exists Path joinpath docs_directory (number ch) (slug ch) fs = false)
  (Hsched : forall ch, In ch (schedule curriculum) -> In ch curriculum)
  (Hlen : length (schedule curriculum) = length curriculum)
  (Hne : curriculum <> []) :
  let summary_task := fun ch => fst (summary_task_of ch fs st) in
  let out :=
    _generate_summaries_for_chapters commit_fails summary_task schedule curriculum w in
  out = _add_job_error commit_fails
          (lit "Failed to generate summaries for " ++ of_nat (length curriculum)
           ++ lit " chapters") w
  /\ llm (snd out) = llm w
  /\ match job w, job (snd out) with
     | Some j, Some j' =>
         chapters_completed j' = chapters_completed j
         /\ token_usage j' = token_usage j
         /\ status j' = status j
         /\ errors j'
            = errors j ++ [lit "Failed to generate summaries for "
                           ++ of_nat (length curriculum) ++ lit " chapters"]
     | None, None => True
     | _, _ => False
     end.
Proof.
  cbv zeta.
  assert (Hout :
    _generate_summaries_for_chapters commit_fails
      (fun ch => fst (summary_task_of ch fs st)) schedule curriculum w
    = _add_job_error commit_fails
        (lit "Failed to generate summaries for " ++ of_nat (length curriculum)
         ++ lit " chapters") w).
  { unfold _generate_summaries_for_chapters.
    rewrite gather_all_fail.
    - rewrite Hlen. destruct curriculum; [contradiction | reflexivity].
    - intros ch Hin. apply Hsched in Hin. specialize (Hfiles ch Hin).
      unfold chapter_file_exists in Hfiles. cbv zeta in Hfiles.
      rewrite missing_file_fails; [eexists; reflexivity|].
      unfold path. destruct (fs _); [discriminate | reflexivity]. }
  rewrite Hout. split; [reflexivity|].
  unfold _add_job_error, _get_job. destruct (job w) as [j|] eqn:Hj;
    [|cbn [snd]; rewrite Hj; split; auto].
  unfold commit, with_job. cbn [llm job chapters commits pauses].
  destruct (commit_fails (commits w)); cbn [snd llm job]; split; try reflexivity;
    unfold add_error; cbn; auto.
Qed.

End Task.

End SummaryTaskFacts.

(** ** Learning objectives *)

Module ObjectivesFacts.

Import Regex Validator.

(** The objectives as a chapter lists them: one [- objective] line
    each. *)
Definition objective_lines (objectives : list str) : str :=
  concat (map (fun o => lit "- " ++ o ++ nl) objectives).

(** A list item the pattern reads back unchanged: it is not empty, does
    not begin with whitespace and holds no newline. *)
Definition one_line_item (o : str) : Prop :=
  o <> [] /\ lstrip o = o /\ Forall (fun c => is_newline c = false) o.

Lemma objectives_match_needs_h2 (s : str) :
  startswith [HASH; HASH] s = false -> objectives_match s = None.
Proof. intros H. unfold objectives_match. now rewrite H. Qed.

Lemma search_step (c : char) (s : str) :
  objectives_search (c :: s)
  = match objectives_match (c :: s) with
    | Some section => Some section
    | None => objectives_search s
    end.
Proof. reflexivity. Qed.

Lemma search_skips_prefix (pre rest : str) :
  contains [HASH; HASH] (pre ++ [HASH]) = false ->
  objectives_search (pre ++ HASH :: rest) = objectives_search (HASH :: rest).
Proof.
  induction pre as [|c p IH]; intros H; [reflexivity|].
  change ((c :: p) ++ [HASH]) with (c :: (p ++ [HASH])) in H.
  cbn [contains] in H. apply orb_false_iff in H as [Hs Hc].
  change ((c :: p) ++ HASH :: rest) with (c :: (p ++ HASH :: rest)).
  rewrite search_step, objectives_match_needs_h2; [now apply IH|].
  destruct p as [|d p]; simpl in *; exact Hs.
Qed.

Lemma heading_match (X : str) :
  span_len isspace X = 0%nat ->
  objectives_match (lit "## Learning Objectives" ++ nl ++ X)
  = Some (until_next_section X).
Proof.
  intros H.
  change (lit "## Learning Objectives" ++ nl ++ X)
    with (HASH :: HASH :: 32%N :: lit "Learning Objective" ++ 115%N :: NL :: X).
  unfold objectives_match.
  change (startswith [HASH; HASH]
            (HASH :: HASH :: 32%N :: lit "Learning Objective" ++ 115%N :: NL :: X))
    with true.
  cbv iota zeta.
  change (skipn 2 (HASH :: HASH :: 32%N :: lit "Learning Objective" ++ 115%N :: NL :: X))
    with (32%N :: lit "Learning Objective" ++ 115%N :: NL :: X).
  change (span_len isspace (32%N :: lit "Learning Objective" ++ 115%N :: NL :: X))
    with 1%nat.
  change (skipn 1 (32%N :: lit "Learning Objective" ++ 115%N :: NL :: X))
    with (lit "Learning Objective" ++ 115%N :: NL :: X).
  change (ci_literal (lit "learning objective")
            (lit "Learning Objective" ++ 115%N :: NL :: X))
    with (Some (115%N :: NL :: X)).
  cbv iota.
  change (ci_match 115%N 115%N) with true. cbv iota.
  unfold ws_then_newline.
  change (span_len isspace (NL :: X)) with (S (span_len isspace X)).
  rewrite H. reflexivity.
Qed.

Lemma until_next_section_line (a rest : str) :
  Forall (fun c => is_newline c = false) a ->
  until_next_section (a ++ rest) = a ++ until_next_section rest.
Proof.
  induction 1 as [|c a Hc Ha IH]; [reflexivity|].
  change ((c :: a) ++ rest) with (c :: (a ++ rest)).
  cbn [until_next_section].
  replace (startswith [NL; HASH; HASH] (c :: a ++ rest)) with false.
  - now rewrite IH.
  - unfold is_newline in Hc. cbn [startswith]. rewrite (N.eqb_sym NL c), Hc. reflexivity.
Qed.

Lemma until_next_section_newline (rest : str) :
  startswith [HASH; HASH] rest = false ->
  until_next_section (NL :: rest) = NL :: until_next_section rest.
Proof.
  intros H. cbn [until_next_section].
  change (startswith [NL; HASH; HASH] (NL :: rest)) with (startswith [HASH; HASH] rest).
  now rewrite H.
Qed.

Lemma item_no_newline_marker :
  Forall (fun c => is_newline c = false) (lit "- ").
Proof. repeat constructor. Qed.

Lemma lines_start (objectives : list str) (tail : str) :
  objectives <> [] ->
  exists r, objective_lines objectives ++ tail = 45%N :: r.
Proof.
  destruct objectives as [|o rest]; [contradiction|]. intros _.
  unfold objective_lines. simpl. eexists. reflexivity.
Qed.

Lemma until_next_section_lines (objectives : list str) (tail : str) :
  Forall one_line_item objectives ->
  until_next_section tail = [] ->
  startswith [HASH; HASH] tail = false ->
  until_next_section (objective_lines objectives ++ tail) = objective_lines objectives.
Proof.
  intros Hall Htail Hh2.
  induction Hall as [|o rest (Hne & Hstrip & Hnl) Hrest IH].
  - simpl. exact Htail.
  - unfold objective_lines. cbn [map concat]. fold (objective_lines rest).
    rewrite <- !app_assoc.
    rewrite (until_next_section_line (lit "- ")) by apply item_no_newline_marker.
    rewrite (until_next_section_line o) by exact Hnl.
    change (nl ++ objective_lines rest ++ tail)
      with (NL :: (objective_lines rest ++ tail)).
    rewrite until_next_section_newline.
    + rewrite IH. reflexivity.
    + destruct rest as [|o' rest']; [exact Hh2|].
      destruct (lines_start (o' :: rest') tail) as [r ->]; [discriminate | reflexivity].
Qed.

Lemma findall_skip (a : str) :
  forall b s,
    findall_list_items (length a) b (a ++ s)
    = findall_list_items 0 (match rev a with c :: _ => is_newline c | [] => b end) s.
Proof.
  induction a as [|c a IH]; intros b s; [reflexivity|].
  change ((c :: a) ++ s) with (c :: (a ++ s)). cbn [length findall_list_items].
  rewrite IH. cbn [rev]. destruct (rev a) as [|d r] eqn:E; reflexivity.
Qed.

Lemma span_not_newline (o rest : str) :
  Forall (fun c => is_newline c = false) o ->
  span_len (fun x => negb (is_newline x)) (o ++ NL :: rest) = length o.
Proof.
  induction 1 as [|c o Hc Ho IH]; [reflexivity|].
  simpl app. cbn [span_len]. rewrite Hc. cbn [negb]. now rewrite IH.
Qed.

Lemma lstrip_shorter (s : str) : (length (lstrip s) <= length s)%nat.
Proof.
  induction s as [|c s IH]; [reflexivity|].
  cbn [lstrip]. destruct (isspace c); simpl; lia.
Qed.

Lemma list_item_match_line (o rest : str) :
  one_line_item o ->
  list_item_match (lit "- " ++ o ++ NL :: rest) = Some ((2 + length o)%nat, o).
Proof.
  intros (Hne & Hstrip & Hnl).
  change (lit "- " ++ o ++ NL :: rest) with (45%N :: 32%N :: (o ++ NL :: rest)).
  unfold list_item_match. change (is_list_marker 45%N) with true. cbv iota.
  assert (Hspan : span_len isspace (32%N :: o ++ NL :: rest) = 1%nat).
  { change (span_len isspace (32%N :: o ++ NL :: rest))
      with (S (span_len isspace (o ++ NL :: rest))).
    destruct o as [|c o']; [contradiction|].
    simpl app. cbn [span_len]. cbn [lstrip] in Hstrip.
    destruct (isspace c); [|reflexivity].
    exfalso. pose proof (lstrip_shorter o') as Hlen.
    rewrite Hstrip in Hlen. simpl in Hlen. lia. }
  rewrite Hspan. cbn [line_backtrack].
  change (skipn 1 (32%N :: o ++ NL :: rest)) with (o ++ NL :: rest).
  rewrite (span_not_newline o rest Hnl).
  destruct o as [|c o']; [contradiction|].
  cbn [length Nat.ltb Nat.leb option_map fst snd].
  change (skipn 1 (32%N :: (c :: o') ++ NL :: rest)) with ((c :: o') ++ NL :: rest).
  f_equal. f_equal.
  change (S (length o')) with (length (c :: o')).
  rewrite firstn_app, Nat.sub_diag, firstn_all. simpl. now rewrite app_nil_r.
Qed.

Lemma findall_lines (objectives : list str) :
  Forall one_line_item objectives ->
  findall_list_items 0 true (objective_lines objectives) = objectives.
Proof.
  induction 1 as [|o rest Ho Hrest IH]; [reflexivity|].
  unfold objective_lines. cbn [map concat]. fold (objective_lines rest).
  rewrite <- !app_assoc.
  change (nl ++ objective_lines rest) with (NL :: objective_lines rest).
  pose proof (list_item_match_line o (objective_lines rest) Ho) as Hm.
  change (lit "- " ++ o ++ NL :: objective_lines rest)
    with (45%N :: (32%N :: o) ++ NL :: objective_lines rest) in *.
  cbn [findall_list_items]. rewrite Hm. cbn [Nat.pred Nat.add].
  f_equal.
  change (S (length o)) with (length (32%N :: o)).
  rewrite findall_skip.
  destruct Ho as (Hne & _ & Hnl).
  match goal with
  | |- findall_list_items 0 ?b _ = _ => assert (Hlast : b = false)
  end.
  { destruct (exists_last Hne) as (o' & d & ->).
    cbn [rev]. rewrite rev_app_distr. cbn [rev app].
    apply Forall_app in Hnl as [_ Hd]. now inversion Hd. }
  rewrite Hlast. cbn [findall_list_items]. exact IH.
Qed.

(** A chapter lists its objectives under the heading
    [## Learning Objectives], one [- objective] line each, with no
    level-two heading before the section, and the section runs to the end
    of the text or to a blank line followed by the next [##] heading.
    [_extract_learning_objectives] then returns exactly the objectives
    listed, in order. *)
Theorem extract_learning_objectives_reads_back (pre tail : str) (objectives : list str)
  (Hpre : contains (lit "##") (pre ++ lit "#") = false)
  (Hitems : Forall one_line_item objectives)
  (Htail : tail = [] \/ (objectives <> [] /\ startswith (nl ++ lit "##") tail = true)) :
  _extract_learning_objectives
    (pre ++ lit "## Learning Objectives" ++ nl ++ objective_lines objectives ++ tail)
  = objectives.
Proof.
  unfold _extract_learning_objectives.
  change (lit "## Learning Objectives" ++ nl ++ objective_lines objectives ++ tail)
    with (HASH :: (lit "# Learning Objectives" ++ nl ++ objective_lines objectives ++ tail)).
  rewrite (search_skips_prefix pre _ Hpre).
  rewrite search_step.
  change (HASH :: (lit "# Learning Objectives" ++ nl ++ objective_lines objectives ++ tail))
    with (lit "## Learning Objectives" ++ nl ++ (objective_lines objectives ++ tail)).
  assert (Hspan : span_len isspace (objective_lines objectives ++ tail) = 0%nat).
  { destruct objectives as [|o rest].
    - destruct Htail as [->|[Hne _]]; [reflexivity | contradiction].
    - destruct (lines_start (o :: rest) tail) as [r ->]; [discriminate | reflexivity]. }
  rewrite (heading_match _ Hspan).
  rewrite until_next_section_lines.
  - now apply findall_lines.
  - exact Hitems.
  - destruct Htail as [->|[_ H]]; [reflexivity|].
    destruct tail as [|a t]; [discriminate|].
    change (nl ++ lit "##") with [NL; HASH; HASH] in H.
    cbn [until_next_section]. now rewrite H.
  - destruct Htail as [->|[_ H]]; [reflexivity|].
    destruct tail as [|a t]; [discriminate|].
    change (nl ++ lit "##") with [NL; HASH; HASH] in H.
    cbn [startswith] in H. apply andb_true_iff in H as [Ha _].
    apply N.eqb_eq in Ha. subst a. reflexivity.
Qed.

End ObjectivesFacts.

(** ** The client's counter and the one-off helper *)

Module ClientApiFacts.

Import LLMClient LLMClientApi.
Open Scope Z_scope.



(** After [reset_token_counter], the total a client reports at the end
    of the next [generate] is the token count of that call's result, or
    zero when the call raises; resetting changes nothing but the
    counter. *)
Lemma reset_then_generate_counts_one_call
  (provider : nat -> Request -> ProviderOutcome) (random : nat -> Q) (self : Client)
  (req : Request) (st : State) :
  let st0 := reset_token_counter st in
  let out := generate provider random self req st0 in
  get_total_tokens_used st0 = 0
  /\ sent st0 = sent st /\ draws st0 = draws st /\ slept st0 = slept st
  /\ get_total_tokens_used (snd out)
     = match fst out with
       | inr r => tokens_used r
       | inl _ => 0
       end.
Proof.
  cbv zeta. repeat (split; [reflexivity|]).
  pose proof (ClientRunFacts.generate_accounted provider random self req
                (reset_token_counter st) _ _ (surjective_pairing _)) as H.
  unfold ClientRunFacts.accounted in H. unfold get_total_tokens_used.
  destruct (fst (generate provider random self req (reset_token_counter st))).
  - exact H.
  - destruct H as [H _]. rewrite H. reflexivity.
Qed.


End ClientApiFacts.

(** ** Instances of the theorems on concrete runs *)

Module Instances.

Import Curriculum GenerationJob.
Open Scope Z_scope.

(** A provider that is rate limited once and then answers. *)
Definition limited_once (n : nat) (req : LLMClient.Request) : LLMClient.ProviderOutcome :=
  match n with
  | O => LLMClient.Raises (mkExn RateLimitError (lit "429"))
  | S _ =>
      LLMClient.Responds
        (LLMClient.mkResponse (lit "text") (LLMClient.model req) 10 20 (lit "end_turn")
           (lit "msg"))
  end.

Definition answer_after_limit : LLMClient.Response :=
  LLMClient.mkResponse (lit "text") LLMClient.MODEL_SONNET 10 20 (lit "end_turn")
    (lit "msg").

(** Paths as strings, joined with a slash; every path can be written. *)
Definition slash (directory name : str) : str := directory ++ lit "/" ++ name.
Definition writable (p : str) : bool := false.
Definition no_files : MarkdownWriter.Files str := fun _ => None.
Definition same_text (s : str) : str := s.
Definition a_day : str := lit "2025-01-01".

Lemma only_generation_error_instance :
  exists e st,
    LLMClient.generate Examples.rate_limited Examples.half LLMClient.default_client
      Examples.sample_request LLMClient.initial_state = (inl e, st)
    /\ cls e = GenerationError.
Proof.
  destruct (LLMClient.generate Examples.rate_limited Examples.half
              LLMClient.default_client Examples.sample_request LLMClient.initial_state)
    as [[e|r] st] eqn:E.
  - exists e, st. split; [reflexivity|].
    apply (ClientRunFacts.generate_raises_only_generation_error Examples.rate_limited
             Examples.half LLMClient.default_client)
      with (req := Examples.sample_request) (st := LLMClient.initial_state) (st' := st).
    + vm_compute. discriminate.
    + intros n. vm_compute. discriminate.
    + left. exact E.
  - vm_compute in E. discriminate.
Defined.

Lemma api_error_not_retried_instance :
  LLMClient.generate Examples.failing_provider Examples.half LLMClient.default_client
    Examples.sample_request LLMClient.initial_state
  = (raise GenerationError (lit "API error: overloaded"),
     LLMClient.mkState 0 [Examples.sample_request] 0 []).
Proof.
  exact (ClientRunFacts.generate_does_not_retry_other_errors Examples.failing_provider
           Examples.half LLMClient.default_client Examples.sample_request
           LLMClient.initial_state (mkExn APIError (lit "overloaded"))
           eq_refl eq_refl eq_refl).
Defined.

Lemma recovery_after_one_rate_limit_instance :
  exists ds,
    LLMClient.generate limited_once Examples.half LLMClient.default_client
      Examples.sample_request LLMClient.initial_state
    = (inr (ClientRunFacts.result_of answer_after_limit),
       LLMClient.mkState 30 [Examples.sample_request; Examples.sample_request] 1 ds)
    /\ length ds = 1%nat.
Proof.
  destruct (ClientRunFacts.generate_recovers_from_transient_errors limited_once
              Examples.half LLMClient.default_client 1 Examples.sample_request
              LLMClient.initial_state answer_after_limit)
    as (ds & H & Hlen & _).
  - vm_compute. discriminate.
  - intros n. split; vm_compute; [discriminate | reflexivity].
  - vm_compute. reflexivity.
  - intros i Hi. assert (Hi0 : i = 0%nat) by lia. subst i.
    eexists. split; reflexivity.
  - reflexivity.
  - exists ds. split; [exact H | exact Hlen].
Defined.

Lemma fenced_answer_instance :
  strip_code_fence (nl ++ (lit "```json" ++ lit "[1]" ++ lit "```") ++ lit " ")
  = lit "[1]".
Proof.
  exact (proj1 (FenceFacts.strip_code_fence_unwraps nl (lit " ") (lit "[1]")
                  eq_refl eq_refl) eq_refl).
Defined.


Lemma progress_within_twice_total_instance :
  exists w j,
    GenerationService.start_batch_generation
      (WordCountFacts.fixed_provider (Examples.words 1000)) Examples.half
      Examples.sample_md Examples.sample_prompt (lit "system") (fun _ => false) true
      (fun _ => inr 100) (fun l => l) [WordCountFacts.sample_chapter] None
    = inr (None, w)
    /\ GenerationService.job w = Some j
    /\ chapters_total j = 1
    /\ 0 <= chapters_completed j <= 2 * chapters_total j.
Proof.
  pose proof (ServiceRunFacts.batch_progress_at_most_twice_total
                (WordCountFacts.fixed_provider (Examples.words 1000)) Examples.half
                Examples.sample_md Examples.sample_prompt (lit "system")
                (fun _ => false) true (fun _ => inr 100) (fun l => l)
                [WordCountFacts.sample_chapter] None (fun l => eq_refl)) as H.
  assert (E : exists w,
             GenerationService.start_batch_generation
               (WordCountFacts.fixed_provider (Examples.words 1000)) Examples.half
               Examples.sample_md Examples.sample_prompt (lit "system") (fun _ => false)
               true (fun _ => inr 100) (fun l => l) [WordCountFacts.sample_chapter] None
             = inr (None, w))
    by (eexists; vm_compute; reflexivity).
  destruct E as [w E]. rewrite E in H. destruct H as (j & Hj & Ht & Hc).
  exists w, j. split; [exact E|]. split; [exact Hj|]. split; [exact Ht | exact Hc].
Defined.

Lemma short_chapter_not_stored_instance :
  exists e w',
    GenerationService.chapter_body (WordCountFacts.fixed_provider (lit "too brief"))
      Examples.half Examples.sample_md Examples.sample_prompt (lit "system")
      (fun _ => false) ChapterGenerator.with_defaults 1 1 WordCountFacts.sample_chapter
      Examples.started_world = (inl e, w')
    /\ cls e = ValueError
    /\ GenerationService.chapters w' = [].
Proof.
  assert (E : exists r st,
             ChapterGenerator.generate_chapter
               (WordCountFacts.fixed_provider (lit "too brief")) Examples.half
               Examples.sample_prompt (lit "system") ChapterGenerator.with_defaults
               WordCountFacts.sample_chapter
               (GenerationService.llm Examples.started_world) = (inr r, st)
             /\ ChapterGenerator.validation_passed r = false)
    by (eexists; eexists; split; [vm_compute; reflexivity | reflexivity]).
  destruct E as (r & st & E & Hv).
  destruct (ServiceRunFacts.rejected_chapter_is_not_stored
              (WordCountFacts.fixed_provider (lit "too brief")) Examples.half
              Examples.sample_md Examples.sample_prompt (lit "system") (fun _ => false)
              ChapterGenerator.with_defaults 1 1 WordCountFacts.sample_chapter
              Examples.started_world r st E (or_introl Hv)) as (e & He & Hc).
  exists e, (GenerationService.with_llm Examples.started_world st).
  split; [exact He|]. split; [exact Hc | reflexivity].
Defined.

Lemma shipped_curriculum_lookups_instance :
  CurriculumData.get_chapter_by_slug CurriculumData.CURRICULUM (lit "sensors-perception")
  = CurriculumData.get_chapter_by_number CurriculumData.CURRICULUM 3
  /\ exists e,
       CurriculumData.get_chapter_by_number CurriculumData.CURRICULUM 9 = inl e
       /\ cls e = ValueError.
Proof.
  assert (Hv : CurriculumData.validate_curriculum CurriculumData.CURRICULUM = [])
    by (vm_compute; reflexivity).
  destruct (CurriculumFacts.lookups_return_the_chapter_asked_for
              CurriculumData.CURRICULUM Hv) as (_ & Hout & Hch & _).
  split.
  - destruct (Hch (nth 2 CurriculumData.CURRICULUM WordCountFacts.sample_chapter))
      as [Hs Hn].
    + right. right. left. reflexivity.
    + exact (eq_trans Hs (eq_sym Hn)).
  - apply Hout. intros [_ H]. vm_compute in H. apply H. reflexivity.
Defined.



Lemma summaries_without_files_instance :
  GenerationService._generate_summaries_for_chapters (fun _ => false)
    (fun ch =>
       fst (SummaryTask.summary_task_of (WordCountFacts.fixed_provider (lit "oops"))
              Examples.half ParseRetryClaim.sample_loads (fun content title => title)
              (lit "system") str PyStr.eqb slash writable a_day same_text same_text
              LLMClient.default_client ch no_files LLMClient.initial_state))
    (fun l => l) CurriculumData.CURRICULUM Examples.started_world
  = GenerationService._add_job_error (fun _ => false)
      (lit "Failed to generate summaries for 8 chapters") Examples.started_world.
Proof.
  pose proof (SummaryTaskFacts.summaries_fail_without_chapter_files
                (WordCountFacts.fixed_provider (lit "oops")) Examples.half
                ParseRetryClaim.sample_loads (fun content title => title) (lit "system")
                str PyStr.eqb slash writable a_day same_text same_text
                LLMClient.default_client (fun _ => false) (fun l => l)
                CurriculumData.CURRICULUM no_files LLMClient.initial_state
                Examples.started_world) as H.
  cbv zeta in H. apply H.
  - intros ch _. reflexivity.
  - intros ch Hin. exact Hin.
  - reflexivity.
  - discriminate.
Defined.

Lemma objectives_read_back_instance :
  Validator._extract_learning_objectives
    ((lit "# Title" ++ nl ++ nl)
     ++ lit "## Learning Objectives" ++ nl
     ++ ObjectivesFacts.objective_lines
          [lit "Define Physical AI"; lit "Explain embodiment"]
     ++ (nl ++ lit "## Next" ++ nl ++ lit "text"))
  = [lit "Define Physical AI"; lit "Explain embodiment"].
Proof.
  apply ObjectivesFacts.extract_learning_objectives_reads_back.
  - vm_compute. reflexivity.
  - constructor; [|constructor; [|constructor]];
      (split; [discriminate | split; [reflexivity | repeat constructor]]).
  - right. split; [discriminate | reflexivity].
Defined.

End Instances.
